(** * InTime: the session and attendance tracking engine

    A shallow embedding of [src/services/StorageService.js] (the version
    with the in-memory cache), [src/services/NetworkService.js] and, from
    [App.js], the evaluator [checkNetworkAndSession], the background task
    and the handlers of the pause and reset buttons, followed by the
    properties the specification states about them and by further
    properties of the code.

    How the program is modelled:
    - AsyncStorage is a finite map from keys to strings.  Every call to it
      is recorded in a trace and may be rejected; which calls are rejected
      is part of the device, so that a statement about every device is a
      statement about every pattern of failures.
    - An [async] function is a tree of effects.  The tree is run to
      completion ([run]), or turn by turn between the points where the
      function waits for AsyncStorage, NetInfo or the location provider
      ([turns]); the second is how two overlapping invocations are told
      apart.
    - The device (platform, network, calendar, clock readings) does not
      change while a function runs.
    - Timestamps and durations are integers (milliseconds): the engine only
      adds and subtracts readings of [Date.now()].
    - The documents kept as JSON text are printed and parsed by a model of
      [JSON.stringify] and [JSON.parse]; a document is used at the shape
      the engine writes it in.
    - [console] output and the un-awaited [refreshTotals()] of the
      evaluator are left out.  How JavaScript prints a float is not
      modelled: [setGoalHours] takes [String] as a parameter. *)

From Stdlib Require Import ZArith QArith Ascii String Decimal DecimalZ DecimalN DecimalFacts Lia.
From stdpp Require Import base option list gmap strings.

Local Open Scope Z_scope.
#[local] Set Warnings "-register-all".

(** ** JavaScript strings *)

Module Js.

Definition dquote : ascii := "034"%char.
Definition backslash : ascii := "092"%char.

(** [if (s)] on a string or null: null, undefined and the empty string are falsy. *)
Definition truthy (s : option string) : bool :=
  match s with
  | Some (String _ _) => true
  | _ => false
  end.

Fixpoint drop_last_quote (s : string) : string :=
  match s with
  | EmptyString => EmptyString
  | String c EmptyString => if Ascii.eqb c dquote then EmptyString else s
  | String c s' => String c (drop_last_quote s')
  end.

(** [s.replace(/^"|"$/g, '')]: one quote at the very start and one at the
    very end are removed, each if present. *)
Definition stripQuotes (s : string) : string :=
  match s with
  | String c s' => if Ascii.eqb c dquote then drop_last_quote s' else drop_last_quote s
  | EmptyString => EmptyString
  end.

Definition quoted (s : string) : string :=
  String dquote (s +:+ String dquote EmptyString).

(** White space skipped by [parseFloat] and [JSON.parse] (the ASCII part). *)
Definition is_space (c : ascii) : bool :=
  let n := nat_of_ascii c in
  (n =? 32)%nat || (n =? 9)%nat || (n =? 10)%nat || (n =? 13)%nat.

Definition is_str_space (c : ascii) : bool :=
  is_space c || (nat_of_ascii c =? 11)%nat || (nat_of_ascii c =? 12)%nat.

Definition digit_of (c : ascii) : option (uint -> uint) :=
  match c with
  | "0"%char => Some D0 | "1"%char => Some D1 | "2"%char => Some D2
  | "3"%char => Some D3 | "4"%char => Some D4 | "5"%char => Some D5
  | "6"%char => Some D6 | "7"%char => Some D7 | "8"%char => Some D8
  | "9"%char => Some D9 | _ => None
  end.

(** The longest run of decimal digits at the head of [s], and what follows. *)
Fixpoint read_digits (s : string) : uint * string :=
  match s with
  | String c s' =>
      match digit_of c with
      | Some d => let '(u, r) := read_digits s' in (d u, r)
      | None => (Nil, s)
      end
  | EmptyString => (Nil, s)
  end.

Fixpoint print_uint (u : uint) : string :=
  match u with
  | Nil => EmptyString
  | D0 u => String "0" (print_uint u) | D1 u => String "1" (print_uint u)
  | D2 u => String "2" (print_uint u) | D3 u => String "3" (print_uint u)
  | D4 u => String "4" (print_uint u) | D5 u => String "5" (print_uint u)
  | D6 u => String "6" (print_uint u) | D7 u => String "7" (print_uint u)
  | D8 u => String "8" (print_uint u) | D9 u => String "9" (print_uint u)
  end.

(** [String(n)] for an integer [n]. *)
Definition print_Z (n : Z) : string :=
  match Z.to_int n with
  | Decimal.Pos u => print_uint u
  | Decimal.Neg u => String "-" (print_uint u)
  end.

(** *** Numbers as [parseFloat] sees them

    A JS number is NaN, an infinity or a finite value; the finite value a
    decimal literal denotes is kept exactly, as a reduced fraction (the
    rounding to a binary64 is not modelled: 8.5 and the other goals the
    application stores are exact either way). *)
Inductive number :=
| NaN
| Infinity (negative : bool)
| Num (q : Q).

Fixpoint skip_space (s : string) : string :=
  match s with
  | String c s' => if is_str_space c then skip_space s' else s
  | EmptyString => s
  end.

Definition starts_with (p s : string) : bool := String.prefix p s.

Definition uint_length (u : uint) : nat := String.length (print_uint u).

(** The optional exponent part [e[+-]ddd]: ignored unless complete. *)
Definition read_exponent (s : string) : Z :=
  match s with
  | String c s' =>
      if Ascii.eqb c "e" || Ascii.eqb c "E" then
        let '(neg, s'') :=
          match s' with
          | String "-" t => (true, t)
          | String "+" t => (false, t)
          | _ => (false, s')
          end in
        match read_digits s'' with
        | (Nil, _) => 0
        | (u, _) => if neg : bool then - Z.of_uint u else Z.of_uint u
        end
      else 0
  | EmptyString => 0
  end.

Definition scale (m : Z) (e : Z) : Q :=
  if (0 <=? e)%Z then inject_Z (m * 10 ^ e) else Qmake m (Z.to_pos (10 ^ (- e))).

(** [parseFloat(s)]: leading white space is skipped and the longest prefix
    that is a decimal literal is converted; NaN when there is none. *)
Definition parseFloat (s : string) : number :=
  let s := skip_space s in
  let '(neg, s) :=
    match s with
    | String "-" t => (true, t)
    | String "+" t => (false, t)
    | _ => (false, s)
    end in
  if starts_with "Infinity" s then Infinity neg
  else
    let '(ip, r) := read_digits s in
    let '(fp, r') :=
      match r with
      | String "." t => read_digits t
      | _ => (Nil, r)
      end in
    match ip, fp with
    | Nil, Nil => NaN
    | _, _ =>
        let m := Z.of_uint (Decimal.app ip fp) in
        let e := read_exponent r' - Z.of_nat (uint_length fp) in
        Num (Qred (scale (if neg : bool then - m else m) e))
    end.

End Js.

(** ** JSON text

    [JSON.stringify] and [JSON.parse] on the values the engine stores:
    objects, arrays, strings and integer numbers.  A numeric literal with a
    fraction or an exponent parses (it is valid JSON) and is kept as its
    text. *)

Module Json.
Import Js.

#[global] Instance uint_eq_dec : EqDecision uint := Decimal.uint_eq_dec.

Inductive json :=
| JNull
| JBool (b : bool)
| JNum (n : Z)
| JReal (literal : string)
| JStr (s : string)
| JArr (elems : list json)
| JObj (members : list (string * json)).

(** *** Printing *)

Definition hex_char (n : N) : ascii :=
  if (n <? 10)%N then ascii_of_N (48 + n) else ascii_of_N (87 + n).

Definition escape_char (c : ascii) : string :=
  let n := N_of_ascii c in
  if Ascii.eqb c dquote then String backslash (String dquote EmptyString)
  else if Ascii.eqb c backslash then String backslash (String backslash EmptyString)
  else if (n =? 8)%N then String backslash "b"
  else if (n =? 12)%N then String backslash "f"
  else if (n =? 10)%N then String backslash "n"
  else if (n =? 13)%N then String backslash "r"
  else if (n =? 9)%N then String backslash "t"
  else if (n <? 32)%N then
    String backslash (String "u" (String "0" (String "0"
      (String (hex_char (n / 16)) (String (hex_char (n mod 16)) EmptyString)))))
  else String c EmptyString.

Fixpoint escape (s : string) : string :=
  match s with
  | EmptyString => EmptyString
  | String c s' => escape_char c +:+ escape s'
  end.

Definition print_string (s : string) : string :=
  String dquote (escape s +:+ String dquote EmptyString).

(** The items of an array or an object, separated by commas. *)
Definition commas {A} (f : A -> string) : list A -> string :=
  fix go (l : list A) : string :=
    match l with
    | [] => EmptyString
    | [x] => f x
    | x :: l' => f x +:+ String "," (go l')
    end.

Fixpoint print (j : json) : string :=
  match j with
  | JNull => "null"
  | JBool true => "true"
  | JBool false => "false"
  | JNum n => print_Z n
  | JReal lit => lit
  | JStr s => print_string s
  | JArr l => String "[" (commas print l +:+ "]")
  | JObj ms =>
      String "{" (commas (fun '(k, v) => print_string k +:+ String ":" (print v)) ms +:+ "}")
  end.

(** No literal kept as text inside: the values the engine builds. *)
Fixpoint plain (j : json) : bool :=
  match j with
  | JReal _ => false
  | JArr l => forallb plain l
  | JObj ms => forallb (fun '(_, v) => plain v) ms
  | _ => true
  end.

(** *** Parsing *)

Fixpoint skip_ws (s : string) : string :=
  match s with
  | String c s' => if is_space c then skip_ws s' else s
  | EmptyString => s
  end.

Definition hex_of (c : ascii) : option N :=
  let n := N_of_ascii c in
  if (48 <=? n)%N && (n <=? 57)%N then Some (n - 48)%N
  else if (97 <=? n)%N && (n <=? 102)%N then Some (n - 87)%N
  else if (65 <=? n)%N && (n <=? 70)%N then Some (n - 55)%N
  else None.

(** The bytes (UTF-8) of the character a [\uXXXX] escape names. *)
Definition utf8 (n : N) (s : string) : string :=
  if (n <? 128)%N then String (ascii_of_N n) s
  else if (n <? 2048)%N then
    String (ascii_of_N (192 + n / 64)) (String (ascii_of_N (128 + n mod 64)) s)
  else
    String (ascii_of_N (224 + n / 4096))
      (String (ascii_of_N (128 + (n / 64) mod 64)) (String (ascii_of_N (128 + n mod 64)) s)).

Definition cons_char (c : ascii) (r : option (string * string)) : option (string * string) :=
  match r with
  | Some (x, rest) => Some (String c x, rest)
  | None => None
  end.

(** The characters of a string literal after its opening quote, up to the
    closing quote, and what follows the literal. *)
Fixpoint read_string (s : string) : option (string * string) :=
  match s with
  | EmptyString => None
  | String c s' =>
      if Ascii.eqb c dquote then Some (EmptyString, s')
      else if Ascii.eqb c backslash then
        match s' with
        | String "u" (String h1 (String h2 (String h3 (String h4 t)))) =>
            match hex_of h1, hex_of h2, hex_of h3, hex_of h4 with
            | Some a, Some b, Some c, Some d =>
                match read_string t with
                | Some (x, rest) => Some (utf8 (((a * 16 + b) * 16 + c) * 16 + d)%N x, rest)
                | None => None
                end
            | _, _, _, _ => None
            end
        | String e t =>
            if Ascii.eqb e dquote then cons_char dquote (read_string t)
            else if Ascii.eqb e backslash then cons_char backslash (read_string t)
            else if Ascii.eqb e "/" then cons_char "/" (read_string t)
            else if Ascii.eqb e "b" then cons_char "008" (read_string t)
            else if Ascii.eqb e "f" then cons_char "012" (read_string t)
            else if Ascii.eqb e "n" then cons_char "010" (read_string t)
            else if Ascii.eqb e "r" then cons_char "013" (read_string t)
            else if Ascii.eqb e "t" then cons_char "009" (read_string t)
            else None
        | EmptyString => None
        end
      else if (N_of_ascii c <? 32)%N then None
      else cons_char c (read_string s')
  end.

(** A numeric literal after its sign: an integer part without leading
    zeros, an optional fraction and an optional exponent. *)
Definition read_unsigned (neg : bool) (s : string) : option (json * string) :=
  let sign := if neg then "-"%string else EmptyString in
  let '(ip, r) := read_digits s in
  if negb (bool_decide (unorm ip = ip)) then None
  else
    let frac :=
      match r with
      | String "." t =>
          match read_digits t with
          | (Nil, _) => None
          | (fp, r2) => Some (String "." (print_uint fp), r2)
          end
      | _ => Some (EmptyString, r)
      end in
    match frac with
    | None => None
    | Some (ftext, r2) =>
        let exp :=
          match r2 with
          | String c t =>
              if Ascii.eqb c "e" || Ascii.eqb c "E" then
                let '(esign, t') :=
                  match t with
                  | String "-" t' => ("-"%string, t')
                  | String "+" t' => ("+"%string, t')
                  | _ => (EmptyString, t)
                  end in
                match read_digits t' with
                | (Nil, _) => None
                | (ep, r3) => Some (String c (esign +:+ print_uint ep), r3)
                end
              else Some (EmptyString, r2)
          | EmptyString => Some (EmptyString, r2)
          end in
        match exp with
        | None => None
        | Some (etext, r3) =>
            match ftext +:+ etext with
            | EmptyString =>
                Some (JNum (Z.of_int (if neg then Decimal.Neg ip else Decimal.Pos ip)), r3)
            | text => Some (JReal (sign +:+ print_uint ip +:+ text), r3)
            end
        end
    end.

Definition read_number (s : string) : option (json * string) :=
  match s with
  | String "-" t => read_unsigned true t
  | _ => read_unsigned false s
  end.

Fixpoint strip_prefix (p s : string) : option string :=
  match p, s with
  | EmptyString, _ => Some s
  | String a p', String b s' => if Ascii.eqb a b then strip_prefix p' s' else None
  | _, _ => None
  end.

Definition keyword (k : string) (v : json) (s : string) : option (json * string) :=
  match strip_prefix k s with
  | Some r => Some (v, r)
  | None => None
  end.

Fixpoint parse_value (fuel : nat) (s : string) : option (json * string) :=
  match fuel with
  | O => None
  | S fuel =>
      match skip_ws s with
      | EmptyString => None
      | String c t =>
          if Ascii.eqb c "{" then
            match skip_ws t with
            | String c' r =>
                if Ascii.eqb c' "}" then Some (JObj [], r)
                else
                  match parse_members fuel (String c' r) with
                  | Some (ms, r) => Some (JObj ms, r)
                  | None => None
                  end
            | EmptyString => None
            end
          else if Ascii.eqb c "[" then
            match skip_ws t with
            | String c' r =>
                if Ascii.eqb c' "]" then Some (JArr [], r)
                else
                  match parse_elems fuel (String c' r) with
                  | Some (l, r) => Some (JArr l, r)
                  | None => None
                  end
            | EmptyString => None
            end
          else if Ascii.eqb c dquote then
            match read_string t with
            | Some (x, r) => Some (JStr x, r)
            | None => None
            end
          else if Ascii.eqb c "t" then keyword "true" (JBool true) (String c t)
          else if Ascii.eqb c "f" then keyword "false" (JBool false) (String c t)
          else if Ascii.eqb c "n" then keyword "null" JNull (String c t)
          else read_number (String c t)
      end
  end
with parse_elems (fuel : nat) (s : string) : option (list json * string) :=
  match fuel with
  | O => None
  | S fuel =>
      match parse_value fuel s with
      | None => None
      | Some (v, r) =>
          match skip_ws r with
          | String "," r' =>
              match parse_elems fuel r' with
              | Some (vs, r'') => Some (v :: vs, r'')
              | None => None
              end
          | String "]" r' => Some ([v], r')
          | _ => None
          end
      end
  end
with parse_members (fuel : nat) (s : string) : option (list (string * json) * string) :=
  match fuel with
  | O => None
  | S fuel =>
      match skip_ws s with
      | String c t =>
          if Ascii.eqb c dquote then
            match read_string t with
            | None => None
            | Some (k, r) =>
                match skip_ws r with
                | String ":" r1 =>
                    match parse_value fuel r1 with
                    | None => None
                    | Some (v, r2) =>
                        match skip_ws r2 with
                        | String "," r3 =>
                            match parse_members fuel r3 with
                            | Some (ms, r4) => Some ((k, v) :: ms, r4)
                            | None => None
                            end
                        | String "}" r3 => Some ([(k, v)], r3)
                        | _ => None
                        end
                    end
                | _ => None
                end
            end
          else None
      | EmptyString => None
      end
  end.

(** [JSON.parse(s)]: [None] stands for the SyntaxError it throws. *)
Definition parse (s : string) : option json :=
  match parse_value (2 * String.length s + 2) s with
  | Some (v, r) =>
      match skip_ws r with
      | EmptyString => Some v
      | _ => None
      end
  | None => None
  end.

(** What may follow a printed value: nothing, or one of [,], []] and [}]. *)
Definition delimited (rest : string) : Prop :=
  match rest with
  | EmptyString => True
  | String c _ => c = ","%char \/ c = "]"%char \/ c = "}"%char
  end.

(** The first character of a printed integer is a minus sign or a digit. *)
Definition number_start (c : ascii) : Prop :=
  c = "-"%char \/ exists d, digit_of c = Some d.

(** The first character of a printed value: never white space, never the
    bracket that closes an array. *)
Definition value_start (c : ascii) : Prop :=
  is_space c = false /\ Ascii.eqb c "]" = false.

(** One member of a printed object. *)
Definition item : string * json -> string :=
  fun '(k, v) => print_string k +:+ String ":" (print v).

End Json.

(** ** The runtime: in-memory state, device, and asynchronous functions *)

(** The live session [{start, lastActive}]. *)
Record Session := { start : Z; lastActive : Z }.

(** One closed interval of a day's session details. *)
Record Detail := { d_start : Z; d_end : Z; d_duration : Z }.

(** The module-level [cache] of StorageService.js.  A slot is [None] while
    it is [undefined]; [Some None] is JavaScript's [null]. *)
Record Cache := {
  TARGET_SSID : option (option string);
  RAW_SSID : option (option string);
  GOAL_HOURS : option Js.number;
  IS_MANUAL_PAUSED : option bool;
  CURRENT_SESSION : option (option Session)
}.

(** The React state [checkNetworkAndSession] writes. *)
Record UI := {
  isManualStop : bool;
  sessionDuration : Z;
  isConnectedToOffice : bool;
  currentSSIDName : option string;
  currentSessionStart : option Z;
  targetSSID : option string;
  isOnTargetNetwork : bool
}.

Record Mem := {
  cache : Cache;
  _isEnding : bool;          (* StorageService._isEnding *)
  ui : UI
}.

Inductive Platform := android | ios | other_os.
Inductive NetType := wifi | cellular | no_network | other_net.

(** What [NetInfo.fetch()] resolves to. *)
Record NetInfoState := {
  type : NetType;
  isConnected : bool;
  ssid : option string        (* state.details?.ssid *)
}.

(** What the code reads from outside: the platform, the local calendar of
    [moment], the clock, the network, the location provider, and which of
    the calls to AsyncStorage reject (by their position in the trace). *)
Record Device := {
  OS : Platform;
  dayKey : Z -> string;                      (* moment(t).format('YYYY-MM-DD') *)
  endOfDay : Z -> Z;                         (* moment(t).endOf('day').valueOf() *)
  clock : nat -> Z;                          (* the successive readings of Date.now() *)
  netinfo : option NetInfoState;             (* None: NetInfo.fetch() rejects *)
  locationServicesEnabled : option bool;     (* None: expo-location throws *)
  storeRejects : nat -> bool
}.

Inductive StoreOp :=
| GetItem (key : string)
| SetItem (key value : string)
| RemoveItem (key : string).

Inductive Reply :=
| Rejected
| Resolved (value : option string).

Record World := {
  device : Device;
  mem : Mem;
  store : gmap string string;                (* AsyncStorage *)
  trace : list StoreOp;                      (* the calls made to AsyncStorage, oldest first *)
  clockReads : nat
}.

Inductive Exn := StoreError | SyntaxError | TypeError | NetInfoError | LocationError.

Inductive Result (A : Type) :=
| Returned (a : A)
| Thrown (e : Exn).
Arguments Returned {A} a.
Arguments Thrown {A} e.

(** An asynchronous function, as the tree of what it does next.  [Await],
    [AwaitNet] and [AwaitLocation] are the points where it is suspended
    until the outside world answers; everything else is synchronous. *)
Inductive Async (A : Type) : Type :=
| Ret (a : A)
| Throw (e : Exn)
| Get (k : Mem -> Async A)
| Modify (f : Mem -> Mem) (k : Async A)
| DateNow (k : Z -> Async A)
| TheDevice (k : Device -> Async A)
| Await (op : StoreOp) (k : Reply -> Async A)
| AwaitNet (k : option NetInfoState -> Async A)
| AwaitLocation (k : option bool -> Async A).
Arguments Ret {A} a.
Arguments Throw {A} e.
Arguments Get {A} k.
Arguments Modify {A} f k.
Arguments DateNow {A} k.
Arguments TheDevice {A} k.
Arguments Await {A} op k.
Arguments AwaitNet {A} k.
Arguments AwaitLocation {A} k.

Fixpoint bind {A B} (t : Async A) (f : A -> Async B) : Async B :=
  match t with
  | Ret a => f a
  | Throw e => Throw e
  | Get k => Get (fun m => bind (k m) f)
  | Modify g k => Modify g (bind k f)
  | DateNow k => DateNow (fun n => bind (k n) f)
  | TheDevice k => TheDevice (fun d => bind (k d) f)
  | Await op k => Await op (fun r => bind (k r) f)
  | AwaitNet k => AwaitNet (fun r => bind (k r) f)
  | AwaitLocation k => AwaitLocation (fun r => bind (k r) f)
  end.

#[global] Instance Async_ret : MRet Async := @Ret.
#[global] Instance Async_bind : MBind Async := fun A B f t => bind t f.

(** [try { t } catch (e) { h e }] *)
Fixpoint try_catch {A} (t : Async A) (h : Exn -> Async A) : Async A :=
  match t with
  | Ret a => Ret a
  | Throw e => h e
  | Get k => Get (fun m => try_catch (k m) h)
  | Modify g k => Modify g (try_catch k h)
  | DateNow k => DateNow (fun n => try_catch (k n) h)
  | TheDevice k => TheDevice (fun d => try_catch (k d) h)
  | Await op k => Await op (fun r => try_catch (k r) h)
  | AwaitNet k => AwaitNet (fun r => try_catch (k r) h)
  | AwaitLocation k => AwaitLocation (fun r => try_catch (k r) h)
  end.

(** [try { t } finally { fin }]: [fin] runs on both ways out of [t]. *)
Fixpoint try_finally {A} (t : Async A) (fin : Async unit) : Async A :=
  match t with
  | Ret a => bind fin (fun _ => Ret a)
  | Throw e => bind fin (fun _ => Throw e)
  | Get k => Get (fun m => try_finally (k m) fin)
  | Modify g k => Modify g (try_finally k fin)
  | DateNow k => DateNow (fun n => try_finally (k n) fin)
  | TheDevice k => TheDevice (fun d => try_finally (k d) fin)
  | Await op k => Await op (fun r => try_finally (k r) fin)
  | AwaitNet k => AwaitNet (fun r => try_finally (k r) fin)
  | AwaitLocation k => AwaitLocation (fun r => try_finally (k r) fin)
  end.

(** *** The outside world answers *)

Definition set_mem (f : Mem -> Mem) (w : World) : World :=
  {| device := device w; mem := f (mem w); store := store w;
     trace := trace w; clockReads := clockReads w |}.

Definition read_clock (w : World) : Z * World :=
  (clock (device w) (clockReads w),
   {| device := device w; mem := mem w; store := store w;
      trace := trace w; clockReads := S (clockReads w) |}).

Definition apply_op (op : StoreOp) (st : gmap string string) : gmap string string :=
  match op with
  | GetItem _ => st
  | SetItem k v => <[k := v]> st
  | RemoveItem k => delete k st
  end.

Definition answer (op : StoreOp) (st : gmap string string) : option string :=
  match op with
  | GetItem k => st !! k
  | _ => None
  end.

(** AsyncStorage serves one call: it is appended to the trace, and either
    rejected (the store is left as it was) or carried out. *)
Definition perform (op : StoreOp) (w : World) : World * Reply :=
  let rejected := storeRejects (device w) (length (trace w)) in
  ({| device := device w; mem := mem w;
      store := if rejected then store w else apply_op op (store w);
      trace := trace w ++ [op]; clockReads := clockReads w |},
   if rejected then Rejected else Resolved (answer op (store w))).

(** Run to completion, nothing else running in between. *)
Fixpoint run {A} (t : Async A) (w : World) : World * Result A :=
  match t with
  | Ret a => (w, Returned a)
  | Throw e => (w, Thrown e)
  | Get k => run (k (mem w)) w
  | Modify f k => run k (set_mem f w)
  | DateNow k => let '(n, w') := read_clock w in run (k n) w'
  | TheDevice k => run (k (device w)) w
  | Await op k => let '(w', r) := perform op w in run (k r) w'
  | AwaitNet k => run (k (netinfo (device w))) w
  | AwaitLocation k => run (k (locationServicesEnabled (device w))) w
  end.

(** The synchronous part of an invocation: up to its end or to the next
    point where it waits for the outside world. *)
Fixpoint advance {A} (t : Async A) (w : World) : World * Async A :=
  match t with
  | Get k => advance (k (mem w)) w
  | Modify f k => advance k (set_mem f w)
  | DateNow k => let '(n, w') := read_clock w in advance (k n) w'
  | TheDevice k => advance (k (device w)) w
  | _ => (w, t)
  end.

(** The call a suspended invocation waits for completes, and the
    invocation goes on to its next suspension. *)
Definition resume {A} (t : Async A) (w : World) : World * Async A :=
  match t with
  | Await op k => let '(w', r) := perform op w in advance (k r) w'
  | AwaitNet k => advance (k (netinfo (device w))) w
  | AwaitLocation k => advance (k (locationServicesEnabled (device w))) w
  | _ => (w, t)
  end.

(** The state of an invocation [n] completed calls after it was made. *)
Fixpoint turns {A} (n : nat) (t : Async A) (w : World) : World * Async A :=
  match n with
  | O => advance t w
  | S n => let '(w', t') := turns n t w in resume t' w'
  end.

Definition suspended {A} (t : Async A) : bool :=
  match t with
  | Await _ _ | AwaitNet _ | AwaitLocation _ => true
  | _ => false
  end.

(** What an invocation that is suspended or finished leaves when it is
    driven to its end with nothing else running. *)
Definition finish {A} (p : World * Async A) : World * Result A := run (snd p) (fst p).

(** *** AsyncStorage, as the services call it *)

Definition getItem (key : string) : Async (option string) :=
  Await (GetItem key) (fun r =>
    match r with Resolved v => Ret v | Rejected => Throw StoreError end).

Definition setItem (key value : string) : Async unit :=
  Await (SetItem key value) (fun r =>
    match r with Resolved _ => Ret tt | Rejected => Throw StoreError end).

Definition removeItem (key : string) : Async unit :=
  Await (RemoveItem key) (fun r =>
    match r with Resolved _ => Ret tt | Rejected => Throw StoreError end).

Definition modify (f : Mem -> Mem) : Async unit := Modify f (Ret tt).

Definition set_cache (f : Cache -> Cache) (m : Mem) : Mem :=
  {| cache := f (cache m); _isEnding := _isEnding m; ui := ui m |}.

Definition set_isEnding (b : bool) (m : Mem) : Mem :=
  {| cache := cache m; _isEnding := b; ui := ui m |}.

Definition set_ui (f : UI -> UI) (m : Mem) : Mem :=
  {| cache := cache m; _isEnding := _isEnding m; ui := f (ui m) |}.

(** ** The documents kept as JSON text

    The engine stores three documents: the live session, the history (day
    key to milliseconds) and the session details (day key to intervals).
    Each is read back with [JSON.parse] and used as a value of its shape.
    Text that is valid JSON of another shape is outside this typed model:
    reading it is made to throw a TypeError where JavaScript would carry on
    with the ill-shaped value.  The model therefore speaks for the code
    only on stores whose documents have their shape, and the statements
    below that depend on a stored document say so in a hypothesis: for the
    session that one is live ([live_session], [seen_session],
    [session_is_live]) or that the stored text has the shape
    ([session_shaped]), for the ledger that [history_doc] and
    [sessions_doc] are defined.  The keys of a printed object come in the
    order of the finite map, not in JavaScript's insertion order; nothing
    below depends on the order. *)

Module Codec.
Import Json.

(** [obj[k]] on a parsed object: of duplicate keys the last one counts. *)
Fixpoint member (k : string) (ms : list (string * json)) : option json :=
  match ms with
  | [] => None
  | (k', v) :: ms' =>
      match member k ms' with
      | Some v' => Some v'
      | None => if String.eqb k' k then Some v else None
      end
  end.

Definition as_num (j : option json) : option Z :=
  match j with
  | Some (JNum n) => Some n
  | _ => None
  end.

Definition encode_session (s : Session) : json :=
  JObj [("start"%string, JNum (start s)); ("lastActive"%string, JNum (lastActive s))].

Definition decode_session (j : json) : option Session :=
  match j with
  | JObj ms =>
      match as_num (member "start" ms), as_num (member "lastActive" ms) with
      | Some s, Some l => Some {| start := s; lastActive := l |}
      | _, _ => None
      end
  | _ => None
  end.

Definition encode_history (h : gmap string Z) : json :=
  JObj ((fun kv => (fst kv, JNum (snd kv))) <$> map_to_list h).

Fixpoint decode_entries (ms : list (string * json)) : option (list (string * Z)) :=
  match ms with
  | [] => Some []
  | (k, JNum n) :: ms' =>
      match decode_entries ms' with
      | Some l => Some ((k, n) :: l)
      | None => None
      end
  | _ => None
  end.

Definition decode_history (j : json) : option (gmap string Z) :=
  match j with
  | JObj ms =>
      match decode_entries ms with
      | Some l => Some (list_to_map (reverse l))
      | None => None
      end
  | _ => None
  end.

Definition encode_detail (d : Detail) : json :=
  JObj [("start"%string, JNum (d_start d)); ("end"%string, JNum (d_end d));
        ("duration"%string, JNum (d_duration d))].

Definition decode_detail (j : json) : option Detail :=
  match j with
  | JObj ms =>
      match as_num (member "start" ms), as_num (member "end" ms),
            as_num (member "duration" ms) with
      | Some s, Some e, Some d => Some {| d_start := s; d_end := e; d_duration := d |}
      | _, _, _ => None
      end
  | _ => None
  end.

Fixpoint decode_details (l : list json) : option (list Detail) :=
  match l with
  | [] => Some []
  | j :: l' =>
      match decode_detail j, decode_details l' with
      | Some d, Some ds => Some (d :: ds)
      | _, _ => None
      end
  end.

Definition encode_sessions (m : gmap string (list Detail)) : json :=
  JObj ((fun kv => (fst kv, JArr (encode_detail <$> snd kv))) <$> map_to_list m).

Fixpoint decode_days (ms : list (string * json)) : option (list (string * list Detail)) :=
  match ms with
  | [] => Some []
  | (k, JArr l) :: ms' =>
      match decode_details l, decode_days ms' with
      | Some ds, Some r => Some ((k, ds) :: r)
      | _, _ => None
      end
  | _ => None
  end.

Definition decode_sessions (j : json) : option (gmap string (list Detail)) :=
  match j with
  | JObj ms =>
      match decode_days ms with
      | Some l => Some (list_to_map (reverse l))
      | None => None
      end
  | _ => None
  end.

(** [JSON.stringify(v)] and [JSON.parse(text)] at a given shape. *)
Definition stringify {A} (encode : A -> json) (v : A) : string := print (encode v).

Definition parse_as {A} (decode : json -> option A) (text : string) : Async A :=
  match parse text with
  | None => Throw SyntaxError
  | Some j =>
      match decode j with
      | Some v => Ret v
      | None => Throw TypeError
      end
  end.

End Codec.

(** ** src/services/StorageService.js *)

Module KEYS.
Definition TARGET_SSID : string := "TARGET_SSID".
Definition RAW_SSID : string := "RAW_SSID".
Definition CURRENT_SESSION : string := "CURRENT_SESSION".
Definition HISTORY : string := "HISTORY".
Definition SESSIONS : string := "SESSIONS".
Definition GOAL_HOURS : string := "GOAL_HOURS".
Definition IS_MANUAL_PAUSED : string := "IS_MANUAL_PAUSED".
End KEYS.

Definition cache_TARGET_SSID (v : option (option string)) (c : Cache) : Cache :=
  {| TARGET_SSID := v; RAW_SSID := RAW_SSID c; GOAL_HOURS := GOAL_HOURS c;
     IS_MANUAL_PAUSED := IS_MANUAL_PAUSED c; CURRENT_SESSION := CURRENT_SESSION c |}.

Definition cache_RAW_SSID (v : option (option string)) (c : Cache) : Cache :=
  {| TARGET_SSID := TARGET_SSID c; RAW_SSID := v; GOAL_HOURS := GOAL_HOURS c;
     IS_MANUAL_PAUSED := IS_MANUAL_PAUSED c; CURRENT_SESSION := CURRENT_SESSION c |}.

Definition cache_GOAL_HOURS (v : option Js.number) (c : Cache) : Cache :=
  {| TARGET_SSID := TARGET_SSID c; RAW_SSID := RAW_SSID c; GOAL_HOURS := v;
     IS_MANUAL_PAUSED := IS_MANUAL_PAUSED c; CURRENT_SESSION := CURRENT_SESSION c |}.

Definition cache_IS_MANUAL_PAUSED (v : option bool) (c : Cache) : Cache :=
  {| TARGET_SSID := TARGET_SSID c; RAW_SSID := RAW_SSID c; GOAL_HOURS := GOAL_HOURS c;
     IS_MANUAL_PAUSED := v; CURRENT_SESSION := CURRENT_SESSION c |}.

Definition cache_CURRENT_SESSION (v : option (option Session)) (c : Cache) : Cache :=
  {| TARGET_SSID := TARGET_SSID c; RAW_SSID := RAW_SSID c; GOAL_HOURS := GOAL_HOURS c;
     IS_MANUAL_PAUSED := IS_MANUAL_PAUSED c; CURRENT_SESSION := v |}.

(** [catch (e) { console.error(...) }]: the error is logged and dropped
    (the console is not modelled). *)
Definition logged {A} (a : A) : Exn -> Async A := fun _ => Ret a.

Module StorageService.
Import Codec.

Definition setTargetSSID (name rawSSID : option string) : Async unit :=
  try_catch
    (match name with
     | Some (String c n) =>
         let name := String c n in
         modify (set_cache (cache_TARGET_SSID (Some (Some name)))) ;;
         setItem KEYS.TARGET_SSID name ;;
         match rawSSID with
         | Some (String c' r) =>
             let cleanSSID := Js.stripQuotes (String c' r) in
             modify (set_cache (cache_RAW_SSID (Some (Some cleanSSID)))) ;;
             setItem KEYS.RAW_SSID cleanSSID
         | _ => Ret tt
         end
     | _ =>
         modify (set_cache (cache_TARGET_SSID (Some None))) ;;
         modify (set_cache (cache_RAW_SSID (Some None))) ;;
         removeItem KEYS.TARGET_SSID ;;
         removeItem KEYS.RAW_SSID
     end)
    (logged tt).

Definition getTargetSSID : Async (option string) :=
  Get (fun m =>
    match TARGET_SSID (cache m) with
    | Some v => Ret v
    | None =>
        try_catch
          (val ← getItem KEYS.TARGET_SSID;
           modify (set_cache (cache_TARGET_SSID (Some val))) ;;
           Ret val)
          (fun _ => Ret None)
    end).

Definition getRawSSID : Async (option string) :=
  Get (fun m =>
    match RAW_SSID (cache m) with
    | Some v => Ret v
    | None =>
        try_catch
          (val ← getItem KEYS.RAW_SSID;
           modify (set_cache (cache_RAW_SSID (Some val))) ;;
           Ret val)
          (fun _ => Ret None)
    end).

Definition clearTargetSSID : Async unit :=
  try_catch
    (modify (set_cache (cache_TARGET_SSID (Some None))) ;;
     modify (set_cache (cache_RAW_SSID (Some None))) ;;
     removeItem KEYS.TARGET_SSID ;;
     removeItem KEYS.RAW_SSID)
    (logged tt).

Definition default_goal : Js.number := Js.Num (17 # 2).   (* 8.5 *)

Definition getGoalHours : Async Js.number :=
  Get (fun m =>
    match GOAL_HOURS (cache m) with
    | Some v => Ret v
    | None =>
        try_catch
          (val ← getItem KEYS.GOAL_HOURS;
           let parsed :=
             match val with
             | Some text => Js.parseFloat text
             | None => default_goal
             end in
           modify (set_cache (cache_GOAL_HOURS (Some parsed))) ;;
           Ret parsed)
          (fun _ => Ret default_goal)
    end).

(** [String(hours)] is the parameter [toString]. *)
Definition setGoalHours (toString : Js.number -> string) (hours : Js.number) : Async unit :=
  try_catch
    (modify (set_cache (cache_GOAL_HOURS (Some hours))) ;;
     setItem KEYS.GOAL_HOURS (toString hours))
    (logged tt).

Definition getManualPause : Async bool :=
  Get (fun m =>
    match IS_MANUAL_PAUSED (cache m) with
    | Some v => Ret v
    | None =>
        try_catch
          (val ← getItem KEYS.IS_MANUAL_PAUSED;
           let boolVal := bool_decide (val = Some "true"%string) in
           modify (set_cache (cache_IS_MANUAL_PAUSED (Some boolVal))) ;;
           Ret boolVal)
          (fun _ => Ret false)
    end).

Definition setManualPause (isPaused : bool) : Async unit :=
  try_catch
    (modify (set_cache (cache_IS_MANUAL_PAUSED (Some isPaused))) ;;
     setItem KEYS.IS_MANUAL_PAUSED (if isPaused then "true" else "false"))
    (logged tt).

(** Returns the session, or [None] for [undefined] when the write failed. *)
Definition startSession : Async (option Session) :=
  try_catch
    (now ← DateNow Ret;
     let session := {| start := now; lastActive := now |} in
     modify (set_cache (cache_CURRENT_SESSION (Some (Some session)))) ;;
     setItem KEYS.CURRENT_SESSION (stringify encode_session session) ;;
     Ret (Some session))
    (logged None).

(** [let session = cache.CURRENT_SESSION; if (!session) { read the store }]:
    the session and whether it is the cached object. *)
Definition resolveSession : Async (option Session * bool) :=
  Get (fun m =>
    match CURRENT_SESSION (cache m) with
    | Some (Some session) => Ret (Some session, true)
    | _ =>
        json ← getItem KEYS.CURRENT_SESSION;
        if Js.truthy json then
          session ← parse_as decode_session (default EmptyString json);
          Ret (Some session, false)
        else Ret (None, false)
    end).

(** [session.lastActive = now]: when [session] is the cached object, the
    assignment is seen through [cache.CURRENT_SESSION] too. *)
Definition touch (session : Session) (cached : bool) (now : Z) : Async Session :=
  let session := {| start := start session; lastActive := now |} in
  (if cached then modify (set_cache (cache_CURRENT_SESSION (Some (Some session))))
   else Ret tt) ;;
  Ret session.

Definition updateSessionHeartbeat : Async (option Session) :=
  try_catch
    ('(found, cached) ← resolveSession;
     match found with
     | Some session =>
         now ← DateNow Ret;
         session ← touch session cached now;
         modify (set_cache (cache_CURRENT_SESSION (Some (Some session)))) ;;
         setItem KEYS.CURRENT_SESSION (stringify encode_session session) ;;
         Ret (Some session)
     | None => Ret None
     end)
    (logged None).

Definition addToHistory (timestamp durationMs : Z) : Async unit :=
  try_catch
    (TheDevice (fun dev =>
       let dateKey := dayKey dev timestamp in
       historyJson ← getItem KEYS.HISTORY;
       history ← (if Js.truthy historyJson
                   then parse_as decode_history (default EmptyString historyJson)
                   else Ret ∅);
       let currentTotal := default 0 (history !! dateKey) in
       let history := <[dateKey := currentTotal + durationMs]> history in
       setItem KEYS.HISTORY (stringify encode_history history)))
    (logged tt).

Definition addSessionDetail (startTime endTime : Z) : Async unit :=
  try_catch
    (TheDevice (fun dev =>
       let dateKey := dayKey dev startTime in
       sessionsJson ← getItem KEYS.SESSIONS;
       allSessions ← (if Js.truthy sessionsJson
                       then parse_as decode_sessions (default EmptyString sessionsJson)
                       else Ret ∅);
       let day := default [] (allSessions !! dateKey) in
       let allSessions :=
         <[dateKey := day ++ [{| d_start := startTime; d_end := endTime;
                                  d_duration := endTime - startTime |}]]> allSessions in
       setItem KEYS.SESSIONS (stringify encode_sessions allSessions)))
    (logged tt).

(** Lines 453-483 of [endSession]: the session's time goes to the history
    and to the details, split in two when the session crossed midnight. *)
Definition recordSession (dev : Device) (session : Session) (now : Z) : Async unit :=
  let startDay := dayKey dev (start session) in
  let endDay := dayKey dev now in
  if bool_decide (startDay ≠ endDay) then
    let midnight := endOfDay dev (start session) in
    let duration1 := midnight - start session in
    (if bool_decide (duration1 >= 1000) then
       addToHistory (start session) duration1 ;;
       addSessionDetail (start session) midnight
     else Ret tt) ;;
    let startOfNewDay := midnight + 1 in
    let duration2 := now - startOfNewDay in
    (if bool_decide (duration2 >= 1000) then
       addToHistory now duration2 ;;
       addSessionDetail startOfNewDay now
     else Ret tt)
  else
    let duration := lastActive session - start session in
    (if bool_decide (duration >= 1000) then
       addToHistory (start session) duration ;;
       addSessionDetail (start session) (lastActive session)
     else Ret tt).

(** The body of [endSession]'s [try] block. *)
Definition endSession_body : Async unit :=
  '(found, cached) ← resolveSession;
  match found with
  | Some session =>
      now ← DateNow Ret;
      session ← touch session cached now;
      TheDevice (fun dev =>
        recordSession dev session now ;;
        modify (set_cache (cache_CURRENT_SESSION (Some None))) ;;
        removeItem KEYS.CURRENT_SESSION)
  | None => Ret tt
  end.

Definition endSession : Async unit :=
  Get (fun m =>
    if _isEnding m then Ret tt
    else
      modify (set_isEnding true) ;;
      try_finally
        (try_catch endSession_body (logged tt))
        (modify (set_isEnding false))).

Definition getCurrentSession : Async (option Session) :=
  Get (fun m =>
    match CURRENT_SESSION (cache m) with
    | Some v => Ret v
    | None =>
        try_catch
          (json ← getItem KEYS.CURRENT_SESSION;
           session ← (if Js.truthy json
                       then s ← parse_as decode_session (default EmptyString json); Ret (Some s)
                       else Ret None);
           modify (set_cache (cache_CURRENT_SESSION (Some session))) ;;
           Ret session)
          (fun _ => Ret None)
    end).

Definition getHistory : Async (gmap string Z) :=
  try_catch
    (json ← getItem KEYS.HISTORY;
     if Js.truthy json then parse_as decode_history (default EmptyString json) else Ret ∅)
    (fun _ => Ret ∅).

Definition getDurationForDate (dateKey : string) : Async Z :=
  try_catch
    (historyJson ← getItem KEYS.HISTORY;
     history ← (if Js.truthy historyJson
                 then parse_as decode_history (default EmptyString historyJson)
                 else Ret ∅);
     Ret (default 0 (history !! dateKey)))
    (fun _ => Ret 0).

Definition getTodayDuration : Async Z :=
  try_catch
    (now ← DateNow Ret;
     TheDevice (fun dev =>
       let dateKey := dayKey dev now in
       historyJson ← getItem KEYS.HISTORY;
       history ← (if Js.truthy historyJson
                   then parse_as decode_history (default EmptyString historyJson)
                   else Ret ∅);
       Ret (default 0 (history !! dateKey))))
    (fun _ => Ret 0).

(** No [try] here: a rejected call surfaces to the caller. *)
Definition clearHistory : Async unit :=
  removeItem KEYS.HISTORY ;;
  removeItem KEYS.SESSIONS.

Definition getSessionsForDate (dateKey : string) : Async (list Detail) :=
  try_catch
    (sessionsJson ← getItem KEYS.SESSIONS;
     allSessions ← (if Js.truthy sessionsJson
                     then parse_as decode_sessions (default EmptyString sessionsJson)
                     else Ret ∅);
     Ret (default [] (allSessions !! dateKey)))
    (fun _ => Ret []).

Definition getTodaySessions : Async (list Detail) :=
  try_catch
    (now ← DateNow Ret;
     TheDevice (fun dev =>
       let dateKey := dayKey dev now in
       sessionsJson ← getItem KEYS.SESSIONS;
       allSessions ← (if Js.truthy sessionsJson
                       then parse_as decode_sessions (default EmptyString sessionsJson)
                       else Ret ∅);
       Ret (default [] (allSessions !! dateKey))))
    (fun _ => Ret []).

End StorageService.

(** ** src/services/NetworkService.js *)

Module NetworkService.

Definition fetch : Async NetInfoState :=
  AwaitNet (fun r => match r with Some state => Ret state | None => Throw NetInfoError end).

Definition getProviderStatusAsync : Async bool :=
  AwaitLocation (fun r => match r with Some on => Ret on | None => Throw LocationError end).

Definition is_wifi (t : NetType) : bool :=
  match t with wifi => true | _ => false end.

Definition is_android (p : Platform) : bool :=
  match p with android => true | _ => false end.

Definition is_ios (p : Platform) : bool :=
  match p with ios => true | _ => false end.

Definition getCurrentSSID : Async (option string) :=
  try_catch
    (state ← fetch;
     if negb (is_wifi (type state)) then Ret None
     else
       TheDevice (fun dev =>
         (* on Android the location services are checked first; [true] here
            is the [return null] of the inner [try] *)
         locationOff ← (if is_android (OS dev)
                         then try_catch (on ← getProviderStatusAsync; Ret (negb on))
                                        (fun _ => Ret false)
                         else Ret false);
         if locationOff : bool then Ret None
         else if is_android (OS dev) && Js.truthy (ssid state)
         then Ret (Some (Js.stripQuotes (default EmptyString (ssid state))))
         else if is_ios (OS dev) && Js.truthy (ssid state)
         then Ret (Some (Js.stripQuotes (default EmptyString (ssid state))))
         else Ret None))
    (fun _ => Ret None).

Definition isConnectedToTargetNetwork (targetSSID : option string) : Async bool :=
  try_catch
    (state ← fetch;
     if negb (is_wifi (type state)) || negb (isConnected state) then Ret false
     else if negb (Js.truthy targetSSID) then Ret false
     else
       TheDevice (fun dev =>
         match OS dev with
         | android =>
             currentSSID ← getCurrentSSID;
             if negb (Js.truthy currentSSID) then Ret false
             else Ret (bool_decide (currentSSID = targetSSID))
         | ios =>
             currentSSID ← getCurrentSSID;
             if Js.truthy currentSSID then Ret (bool_decide (currentSSID = targetSSID))
             else Ret true
         | other_os => Ret false
         end))
    (fun _ => Ret false).

Definition isConnectedToWifi : Async bool :=
  try_catch
    (state ← fetch;
     Ret (is_wifi (type state) && isConnected state))
    (fun _ => Ret false).

End NetworkService.

(** ** App.js: the evaluator *)

Module App.

Definition setIsManualStop (v : bool) : Async unit :=
  modify (set_ui (fun u =>
    {| isManualStop := v; sessionDuration := sessionDuration u;
       isConnectedToOffice := isConnectedToOffice u; currentSSIDName := currentSSIDName u;
       currentSessionStart := currentSessionStart u; targetSSID := targetSSID u;
       isOnTargetNetwork := isOnTargetNetwork u |})).

Definition setSessionDuration (v : Z) : Async unit :=
  modify (set_ui (fun u =>
    {| isManualStop := isManualStop u; sessionDuration := v;
       isConnectedToOffice := isConnectedToOffice u; currentSSIDName := currentSSIDName u;
       currentSessionStart := currentSessionStart u; targetSSID := targetSSID u;
       isOnTargetNetwork := isOnTargetNetwork u |})).

Definition setIsConnectedToOffice (v : bool) : Async unit :=
  modify (set_ui (fun u =>
    {| isManualStop := isManualStop u; sessionDuration := sessionDuration u;
       isConnectedToOffice := v; currentSSIDName := currentSSIDName u;
       currentSessionStart := currentSessionStart u; targetSSID := targetSSID u;
       isOnTargetNetwork := isOnTargetNetwork u |})).

Definition setCurrentSSIDName (v : option string) : Async unit :=
  modify (set_ui (fun u =>
    {| isManualStop := isManualStop u; sessionDuration := sessionDuration u;
       isConnectedToOffice := isConnectedToOffice u; currentSSIDName := v;
       currentSessionStart := currentSessionStart u; targetSSID := targetSSID u;
       isOnTargetNetwork := isOnTargetNetwork u |})).

Definition setCurrentSessionStart (v : option Z) : Async unit :=
  modify (set_ui (fun u =>
    {| isManualStop := isManualStop u; sessionDuration := sessionDuration u;
       isConnectedToOffice := isConnectedToOffice u; currentSSIDName := currentSSIDName u;
       currentSessionStart := v; targetSSID := targetSSID u;
       isOnTargetNetwork := isOnTargetNetwork u |})).

Definition setTargetSSID (v : option string) : Async unit :=
  modify (set_ui (fun u =>
    {| isManualStop := isManualStop u; sessionDuration := sessionDuration u;
       isConnectedToOffice := isConnectedToOffice u; currentSSIDName := currentSSIDName u;
       currentSessionStart := currentSessionStart u; targetSSID := v;
       isOnTargetNetwork := isOnTargetNetwork u |})).

Definition setIsOnTargetNetwork (v : bool) : Async unit :=
  modify (set_ui (fun u =>
    {| isManualStop := isManualStop u; sessionDuration := sessionDuration u;
       isConnectedToOffice := isConnectedToOffice u; currentSSIDName := currentSSIDName u;
       currentSessionStart := currentSessionStart u; targetSSID := targetSSID u;
       isOnTargetNetwork := v |})).

(** Lines 217-221: a manual pause does not outlive the Wi-Fi connection.
    Returns the value [isPaused] has afterwards. *)
Definition autoResetManualStop (isWifi isPaused : bool) : Async bool :=
  if negb isWifi && isPaused then
    StorageService.setManualPause false ;;
    Ret false
  else Ret isPaused.

(** Lines 242-260: [isOnTargetNetwork], and the label [newSSIDName] as it
    is left by the matching. *)
Definition matchNetwork (isWifi : bool) (storedSSID : option string) (newSSIDName : string)
  : Async (bool * string) :=
  if isWifi && Js.truthy storedSSID then
    isOnTargetNetwork ← NetworkService.isConnectedToTargetNetwork storedSSID;
    if negb isOnTargetNetwork then
      currentSSID ← NetworkService.getCurrentSSID;
      match currentSSID with
      | Some (String c s) =>
          Ret (false, "Non-Office Network (" +:+ String c s +:+ ")")
      | _ => Ret (false, "Non-Office Network"%string)
      end
    else Ret (true, newSSIDName)
  else if isWifi && negb (Js.truthy storedSSID) then Ret (true, newSSIDName)
  else Ret (false, newSSIDName).

(** Lines 228-240, the branch taken for a stale session. *)
Definition cleanUpStaleSession : Async unit :=
  StorageService.endSession ;;
  setSessionDuration 0 ;;
  setIsConnectedToOffice false ;;
  setCurrentSSIDName (Some "Not Connected"%string).

Definition zombie_limit : Z := 20 * 60 * 1000.

(** Lines 311-321: the label shown, and the final state committed. *)
Definition commit (isWifi isPaused : bool) (storedTarget : option string)
    (isOnTargetNetwork newIsConnected : bool) (newSSIDName : string) : Async unit :=
  let newSSIDName : option string :=
    if negb (Js.truthy storedTarget) then
      Some (if isWifi then "Wi-Fi Connected (Not Configured)"%string
            else "Not Connected"%string)
    else if isWifi && isPaused then Some "Paused (Manual)"%string
    else Some newSSIDName in
  setIsConnectedToOffice newIsConnected ;;
  setCurrentSSIDName newSSIDName ;;
  setTargetSSID storedTarget ;;
  setIsOnTargetNetwork isOnTargetNetwork.

(** Lines 242-321: what follows the zombie check. *)
Definition decide_tracking (isWifi isPaused : bool) (storedTarget storedSSID : option string)
    (session : option Session) (newSSIDName : string) : Async unit :=
  '(isOnTargetNetwork, newSSIDName) ← matchNetwork isWifi storedSSID newSSIDName;
  let shouldBeTracking := isOnTargetNetwork && Js.truthy storedTarget && negb isPaused in
  match session with
  | Some session =>
      if negb shouldBeTracking then
        (* Must Stop *)
        StorageService.endSession ;;
        setSessionDuration 0 ;;
        setIsConnectedToOffice false ;;
        setCurrentSSIDName
          (Some (if isWifi
                 then if isOnTargetNetwork then "Wi-Fi Connected (Idle)"%string
                      else newSSIDName
                 else "Not Connected"%string))
      else
        (* Check for midnight transition *)
        today ← DateNow Ret;
        TheDevice (fun dev =>
          let startDay := dayKey dev (start session) in
          let currentDay := dayKey dev today in
          if bool_decide (startDay ≠ currentDay) then
            StorageService.endSession ;;
            StorageService.startSession ;;
            Ret tt
          else
            (* Keep Tracking *)
            setCurrentSessionStart (Some (start session)) ;;
            now ← DateNow Ret;
            setSessionDuration (now - start session) ;;
            now ← DateNow Ret;
            (if bool_decide (now - lastActive session > 5000)
             then StorageService.updateSessionHeartbeat ;; Ret tt
             else Ret tt) ;;
            commit isWifi isPaused storedTarget isOnTargetNetwork true
              (default EmptyString storedTarget))
  | None =>
      if shouldBeTracking then
        (* Must Start *)
        newSession ← StorageService.startSession;
        match newSession with
        | Some s => setCurrentSessionStart (Some (start s))
        | None => Ret tt
        end ;;
        commit isWifi isPaused storedTarget isOnTargetNetwork true
          (default EmptyString storedTarget)
      else
        setSessionDuration 0 ;;
        setCurrentSessionStart None ;;
        commit isWifi isPaused storedTarget isOnTargetNetwork false newSSIDName
  end.

(** Lines 202-215: the network and the stored configuration are read. *)
Definition readConfiguration : Async (bool * option string * option string * bool) :=
  isWifi ← NetworkService.isConnectedToWifi;
  storedTarget ← StorageService.getTargetSSID;
  storedSSID ← StorageService.getRawSSID;
  isPaused ← StorageService.getManualPause;
  Ret (isWifi, storedTarget, storedSSID, isPaused).

(** Lines 226-321: the zombie check, then the decision. *)
Definition evaluate (isWifi isPaused : bool) (storedTarget storedSSID : option string)
  : Async unit :=
  let newSSIDName : string := if isWifi then "Wi-Fi Connected" else "Not Connected" in
  session ← StorageService.getCurrentSession;
  (* ZOMBIE CHECK *)
  stale ← match session with
          | Some s =>
              now ← DateNow Ret;
              let timeSinceHeartbeat := now - lastActive s in
              Ret (bool_decide (timeSinceHeartbeat > zombie_limit))
          | None => Ret false
          end;
  if stale : bool then cleanUpStaleSession
  else decide_tracking isWifi isPaused storedTarget storedSSID session newSSIDName.

(** [checkNetworkAndSession].  The calls to [refreshTotals()] are not
    awaited and only refresh the displayed totals; they are left out. *)
Definition checkNetworkAndSession : Async unit :=
  try_catch
    ('(isWifi, storedTarget, storedSSID, isPaused) ← readConfiguration;
     isPaused ← autoResetManualStop isWifi isPaused;
     setIsManualStop isPaused ;;
     evaluate isWifi isPaused storedTarget storedSSID)
    (logged tt).

(** The task registered with [TaskManager.defineTask] (lines 33-73), run by
    the operating system while the application is in the background.
    [data] and [error] stand for the truthiness of the two fields of its
    argument. *)
Definition backgroundTask (data error : bool) : Async unit :=
  if error then Ret tt
  else if data then
    try_catch
      (targetSSID ← StorageService.getTargetSSID;
       storedSSID ← StorageService.getRawSSID;
       isManualPaused ← StorageService.getManualPause;
       if negb (Js.truthy targetSSID) || isManualPaused then Ret tt
       else
         isWifi ← NetworkService.isConnectedToWifi;
         isOffice ← (if isWifi : bool then
                       if Js.truthy storedSSID
                       then NetworkService.isConnectedToTargetNetwork storedSSID
                       else Ret true
                     else Ret false);
         if isOffice : bool then
           currentSession ← StorageService.getCurrentSession;
           match currentSession with
           | Some _ => StorageService.updateSessionHeartbeat ;; Ret tt
           | None => StorageService.startSession ;; Ret tt
           end
         else StorageService.endSession)
      (logged tt)
  else Ret tt.

(** The [onPress] of the pause button (lines 607-612).  [isManualStop] is
    the state of the render the button belongs to. *)
Definition onPressPause (isManualStop : bool) : Async unit :=
  let newState := negb isManualStop in
  StorageService.setManualPause newState ;;
  setIsManualStop newState ;;
  checkNetworkAndSession.

(** The [onPress] of the Reset button of [handleResetWiFi] (lines 448-462),
    up to the tick it awaits.  [setTodayTotal(0)] and the [refreshTotals()]
    that ends it write displayed totals only; they are left out. *)
Definition onPressReset : Async unit :=
  StorageService.clearTargetSSID ;;
  StorageService.endSession ;;
  StorageService.clearHistory ;;
  setTargetSSID None ;;
  setCurrentSSIDName (Some "Not Connected"%string) ;;
  setIsConnectedToOffice false ;;
  setSessionDuration 0 ;;
  checkNetworkAndSession.

End App.

(** ** Specifying asynchronous functions *)

(** *** What a function leaves alone

    [within t] holds when every assignment [t] makes to the in-memory state
    keeps the part [view] of it, every write to AsyncStorage is to a key
    outside [keys], and the clock is read only if [clockOk]. *)

Section Frame.
Context {X : Type} (view : Mem -> X) (keys : string -> Prop) (clockOk : bool).

Definition keeps (f : Mem -> Mem) : Prop := forall m, view (f m) = view m.

Definition spares (op : StoreOp) : Prop :=
  match op with
  | GetItem _ => True
  | SetItem k _ | RemoveItem k => ~ keys k
  end.

Fixpoint within {A} (t : Async A) : Prop :=
  match t with
  | Ret _ | Throw _ => True
  | Get k => forall m, within (k m)
  | Modify f k => keeps f /\ within k
  | DateNow k => clockOk = true /\ forall n, within (k n)
  | TheDevice k => forall d, within (k d)
  | Await op k => spares op /\ forall r, within (k r)
  | AwaitNet k => forall r, within (k r)
  | AwaitLocation k => forall r, within (k r)
  end.

(** The part of the world [within] protects. *)
Definition framed (w w' : World) : Prop :=
  view (mem w') = view (mem w) /\
  (forall k, keys k -> store w' !! k = store w !! k) /\
  device w' = device w /\
  (clockOk = false -> clockReads w' = clockReads w).

End Frame.

(** A function that never throws. *)
Fixpoint settles {A} (t : Async A) : Prop :=
  match t with
  | Ret _ => True
  | Throw _ => False
  | Get k => forall m, settles (k m)
  | Modify _ k => settles k
  | DateNow k => forall n, settles (k n)
  | TheDevice k => forall d, settles (k d)
  | Await _ k => forall r, settles (k r)
  | AwaitNet k => forall r, settles (k r)
  | AwaitLocation k => forall r, settles (k r)
  end.


(** ** The ledger as the getters see it *)

(** AsyncStorage rejects nothing. *)
Definition reliable (d : Device) : Prop := forall n, storeRejects d n = false.

(** Whether AsyncStorage rejects the next call made in [w]. *)
Definition rejects_next (w : World) : bool :=
  storeRejects (device w) (length (trace w)).

(** The world after AsyncStorage carried out [op]. *)
Definition served (op : StoreOp) (w : World) : World :=
  {| device := device w; mem := mem w; store := apply_op op (store w);
     trace := trace w ++ [op]; clockReads := clockReads w |}.

(** [text ? JSON.parse(text) : {}] on the text stored under a key: the
    document, or [None] when the text does not parse to one. *)
Definition document {A} (decode : Json.json -> option A) (empty : A)
    (text : option string) : option A :=
  match text with
  | Some (String c t) =>
      match Json.parse (String c t) with
      | Some j => decode j
      | None => None
      end
  | _ => Some empty
  end.

(** The History map and the SessionDetail map held by a store. *)
Definition history_doc (st : gmap string string) : option (gmap string Z) :=
  document Codec.decode_history ∅ (st !! KEYS.HISTORY).

Definition sessions_doc (st : gmap string string) : option (gmap string (list Detail)) :=
  document Codec.decode_sessions ∅ (st !! KEYS.SESSIONS).

(** [history[key] = (history[key] || 0) + duration] *)
Definition add_duration (key : string) (duration : Z) (h : gmap string Z) : gmap string Z :=
  <[key := default 0 (h !! key) + duration]> h.

(** [allSessions[key].push({start, end, duration: end - start})] *)
Definition push_detail (key : string) (startTime endTime : Z)
    (m : gmap string (list Detail)) : gmap string (list Detail) :=
  <[key := default [] (m !! key)
           ++ [{| d_start := startTime; d_end := endTime;
                  d_duration := endTime - startTime |}]]> m.

(** The live session as [endSession] resolves it: the cached one, else the
    one stored, if what is stored is the JSON text of a session.  (On JSON
    text of another shape the code takes the parsed value for the session;
    [live_session] is then [None], and so is only used in a hypothesis as
    [live_session w = Some s], or together with the shape of the store.) *)
Definition live_session (w : World) : option Session :=
  match CURRENT_SESSION (cache (mem w)) with
  | Some (Some s) => Some s
  | _ =>
      match store w !! KEYS.CURRENT_SESSION with
      | Some (String c t) =>
          match Json.parse (String c t) with
          | Some j => Codec.decode_session j
          | None => None
          end
      | _ => None
      end
  end.

(** The end of [endSession] once the session's time is recorded: the cache
    slot is nulled, the stored session removed and the guard released. *)
Definition finalize (w : World) : World :=
  set_mem (set_isEnding false)
    (served (RemoveItem KEYS.CURRENT_SESSION)
       (set_mem (set_cache (cache_CURRENT_SESSION (Some None))) w)).

(** ** The network as the evaluator sees it *)

(** What [isConnectedToWifi()] answers on a device. *)
Definition on_wifi (d : Device) : bool :=
  match netinfo d with
  | Some state => NetworkService.is_wifi (type state) && isConnected state
  | None => false
  end.

(** What [getCurrentSSID()] answers on a device. *)
Definition currentSSID (d : Device) : option string :=
  match netinfo d with
  | Some state =>
      if negb (NetworkService.is_wifi (type state)) then None
      else if NetworkService.is_android (OS d)
              && bool_decide (locationServicesEnabled d = Some false) then None
      else if (NetworkService.is_android (OS d) || NetworkService.is_ios (OS d))
              && Js.truthy (ssid state)
      then Some (Js.stripQuotes (default EmptyString (ssid state)))
      else None
  | None => None
  end.

(** The identifier the oracle resolved, if it resolved one (an empty
    identifier counts as none, as it does in the code). *)
Definition resolvedIdentifier (d : Device) : option string :=
  if Js.truthy (currentSSID d) then currentSSID d else None.

(** The manual pause is set, as [getManualPause] will find: cached, or
    stored as "true" in a store that answers. *)
Definition pause_is_set (w : World) : Prop :=
  IS_MANUAL_PAUSED (cache (mem w)) = Some true \/
  (IS_MANUAL_PAUSED (cache (mem w)) = None /\
   store w !! KEYS.IS_MANUAL_PAUSED = Some "true"%string /\
   reliable (device w)).

(** A session is live, as [getCurrentSession] will find: cached, or stored
    in a store that answers. *)
Definition session_is_live (w : World) (s : Session) : Prop :=
  CURRENT_SESSION (cache (mem w)) = Some (Some s) \/
  (CURRENT_SESSION (cache (mem w)) = None /\ live_session w = Some s /\
   reliable (device w)).

(** ** What the operations leave alone *)

(** Nothing in the body of [endSession] assigns [_isEnding]. *)
Definition guard_kept {A} (t : Async A) : Prop :=
  within _isEnding (fun _ => False) true t.

(** The [finally] block of [endSession]. *)
Definition release : Async unit := modify (set_isEnding false).

(** What one step of the ledger leaves: the two documents are [h] and [m];
    the in-memory state, the device and the clock are those of [w], and so
    is every other key of the store. *)
Definition ledger (w w' : World) (h : gmap string Z) (m : gmap string (list Detail)) : Prop :=
  history_doc (store w') = Some h /\
  sessions_doc (store w') = Some m /\
  mem w' = mem w /\ device w' = device w /\ clockReads w' = clockReads w /\
  (forall k, k <> KEYS.HISTORY -> k <> KEYS.SESSIONS -> store w' !! k = store w !! k).

(** What does not touch the pause flag, in the cache, in the store or on
    the screen. *)
Definition pause_kept {A} (t : Async A) : Prop :=
  within (fun m => (IS_MANUAL_PAUSED (cache m), isManualStop (ui m)))
         (fun k => k = KEYS.IS_MANUAL_PAUSED) true t.

(** What touches neither the live session (cached or stored), nor the
    guard, nor the clock. *)
Definition session_kept {A} (t : Async A) : Prop :=
  within (fun m => (CURRENT_SESSION (cache m), _isEnding m))
         (fun k => k = KEYS.CURRENT_SESSION) false t.


(** ** A concrete device: the UTC calendar

    [moment] with the device's zone set to UTC: the day key is the civil
    date of the day the instant falls in, and the end of the day is its
    last millisecond. *)

Module Utc.

Definition msPerDay : Z := 86400000.

Definition pad (width : nat) (n : Z) : string :=
  let s := Js.print_Z n in
  String.concat EmptyString (repeat "0"%string (width - String.length s)) +:+ s.

(** The civil date of the day [days] days after 1970-01-01. *)
Definition civil (days : Z) : Z * Z * Z :=
  let z := days + 719468 in
  let era := z / 146097 in
  let doe := z - era * 146097 in
  let yoe := (doe - doe / 1460 + doe / 36524 - doe / 146096) / 365 in
  let doy := doe - (365 * yoe + yoe / 4 - yoe / 100) in
  let mp := (5 * doy + 2) / 153 in
  let d := doy - (153 * mp + 2) / 5 + 1 in
  let m := if mp <? 10 then mp + 3 else mp - 9 in
  let y := yoe + era * 400 + (if m <=? 2 then 1 else 0) in
  (y, m, d).

Definition dayKey (t : Z) : string :=
  let '(y, m, d) := civil (t / msPerDay) in
  pad 4 y +:+ "-" +:+ pad 2 m +:+ "-" +:+ pad 2 d.

Definition endOfDay (t : Z) : Z := (t / msPerDay) * msPerDay + (msPerDay - 1).

End Utc.

Module Sample.

Definition office : NetInfoState :=
  {| type := wifi; isConnected := true; ssid := Some (Js.quoted "Work-WiFi") |}.

(** An Android phone on the office network, its clock reading [t] at every
    call, with a store that never rejects. *)
Definition phone (t : Z) : Device :=
  {| OS := android; dayKey := Utc.dayKey; endOfDay := Utc.endOfDay;
     clock := fun _ => t; netinfo := Some office;
     locationServicesEnabled := Some true; storeRejects := fun _ => false |}.

Definition blank_ui : UI :=
  {| isManualStop := false; sessionDuration := 0; isConnectedToOffice := false;
     currentSSIDName := None; currentSessionStart := None; targetSSID := None;
     isOnTargetNetwork := false |}.

Definition fresh_cache : Cache :=
  {| TARGET_SSID := None; RAW_SSID := None; GOAL_HOURS := None;
     IS_MANUAL_PAUSED := None; CURRENT_SESSION := None |}.

Definition fresh_mem : Mem :=
  {| cache := fresh_cache; _isEnding := false; ui := blank_ui |}.

(** The application just installed: nothing cached, nothing stored. *)
Definition fresh (d : Device) : World :=
  {| device := d; mem := fresh_mem; store := ∅; trace := []; clockReads := 0 |}.

(** The same with the given documents in AsyncStorage. *)
Definition holding (st : gmap string string) (d : Device) : World :=
  {| device := d; mem := fresh_mem; store := st; trace := []; clockReads := 0 |}.

(** A device whose AsyncStorage rejects every call. *)
Definition failing (d : Device) : Device :=
  {| OS := OS d; dayKey := dayKey d; endOfDay := endOfDay d; clock := clock d;
     netinfo := netinfo d; locationServicesEnabled := locationServicesEnabled d;
     storeRejects := fun _ => true |}.


(** An iPhone on some Wi-Fi: iOS does not tell the application which. *)
Definition iphone (t : Z) : Device :=
  {| OS := ios; dayKey := Utc.dayKey; endOfDay := Utc.endOfDay;
     clock := fun _ => t;
     netinfo := Some {| type := wifi; isConnected := true; ssid := None |};
     locationServicesEnabled := Some true; storeRejects := fun _ => false |}.

(** A phone that is off Wi-Fi. *)
Definition offline (t : Z) : Device :=
  {| OS := android; dayKey := Utc.dayKey; endOfDay := Utc.endOfDay;
     clock := fun _ => t;
     netinfo := Some {| type := cellular; isConnected := true; ssid := None |};
     locationServicesEnabled := Some true; storeRejects := fun _ => false |}.

(** A session is live: cached, and stored as JSON text. *)
Definition tracking (s : Session) (d : Device) : World :=
  {| device := d;
     mem := {| cache := cache_CURRENT_SESSION (Some (Some s)) fresh_cache;
               _isEnding := false; ui := blank_ui |};
     store := {[ KEYS.CURRENT_SESSION := Codec.stringify Codec.encode_session s ]};
     trace := []; clockReads := 0 |}.

(** 2024-01-01 23:00:00 UTC and later instants. *)
Definition at_2300 : Z := 1704150000000.
Definition five_seconds_later : Z := 1704150005000.
Definition next_day_0100 : Z := 1704157200000.

Definition twenty_one_minutes_later : Z := 1704151260000.

Definition since_2300 : Session := {| start := at_2300; lastActive := at_2300 |}.

(** The user has paused tracking: the flag is cached and stored. *)
Definition paused (d : Device) : World :=
  {| device := d;
     mem := {| cache := cache_IS_MANUAL_PAUSED (Some true) fresh_cache;
               _isEnding := false; ui := blank_ui |};
     store := {[ KEYS.IS_MANUAL_PAUSED := "true"%string ]};
     trace := []; clockReads := 0 |}.

(** The application set up on the office network: the name and the
    identifier are stored, nothing is cached. *)
Definition configured (d : Device) : World :=
  holding {[ KEYS.TARGET_SSID := "Work"%string; KEYS.RAW_SSID := "Work-WiFi"%string ]} d.

(** The same with a session live, stored and not cached, as after a
    relaunch. *)
Definition resumed (s : Session) (d : Device) : World :=
  holding {[ KEYS.TARGET_SSID := "Work"%string; KEYS.RAW_SSID := "Work-WiFi"%string;
             KEYS.CURRENT_SESSION := Codec.stringify Codec.encode_session s ]} d.

Definition six_seconds_later : Z := 1704150006000.

(** A session started at 23:00 whose last heartbeat is five seconds
    before 01:00 the next day. *)
Definition overnight : Session :=
  {| start := at_2300; lastActive := 1704157195000 |}.

(** A phone whose NetInfo query is rejected. *)
Definition netless (t : Z) : Device :=
  {| OS := android; dayKey := Utc.dayKey; endOfDay := Utc.endOfDay;
     clock := fun _ => t; netinfo := None;
     locationServicesEnabled := Some true; storeRejects := fun _ => false |}.

(** An Android phone on the office network with the location services
    off. *)
Definition unlocated (t : Z) : Device :=
  {| OS := android; dayKey := Utc.dayKey; endOfDay := Utc.endOfDay;
     clock := fun _ => t; netinfo := Some office;
     locationServicesEnabled := Some false; storeRejects := fun _ => false |}.

End Sample.

(** ** The state as the getters see it *)

(** The session a store holds: the one its CURRENT_SESSION text is the
    JSON of, if that text is the JSON of a session (an object whose
    [start] and [lastActive] are integers).  This is what
    [json ? JSON.parse(json) : null] gives on a store that is
    [session_shaped]; on JSON text of another shape the code goes on with
    the parsed value, which is not a session and which [stored_session]
    does not tell from none. *)
Definition stored_session (st : gmap string string) : option Session :=
  match st !! KEYS.CURRENT_SESSION with
  | Some (String c t) =>
      match Json.parse (String c t) with
      | Some j => Codec.decode_session j
      | None => None
      end
  | _ => None
  end.

(** The text stored under CURRENT_SESSION has the shape the engine writes
    it in: there is none, or it is empty, or it is the JSON text of a
    session. *)
Definition session_shaped (st : gmap string string) : bool :=
  match st !! KEYS.CURRENT_SESSION with
  | Some (String c t) =>
      match stored_session st with Some _ => true | None => false end
  | _ => true
  end.

(** What the store holds under the other two keys, read as the getters
    read them: the goal ([val !== null ? parseFloat(val) : 8.5]) and the
    pause flag ([val === 'true']). *)
Definition stored_goal (st : gmap string string) : Js.number :=
  match st !! KEYS.GOAL_HOURS with
  | Some text => Js.parseFloat text
  | None => StorageService.default_goal
  end.

Definition stored_pause (st : gmap string string) : bool :=
  bool_decide (st !! KEYS.IS_MANUAL_PAUSED = Some "true"%string).

(** What a getter finds when AsyncStorage answers: the cached value if the
    slot is set, else the stored one. *)
Definition seen_target (w : World) : option string :=
  match TARGET_SSID (cache (mem w)) with
  | Some v => v
  | None => store w !! KEYS.TARGET_SSID
  end.

Definition seen_raw (w : World) : option string :=
  match RAW_SSID (cache (mem w)) with
  | Some v => v
  | None => store w !! KEYS.RAW_SSID
  end.

Definition seen_pause (w : World) : bool :=
  match IS_MANUAL_PAUSED (cache (mem w)) with
  | Some v => v
  | None => stored_pause (store w)
  end.

Definition seen_session (w : World) : option Session :=
  match CURRENT_SESSION (cache (mem w)) with
  | Some v => v
  | None => stored_session (store w)
  end.

(** Every cache slot that is set holds what a read of the store would
    give. *)
Definition coherent (w : World) : Prop :=
  (forall v, TARGET_SSID (cache (mem w)) = Some v -> v = store w !! KEYS.TARGET_SSID) /\
  (forall v, RAW_SSID (cache (mem w)) = Some v -> v = store w !! KEYS.RAW_SSID) /\
  (forall v, GOAL_HOURS (cache (mem w)) = Some v -> v = stored_goal (store w)) /\
  (forall v, IS_MANUAL_PAUSED (cache (mem w)) = Some v -> v = stored_pause (store w)) /\
  (forall v, CURRENT_SESSION (cache (mem w)) = Some v -> v = stored_session (store w)).

(** AsyncStorage works, no endSession is in flight and the cache agrees
    with the store. *)
Definition in_sync (w : World) : Prop :=
  reliable (device w) /\ _isEnding (mem w) = false /\ coherent w.

(** The application killed and launched again: the module state and the
    React state are new, AsyncStorage is as it was left. *)
Definition relaunch (w : World) : World :=
  {| device := device w; mem := Sample.fresh_mem; store := store w;
     trace := trace w; clockReads := clockReads w |}.

(** ** Properties of every run *)

(** [R] relates the world a function is called in to the world it leaves,
    however it ends. *)
Definition respects (R : World -> World -> Prop) {A} (t : Async A) : Prop :=
  forall w, R w (fst (run t w)).

(** [I] is kept: it holds afterwards if it held before. *)
Definition stable (I : World -> Prop) : World -> World -> Prop :=
  fun w w' => I w -> I w'.

(** Nothing recorded is lost between [w] and [w']: a well-formed History
    stays well-formed and no day's total decreases; well-formed
    SessionDetails stay well-formed and every day keeps its intervals, in
    order, at the head of its list. *)
Definition grows (w w' : World) : Prop :=
  (forall h, history_doc (store w) = Some h ->
     exists h', history_doc (store w') = Some h' /\
       forall day, default 0 (h !! day) <= default 0 (h' !! day)) /\
  (forall m, sessions_doc (store w) = Some m ->
     exists m', sessions_doc (store w') = Some m' /\
       forall day, default [] (m !! day) `prefix_of` default [] (m' !! day)).

(** ** The decision of the evaluator *)

(** The network match of lines 242-260, on a device, for the raw
    identifier [raw] the tick read. *)
Definition network_match (d : Device) (raw : option string) : bool :=
  if negb (on_wifi d) then false
  else if negb (Js.truthy raw) then true
  else match resolvedIdentifier d with
       | Some id => bool_decide (Some id = raw)
       | None => NetworkService.is_ios (OS d)
       end.

(** The pause the tick goes by: a pause found set while off Wi-Fi is
    cleared first. *)
Definition effective_pause (w : World) : bool :=
  on_wifi (device w) && seen_pause w.

(** [isOnTargetNetwork && storedTarget && !isPaused] *)
Definition should_track (w : World) : bool :=
  network_match (device w) (seen_raw w) && Js.truthy (seen_target w)
  && negb (effective_pause w).

(** A call that returned [a] and left both the in-memory state and
    AsyncStorage as they were. *)
Definition idle_with {A} (t : Async A) (a : A) (w : World) : Prop :=
  snd (run t w) = Returned a /\
  mem (fst (run t w)) = mem w /\ store (fst (run t w)) = store w.

(** The keys of the two ledger documents, and the keys behind the cache. *)
Definition ledger_keys (k : string) : Prop := k = KEYS.HISTORY \/ k = KEYS.SESSIONS.

Definition state_keys (k : string) : Prop :=
  k = KEYS.TARGET_SSID \/ k = KEYS.RAW_SSID \/ k = KEYS.GOAL_HOURS \/
  k = KEYS.IS_MANUAL_PAUSED \/ k = KEYS.CURRENT_SESSION.

(** ** Reading without changing anything *)

(** A cache slot that is as before, or was unset and now holds the stored
    value. *)
Definition warmed {V} (stored : V) (slot slot' : option V) : Prop :=
  slot' = slot \/ (slot = None /\ slot' = Some stored).

(** Between [w] and [w'] the store, the device, the clock, the guard and
    the screen are the same, and the cache has at most been filled from
    the store. *)
Definition quiet (w w' : World) : Prop :=
  device w' = device w /\ store w' = store w /\ clockReads w' = clockReads w /\
  ui (mem w') = ui (mem w) /\ _isEnding (mem w') = _isEnding (mem w) /\
  warmed (store w !! KEYS.TARGET_SSID)
    (TARGET_SSID (cache (mem w))) (TARGET_SSID (cache (mem w'))) /\
  warmed (store w !! KEYS.RAW_SSID)
    (RAW_SSID (cache (mem w))) (RAW_SSID (cache (mem w'))) /\
  warmed (stored_goal (store w))
    (GOAL_HOURS (cache (mem w))) (GOAL_HOURS (cache (mem w'))) /\
  warmed (stored_pause (store w))
    (IS_MANUAL_PAUSED (cache (mem w))) (IS_MANUAL_PAUSED (cache (mem w'))) /\
  warmed (stored_session (store w))
    (CURRENT_SESSION (cache (mem w))) (CURRENT_SESSION (cache (mem w'))).

(** The label the network matching of lines 242-260 leaves in
    [newSSIDName], given the one it starts with. *)
Definition network_label (d : Device) (raw : option string) (label : string) : string :=
  if on_wifi d && Js.truthy raw && negb (network_match d raw) then
    match currentSSID d with
    | Some (String c s) => "Non-Office Network (" +:+ String c s +:+ ")"
    | _ => "Non-Office Network"
    end
  else label.

(** Between [w] and [w'] nothing changed but the pause flag (cached,
    stored and on the screen) and cache slots filled from the store. *)
Definition calm (w w' : World) : Prop :=
  device w' = device w /\ clockReads w' = clockReads w /\
  _isEnding (mem w') = _isEnding (mem w) /\
  (forall k, k <> KEYS.IS_MANUAL_PAUSED -> store w' !! k = store w !! k) /\
  sessionDuration (ui (mem w')) = sessionDuration (ui (mem w)) /\
  isConnectedToOffice (ui (mem w')) = isConnectedToOffice (ui (mem w)) /\
  currentSSIDName (ui (mem w')) = currentSSIDName (ui (mem w)) /\
  currentSessionStart (ui (mem w')) = currentSessionStart (ui (mem w)) /\
  targetSSID (ui (mem w')) = targetSSID (ui (mem w)) /\
  isOnTargetNetwork (ui (mem w')) = isOnTargetNetwork (ui (mem w)) /\
  warmed (store w !! KEYS.TARGET_SSID)
    (TARGET_SSID (cache (mem w))) (TARGET_SSID (cache (mem w'))) /\
  warmed (store w !! KEYS.RAW_SSID)
    (RAW_SSID (cache (mem w))) (RAW_SSID (cache (mem w'))) /\
  warmed (stored_session (store w))
    (CURRENT_SESSION (cache (mem w))) (CURRENT_SESSION (cache (mem w'))).

(** ** The handlers *)

(** The world the pause button leaves to the tick it ends with, when
    AsyncStorage accepts the write. *)
Definition pressed (newState : bool) (w : World) : World :=
  set_mem (set_ui (fun u =>
    {| isManualStop := newState; sessionDuration := sessionDuration u;
       isConnectedToOffice := isConnectedToOffice u; currentSSIDName := currentSSIDName u;
       currentSessionStart := currentSessionStart u; targetSSID := targetSSID u;
       isOnTargetNetwork := isOnTargetNetwork u |}))
    (served (SetItem KEYS.IS_MANUAL_PAUSED (if newState then "true" else "false")%string)
       (set_mem (set_cache (cache_IS_MANUAL_PAUSED (Some newState))) w)).

(** The keys of the configuration that only the setup writes. *)
Definition setup_keys (k : string) : Prop :=
  k = KEYS.TARGET_SSID \/ k = KEYS.RAW_SSID \/ k = KEYS.GOAL_HOURS.

(** * Properties *)

#[local] Arguments String.append !_ _ / : simpl nomatch.

(** ** JSON text: what is printed parses back *)

Module JsonFacts.
Import Js Json.

Lemma append_nil_r (s : string) : s +:+ EmptyString = s.
Proof. induction s as [|c s IH]; simpl; [reflexivity | f_equal; exact IH]. Qed.

Lemma append_assoc (a b c : string) : (a +:+ b) +:+ c = a +:+ (b +:+ c).
Proof. induction a as [|x a IH]; simpl; [reflexivity | f_equal; exact IH]. Qed.

Lemma length_append (a b : string) :
  String.length (a +:+ b) = (String.length a + String.length b)%nat.
Proof. induction a as [|x a IH]; simpl; [reflexivity | f_equal; exact IH]. Qed.

Lemma delimited_no_digit c rest : delimited (String c rest) -> digit_of c = None.
Proof. intros [-> | [-> | ->]]; reflexivity. Qed.

Lemma read_digits_stop (rest : string) :
  delimited rest -> read_digits rest = (Nil, rest).
Proof.
  destruct rest as [|c rest]; [reflexivity |].
  intros H. simpl. by rewrite (delimited_no_digit _ _ H).
Qed.

Lemma read_digits_print_uint (u : uint) (rest : string) :
  delimited rest -> read_digits (print_uint u +:+ rest) = (u, rest).
Proof.
  intros H. induction u; simpl; rewrite ?IHu; auto using read_digits_stop.
Qed.

Lemma unorm_to_uint (p : positive) : unorm (Pos.to_uint p) = Pos.to_uint p.
Proof.
  rewrite <- (DecimalPos.Unsigned.to_of (Pos.to_uint p)).
  by rewrite DecimalPos.Unsigned.of_to.
Qed.

Lemma print_uint_start (u : uint) (rest : string) :
  u <> Nil ->
  exists c t, print_uint u +:+ rest = String c t /\ (exists d, digit_of c = Some d).
Proof.
  destruct u; [congruence | ..]; intros _; simpl; eauto.
Qed.

Lemma print_Z_start (n : Z) (rest : string) :
  exists c t, print_Z n +:+ rest = String c t /\ number_start c.
Proof.
  unfold print_Z, number_start. destruct n as [|p|p]; simpl.
  - eauto 6.
  - destruct (print_uint_start (Pos.to_uint p) rest) as (c & t & -> & Hd);
      [apply DecimalPos.Unsigned.to_uint_nonnil | eauto].
  - eauto.
Qed.

Lemma read_unsigned_print_uint (neg : bool) (u : uint) (rest : string) :
  unorm u = u -> delimited rest ->
  read_unsigned neg (print_uint u +:+ rest)
  = Some (JNum (Z.of_int (if neg then Decimal.Neg u else Decimal.Pos u)), rest).
Proof.
  intros Hu Hrest. unfold read_unsigned.
  rewrite read_digits_print_uint by done.
  rewrite bool_decide_eq_true_2 by done. simpl.
  destruct rest as [|c rest']; [reflexivity |].
  destruct Hrest as [-> | [-> | ->]]; reflexivity.
Qed.

Lemma read_number_print_Z (n : Z) (rest : string) :
  delimited rest -> read_number (print_Z n +:+ rest) = Some (JNum n, rest).
Proof.
  intros Hrest. unfold read_number, print_Z.
  pose proof (DecimalZ.of_to n) as Hz.
  destruct n as [|p|p].
  - exact (read_unsigned_print_uint false (D0 Nil) rest eq_refl Hrest).
  - change (Z.to_int (Z.pos p)) with (Decimal.Pos (Pos.to_uint p)) in *.
    pose proof (read_unsigned_print_uint false _ rest (unorm_to_uint p) Hrest) as Ht.
    cbv beta iota in Ht. rewrite Hz in Ht.
    destruct (print_uint_start (Pos.to_uint p) rest
                (DecimalPos.Unsigned.to_uint_nonnil p)) as (c & t & Heq & d & Hd).
    rewrite Heq in *.
    assert (c <> "-"%char) by (intros ->; discriminate).
    destruct c as [[] [] [] [] [] [] [] []]; try congruence; exact Ht.
  - change (Z.to_int (Z.neg p)) with (Decimal.Neg (Pos.to_uint p)) in *.
    pose proof (read_unsigned_print_uint true _ rest (unorm_to_uint p) Hrest) as Ht.
    cbv beta iota in Ht. rewrite Hz in Ht. exact Ht.
Qed.

(** *** String literals *)

Lemma read_string_escape_char (c : ascii) (tail : string) :
  read_string (escape_char c +:+ tail) = cons_char c (read_string tail).
Proof. destruct c as [[] [] [] [] [] [] [] []]; reflexivity. Qed.

Lemma read_string_escape (s rest : string) :
  read_string (escape s +:+ String dquote rest) = Some (s, rest).
Proof.
  induction s as [|c s IH]; [reflexivity |].
  simpl escape. rewrite append_assoc, read_string_escape_char, IH. reflexivity.
Qed.

Lemma print_string_append (s rest : string) :
  print_string s +:+ rest = String dquote (escape s +:+ String dquote rest).
Proof. unfold print_string. simpl. by rewrite append_assoc. Qed.

(** *** Values *)

Lemma digit_of_cases (c : ascii) (d : uint -> uint) :
  digit_of c = Some d ->
  c = "0"%char \/ c = "1"%char \/ c = "2"%char \/ c = "3"%char \/ c = "4"%char \/
  c = "5"%char \/ c = "6"%char \/ c = "7"%char \/ c = "8"%char \/ c = "9"%char.
Proof.
  destruct c as [[] [] [] [] [] [] [] []]; simpl; intros H;
    try discriminate H; auto 12.
Qed.

Lemma number_start_value_start (c : ascii) : number_start c -> value_start c.
Proof.
  intros [-> | [d Hd]]; [by split |].
  apply digit_of_cases in Hd.
  repeat (destruct Hd as [-> | Hd]; [by split |]). subst. by split.
Qed.

Lemma print_start (j : json) (rest : string) :
  plain j = true ->
  exists c t, print j +:+ rest = String c t /\ value_start c.
Proof.
  destruct j as [| [] | n | lit | s | l | ms]; simpl; intros Hj;
    try discriminate Hj; try (by eexists _, _; split; [reflexivity | split]).
  destruct (print_Z_start n rest) as (c & t & -> & Hc).
  eauto using number_start_value_start.
Qed.

Lemma skip_ws_start (c : ascii) (t : string) :
  is_space c = false -> skip_ws (String c t) = String c t.
Proof. intros H. simpl. by rewrite H. Qed.

Lemma parse_value_number (fuel : nat) (c : ascii) (t : string) :
  number_start c -> parse_value (S fuel) (String c t) = read_number (String c t).
Proof.
  intros [-> | [d Hd]]; [reflexivity |].
  apply digit_of_cases in Hd.
  repeat (destruct Hd as [-> | Hd]; [reflexivity |]). subst. reflexivity.
Qed.

Lemma commas_cons2 {A} (f : A -> string) (x y : A) (l : list A) :
  commas f (x :: y :: l) = f x +:+ String "," (commas f (y :: l)).
Proof. reflexivity. Qed.

Lemma item_append (k : string) (v : json) (tail : string) :
  item (k, v) +:+ tail
  = String dquote (escape k +:+ String dquote (String ":" (print v +:+ tail))).
Proof. unfold item. by rewrite append_assoc, print_string_append. Qed.

Lemma print_JArr (l : list json) :
  print (JArr l) = String "[" (commas print l +:+ "]").
Proof. reflexivity. Qed.

Lemma print_JObj (ms : list (string * json)) :
  print (JObj ms) = String "{" (commas item ms +:+ "}").
Proof. reflexivity. Qed.

Lemma parse_print_fuel (fuel : nat) :
  (forall j rest, plain j = true -> (2 * String.length (print j) < fuel)%nat ->
     delimited rest -> parse_value fuel (print j +:+ rest) = Some (j, rest)) /\
  (forall l rest, l <> [] -> forallb plain l = true ->
     (2 * String.length (commas print l) + 1 < fuel)%nat ->
     parse_elems fuel (commas print l +:+ String "]" rest) = Some (l, rest)) /\
  (forall ms rest, ms <> [] -> forallb (fun '(_, v) => plain v) ms = true ->
     (2 * String.length (commas item ms) + 1 < fuel)%nat ->
     parse_members fuel (commas item ms +:+ String "}" rest) = Some (ms, rest)).
Proof.
  induction fuel as [|fuel (IHv & IHe & IHm)]; [repeat split; intros; lia |].
  repeat split.
  - intros j rest Hj Hlen Hrest.
    destruct j as [| [] | n | lit | s | l | ms]; try discriminate Hj; try reflexivity.
    + destruct (print_Z_start n rest) as (c & t & Heq & Hc).
      simpl print. rewrite Heq, parse_value_number, <- Heq by done.
      by apply read_number_print_Z.
    + simpl print. rewrite print_string_append.
      change (parse_value (S fuel) (String dquote ?t))
        with (match read_string t with
              | Some (x, r) => Some (JStr x, r)
              | None => None
              end).
      by rewrite read_string_escape.
    + simpl in Hj. rewrite print_JArr in *. cbn [String.length] in Hlen.
      rewrite length_append in Hlen. cbn [String.length] in Hlen.
      change (String "[" (commas print l +:+ "]") +:+ rest)
        with (String "[" ((commas print l +:+ "]") +:+ rest)).
      rewrite append_assoc.
      change ("]" +:+ rest) with (String "]" rest).
      destruct l as [|x l]; [reflexivity |].
      assert (exists c t, commas print (x :: l) +:+ String "]" rest = String c t
                          /\ value_start c) as (c & t & Heq & Hsp & Hc).
      { simpl in Hj. apply andb_prop in Hj as [Hx _].
        destruct l as [|y l].
        - by apply print_start.
        - rewrite commas_cons2, append_assoc. by apply print_start. }
      rewrite Heq.
      change (parse_value (S fuel) (String "[" ?t))
        with (match skip_ws t with
              | String c' r =>
                  if Ascii.eqb c' "]" then Some (JArr [], r)
                  else
                    match parse_elems fuel (String c' r) with
                    | Some (l, r) => Some (JArr l, r)
                    | None => None
                    end
              | EmptyString => None
              end).
      rewrite skip_ws_start, Hc, <- Heq by done.
      rewrite IHe; [reflexivity | done | done | lia].
    + simpl in Hj. rewrite print_JObj in *. cbn [String.length] in Hlen.
      rewrite length_append in Hlen. cbn [String.length] in Hlen.
      change (String "{" (commas item ms +:+ "}") +:+ rest)
        with (String "{" ((commas item ms +:+ "}") +:+ rest)).
      rewrite append_assoc.
      change ("}" +:+ rest) with (String "}" rest).
      destruct ms as [|[k v] ms]; [reflexivity |].
      assert (exists t, commas item ((k, v) :: ms) +:+ String "}" rest = String dquote t)
        as (t & Heq).
      { destruct ms as [|y ms].
        - change (commas item [(k, v)]) with (item (k, v)).
          rewrite item_append. eauto.
        - rewrite commas_cons2, append_assoc, item_append. eauto. }
      rewrite Heq.
      change (parse_value (S fuel) (String "{" (String dquote ?t)))
        with (match parse_members fuel (String dquote t) with
              | Some (ms, r) => Some (JObj ms, r)
              | None => None
              end).
      rewrite <- Heq.
      rewrite IHm; [reflexivity | done | done | lia].
  - intros l rest Hl Hplain Hlen.
    destruct l as [|x l]; [done |]. clear Hl.
    simpl in Hplain. apply andb_prop in Hplain as [Hx Hl].
    destruct l as [|y l].
    + simpl commas in *.
      change (parse_elems (S fuel) ?s)
        with (match parse_value fuel s with
              | None => None
              | Some (v, r) =>
                  match skip_ws r with
                  | String "," r' =>
                      match parse_elems fuel r' with
                      | Some (vs, r'') => Some (v :: vs, r'')
                      | None => None
                      end
                  | String "]" r' => Some ([v], r')
                  | _ => None
                  end
              end).
      rewrite IHv; [reflexivity | done | lia | simpl; auto].
    + rewrite commas_cons2 in *. rewrite length_append in Hlen. cbn [String.length] in Hlen.
      rewrite append_assoc.
      change (String "," (commas print (y :: l)) +:+ String "]" rest)
        with (String "," (commas print (y :: l) +:+ String "]" rest)).
      change (parse_elems (S fuel) ?s)
        with (match parse_value fuel s with
              | None => None
              | Some (v, r) =>
                  match skip_ws r with
                  | String "," r' =>
                      match parse_elems fuel r' with
                      | Some (vs, r'') => Some (v :: vs, r'')
                      | None => None
                      end
                  | String "]" r' => Some ([v], r')
                  | _ => None
                  end
              end).
      rewrite IHv; [| done | lia | simpl; auto].
      change (skip_ws (String "," ?r)) with (String "," r). cbv iota.
      rewrite IHe; [reflexivity | done | done | lia].
  - intros ms rest Hms Hplain Hlen.
    destruct ms as [|[k v] ms]; [done |]. clear Hms.
    simpl in Hplain. apply andb_prop in Hplain as [Hv Hms].
    assert (Hstep : forall tail,
      parse_members (S fuel) (item (k, v) +:+ tail)
      = match parse_value fuel (print v +:+ tail) with
        | None => None
        | Some (v, r2) =>
            match skip_ws r2 with
            | String "," r3 =>
                match parse_members fuel r3 with
                | Some (ms, r4) => Some ((k, v) :: ms, r4)
                | None => None
                end
            | String "}" r3 => Some ([(k, v)], r3)
            | _ => None
            end
        end).
    { intros tail. rewrite item_append.
      change (parse_members (S fuel) (String dquote ?t))
        with (match read_string t with
              | None => None
              | Some (k, r) =>
                  match skip_ws r with
                  | String ":" r1 =>
                      match parse_value fuel r1 with
                      | None => None
                      | Some (v, r2) =>
                          match skip_ws r2 with
                          | String "," r3 =>
                              match parse_members fuel r3 with
                              | Some (ms, r4) => Some ((k, v) :: ms, r4)
                              | None => None
                              end
                          | String "}" r3 => Some ([(k, v)], r3)
                          | _ => None
                          end
                      end
                  | _ => None
                  end
              end).
      rewrite read_string_escape. reflexivity. }
    assert (Hitem : (String.length (print v) <= String.length (item (k, v)))%nat).
    { unfold item. rewrite length_append. cbn [String.length]. lia. }
    destruct ms as [|y ms].
    + change (commas item [(k, v)]) with (item (k, v)) in *. rewrite Hstep.
      rewrite IHv; [reflexivity | done | lia | simpl; auto].
    + rewrite commas_cons2 in *. rewrite length_append in Hlen. cbn [String.length] in Hlen.
      rewrite append_assoc.
      change (String "," (commas item (y :: ms)) +:+ String "}" rest)
        with (String "," (commas item (y :: ms) +:+ String "}" rest)).
      rewrite Hstep.
      rewrite IHv; [| done | lia | simpl; auto].
      change (skip_ws (String "," ?r)) with (String "," r). cbv iota.
      rewrite IHm; [reflexivity | done | done | lia].
Qed.

(** [JSON.parse(JSON.stringify(v)) = v] for the values the engine builds. *)
Lemma parse_print (j : json) : plain j = true -> parse (print j) = Some j.
Proof.
  intros Hj. unfold parse.
  destruct (parse_print_fuel (2 * String.length (print j) + 2)) as (Hv & _ & _).
  specialize (Hv j EmptyString Hj). rewrite append_nil_r in Hv.
  rewrite Hv; [reflexivity | lia | exact I].
Qed.

End JsonFacts.

(** ** The stored documents read back as they were written *)

Module CodecFacts.
Import Json Codec.

Lemma decode_session_encode (s : Session) : decode_session (encode_session s) = Some s.
Proof. by destruct s. Qed.

Lemma decode_detail_encode (d : Detail) : decode_detail (encode_detail d) = Some d.
Proof. by destruct d. Qed.

Lemma decode_details_encode (l : list Detail) :
  decode_details (encode_detail <$> l) = Some l.
Proof.
  induction l as [|d l IH]; [reflexivity |].
  rewrite fmap_cons. cbn [decode_details]. by rewrite decode_detail_encode, IH.
Qed.

Lemma decode_entries_encode (l : list (string * Z)) :
  decode_entries ((fun kv => (fst kv, JNum (snd kv))) <$> l) = Some l.
Proof.
  induction l as [|[k n] l IH]; [reflexivity |].
  rewrite fmap_cons. cbn [decode_entries fst snd]. by rewrite IH.
Qed.

Lemma decode_days_encode (l : list (string * list Detail)) :
  decode_days ((fun kv => (fst kv, JArr (encode_detail <$> snd kv))) <$> l) = Some l.
Proof.
  induction l as [|[k ds] l IH]; [reflexivity |].
  rewrite fmap_cons. cbn [decode_days fst snd].
  by rewrite decode_details_encode, IH.
Qed.

Lemma list_to_map_reverse {A} (m : gmap string A) :
  list_to_map (reverse (map_to_list m)) = m.
Proof.
  rewrite <- (list_to_map_to_list m) at 2.
  apply list_to_map_proper; [| apply reverse_Permutation].
  rewrite fmap_reverse, reverse_Permutation. apply NoDup_fst_map_to_list.
Qed.

Lemma decode_history_encode (h : gmap string Z) :
  decode_history (encode_history h) = Some h.
Proof.
  unfold decode_history, encode_history.
  by rewrite decode_entries_encode, list_to_map_reverse.
Qed.

Lemma decode_sessions_encode (m : gmap string (list Detail)) :
  decode_sessions (encode_sessions m) = Some m.
Proof.
  unfold decode_sessions, encode_sessions.
  by rewrite decode_days_encode, list_to_map_reverse.
Qed.

Lemma plain_session (s : Session) : plain (encode_session s) = true.
Proof. reflexivity. Qed.

Lemma plain_history (h : gmap string Z) : plain (encode_history h) = true.
Proof.
  unfold encode_history. cbn [plain].
  induction (map_to_list h) as [|[k n] l IH]; [reflexivity | exact IH].
Qed.

Lemma plain_details (l : list Detail) : forallb plain (encode_detail <$> l) = true.
Proof. induction l as [|d l IH]; [reflexivity | exact IH]. Qed.

Lemma plain_sessions (m : gmap string (list Detail)) : plain (encode_sessions m) = true.
Proof.
  unfold encode_sessions. cbn [plain].
  induction (map_to_list m) as [|[k ds] l IH]; [reflexivity |].
  rewrite fmap_cons. cbn [forallb fst snd plain].
  by rewrite plain_details, IH.
Qed.

Lemma parse_as_session (s : Session) :
  parse_as decode_session (stringify encode_session s) = Ret s.
Proof.
  unfold parse_as, stringify.
  by rewrite JsonFacts.parse_print, decode_session_encode by apply plain_session.
Qed.

Lemma parse_as_history (h : gmap string Z) :
  parse_as decode_history (stringify encode_history h) = Ret h.
Proof.
  unfold parse_as, stringify.
  by rewrite JsonFacts.parse_print, decode_history_encode by apply plain_history.
Qed.

Lemma parse_as_sessions (m : gmap string (list Detail)) :
  parse_as decode_sessions (stringify encode_sessions m) = Ret m.
Proof.
  unfold parse_as, stringify.
  by rewrite JsonFacts.parse_print, decode_sessions_encode by apply plain_sessions.
Qed.

(** A stringified object is never the empty string. *)
Lemma stringify_history_truthy (h : gmap string Z) :
  exists c t, stringify encode_history h = String c t.
Proof. unfold stringify, encode_history. rewrite JsonFacts.print_JObj. eauto. Qed.

Lemma stringify_sessions_truthy (m : gmap string (list Detail)) :
  exists c t, stringify encode_sessions m = String c t.
Proof. unfold stringify, encode_sessions. rewrite JsonFacts.print_JObj. eauto. Qed.

Lemma stringify_session_truthy (s : Session) :
  exists c t, stringify encode_session s = String c t.
Proof. unfold stringify, encode_session. rewrite JsonFacts.print_JObj. eauto. Qed.

End CodecFacts.

(** ** Running asynchronous functions *)

#[local] Arguments Js.parseFloat : simpl never.
#[local] Arguments Js.stripQuotes : simpl never.
#[local] Arguments Json.parse : simpl never.
#[local] Arguments Json.print : simpl never.

Lemma run_bind {A B} (t : Async A) (f : A -> Async B) (w : World) :
  run (t ≫= f) w
  = let '(w', r) := run t w in
    match r with
    | Returned a => run (f a) w'
    | Thrown e => (w', Thrown e)
    end.
Proof.
  change (t ≫= f) with (bind t f).
  revert w; induction t as [a|e|k IH|g k IH|k IH|k IH|op k IH|k IH|k IH];
    intros w; cbn [bind run]; auto.
  - destruct (read_clock w); auto.
  - destruct (perform op w); auto.
Qed.

Lemma run_ret {A} (a : A) (w : World) : run (Ret a) w = (w, Returned a).
Proof. reflexivity. Qed.

Lemma run_modify (f : Mem -> Mem) (w : World) :
  run (modify f) w = (set_mem f w, Returned tt).
Proof. reflexivity. Qed.

Lemma run_bind_raw {A B} (t : Async A) (f : A -> Async B) (w : World) :
  run (bind t f) w
  = let '(w', r) := run t w in
    match r with
    | Returned a => run (f a) w'
    | Thrown e => (w', Thrown e)
    end.
Proof. exact (run_bind t f w). Qed.

Section RunFacts.
Context {A : Type}.

Lemma run_try_catch (t : Async A) (h : Exn -> Async A) (w : World) :
  run (try_catch t h) w
  = let '(w', r) := run t w in
    match r with
    | Returned a => (w', Returned a)
    | Thrown e => run (h e) w'
    end.
Proof.
  revert w; induction t as [a|e|k IH|g k IH|k IH|k IH|op k IH|k IH|k IH];
    intros w; cbn [try_catch run]; auto.
  - destruct (read_clock w); auto.
  - destruct (perform op w); auto.
Qed.

Lemma run_try_finally (t : Async A) (fin : Async unit) (w : World) :
  run (try_finally t fin) w
  = let '(w', r) := run t w in
    let '(w'', r') := run fin w' in
    (w'', match r' with Returned _ => r | Thrown e => Thrown e end).
Proof.
  revert w; induction t as [a|e|k IH|g k IH|k IH|k IH|op k IH|k IH|k IH];
    intros w; cbn [try_finally run]; auto.
  - change (bind fin (fun _ => Ret a)) with (fin ≫= fun _ => Ret a).
    rewrite run_bind. by destruct (run fin w) as [w' [[]|e]].
  - change (bind fin (fun _ => Throw e)) with (fin ≫= fun _ => @Throw A e).
    rewrite run_bind. by destruct (run fin w) as [w' [[]|e']].
  - destruct (read_clock w); auto.
  - destruct (perform op w); auto.
Qed.

(** Driving an invocation turn by turn ends where running it at once does. *)
Lemma run_advance (t : Async A) (w : World) : finish (advance t w) = run t w.
Proof.
  unfold finish.
  revert w; induction t as [a|e|k IH|g k IH|k IH|k IH|op k IH|k IH|k IH];
    intros w; cbn [advance run fst snd]; auto.
  destruct (read_clock w); auto.
Qed.

Lemma run_resume (t : Async A) (w : World) : finish (resume t w) = run t w.
Proof.
  destruct t; try reflexivity; cbn [resume run].
  - destruct (perform op w). apply run_advance.
  - apply run_advance.
  - apply run_advance.
Qed.

Lemma run_turns (n : nat) (t : Async A) (w : World) : finish (turns n t w) = run t w.
Proof.
  induction n as [|n IH]; cbn [turns]; [apply run_advance |].
  destruct (turns n t w) as [w' t'] eqn:E.
  rewrite run_resume. exact IH.
Qed.

Lemma advance_try_finally (t : Async A) (fin : Async unit) (w : World) :
  advance (try_finally t fin) w
  = let '(w', t') := advance t w in
    if suspended t' then (w', try_finally t' fin) else advance (try_finally t' fin) w'.
Proof.
  revert w; induction t as [a|e|k IH|g k IH|k IH|k IH|op k IH|k IH|k IH];
    intros w; cbn [try_finally advance suspended]; auto.
  destruct (read_clock w); auto.
Qed.

Lemma advance_idle (t : Async A) (w : World) :
  suspended t = true -> advance t w = (w, t).
Proof. by destruct t. Qed.

(** An invocation that has advanced is suspended, or has returned or thrown. *)
Lemma advance_settles (t : Async A) (w : World) :
  suspended (snd (advance t w)) = false ->
  (exists a, snd (advance t w) = Ret a) \/ (exists e, snd (advance t w) = Throw e).
Proof.
  revert w; induction t as [a|e|k IH|g k IH|k IH|k IH|op k IH|k IH|k IH];
    intros w; cbn [advance snd suspended]; eauto; try discriminate.
  destruct (read_clock w); auto.
Qed.

Lemma resume_settled (t : Async A) (w : World) :
  suspended t = false -> resume t w = (w, t).
Proof. by destruct t. Qed.

End RunFacts.

(** *** What a function leaves alone *)

Section Frame.
Context {X : Type} (view : Mem -> X) (keys : string -> Prop) (clockOk : bool).

Local Abbreviation keeps := (keeps view).
Local Abbreviation spares := (spares keys).
Local Abbreviation within := (within view keys clockOk).
Local Abbreviation framed := (framed view keys clockOk).

Lemma within_bind {A B} (t : Async A) (f : A -> Async B) :
  within t -> (forall a, within (f a)) -> within (t ≫= f).
Proof.
  change (t ≫= f) with (bind t f). intros Ht Hf. revert Ht.
  induction t; cbn [bind within]; intuition auto.
Qed.

Lemma within_try_catch {A} (t : Async A) (h : Exn -> Async A) :
  within t -> (forall e, within (h e)) -> within (try_catch t h).
Proof. intros Ht Hh. revert Ht. induction t; cbn [try_catch within]; intuition auto. Qed.

Lemma within_try_finally {A} (t : Async A) (fin : Async unit) :
  within t -> within fin -> within (try_finally t fin).
Proof.
  intros Ht Hf. revert Ht. induction t; cbn [try_finally within];
    try (intros _; by apply (within_bind fin)); intuition auto.
Qed.

Lemma framed_refl (w : World) : framed w w.
Proof. by repeat split. Qed.

Lemma framed_trans (w1 w2 w3 : World) : framed w1 w2 -> framed w2 w3 -> framed w1 w3.
Proof.
  intros (H1 & H2 & H3 & H4) (H1' & H2' & H3' & H4'). repeat split.
  - congruence.
  - intros k Hk. rewrite H2', H2; auto.
  - congruence.
  - intros Hc. rewrite H4', H4; auto.
Qed.

Lemma framed_perform (op : StoreOp) (w : World) :
  spares op -> framed w (fst (perform op w)).
Proof.
  intros Hop. unfold perform. cbn [fst]. repeat split; cbn; auto.
  intros k Hk. destruct (storeRejects _ _); [done |].
  destruct op as [k'|k' v|k']; cbn in *; [done | |].
  - rewrite lookup_insert_ne; [done | congruence].
  - rewrite lookup_delete_ne; [done | congruence].
Qed.

Lemma run_within {A} (t : Async A) (w : World) :
  within t -> framed w (fst (run t w)).
Proof.
  revert w; induction t as [a|e|k IH|g k IH|k IH|k IH|op k IH|k IH|k IH];
    intros w Ht; cbn [run within] in *; try apply framed_refl; auto.
  - destruct Ht as [Hg Hk].
    eapply framed_trans; [| by apply IH].
    repeat split; cbn; auto.
  - destruct Ht as [Hc Hk]. cbn.
    eapply framed_trans; [| by apply IH].
    repeat split; cbn; auto. congruence.
  - destruct Ht as [Hop Hk].
    pose proof (framed_perform op w Hop) as Hp.
    destruct (perform op w) as [w' r].
    eapply framed_trans; [exact Hp | by apply IH].
Qed.

Lemma advance_within {A} (t : Async A) (w : World) :
  within t -> framed w (fst (advance t w)) /\ within (snd (advance t w)).
Proof.
  revert w; induction t as [a|e|k IH|g k IH|k IH|k IH|op k IH|k IH|k IH];
    intros w Ht; cbn [advance within fst snd] in *;
    try (split; [apply framed_refl | done]); auto.
  - destruct Ht as [Hg Hk].
    destruct (IH (set_mem g w) Hk) as [Hf Hw]. split; [| done].
    eapply framed_trans; [| exact Hf]. repeat split; cbn; auto.
  - destruct Ht as [Hc Hk]. cbn.
    match goal with |- context [advance (k ?n) ?w'] =>
      destruct (IH n w' (Hk n)) as [Hf Hw] end.
    split; [| done].
    eapply framed_trans; [| exact Hf]. repeat split; cbn; auto. congruence.
Qed.

Lemma resume_within {A} (t : Async A) (w : World) :
  within t -> framed w (fst (resume t w)) /\ within (snd (resume t w)).
Proof.
  destruct t; intros Ht; cbn [resume within] in *;
    try (split; [apply framed_refl | done]).
  - destruct Ht as [Hop Hk].
    pose proof (framed_perform op w Hop) as Hp.
    destruct (perform op w) as [w' r].
    destruct (advance_within (k r) w' (Hk r)) as [Hf Hw].
    split; [eapply framed_trans; eauto | done].
  - by apply advance_within.
  - by apply advance_within.
Qed.

End Frame.

(** Goals [within view keys clockOk t], for [t] built from the services. *)
Ltac within_step :=
  match goal with
  | |- within _ _ _ (_ ≫= _) => apply within_bind
  | |- within _ _ _ (try_catch _ _) => apply within_try_catch
  | |- within _ _ _ (try_finally _ _) => apply within_try_finally
  | |- within _ _ _ (match ?x with _ => _ end) => destruct x
  | |- within _ _ _ (if ?x then _ else _) => destruct x
  | |- within _ _ _ (let '(_, _) := ?x in _) => destruct x
  | |- _ /\ _ => split
  | |- forall _, _ => intro
  | |- keeps _ _ => intros []; reflexivity
  | |- spares _ _ => unfold spares; first [exact I | tauto | (intros H; discriminate H)]
  | |- within _ _ _ _ => progress cbn [within]
  | |- _ = _ => reflexivity
  | |- True => exact I
  end.

Ltac solve_within := repeat within_step.

(** *** Functions that never throw *)

Lemma settles_bind {A B} (t : Async A) (f : A -> Async B) :
  settles t -> (forall a, settles (f a)) -> settles (t ≫= f).
Proof.
  change (t ≫= f) with (bind t f). intros Ht Hf. revert Ht.
  induction t; cbn [bind settles]; intuition auto.
Qed.

Lemma settles_try_catch {A} (t : Async A) (h : Exn -> Async A) :
  (forall e, settles (h e)) -> settles (try_catch t h).
Proof. intros Hh. induction t; cbn [try_catch settles]; intuition auto. Qed.

Lemma settles_try_finally {A} (t : Async A) (fin : Async unit) :
  settles t -> settles fin -> settles (try_finally t fin).
Proof.
  intros Ht Hf. revert Ht. induction t; cbn [try_finally settles];
    try (intros _; by apply (settles_bind fin)); intuition auto.
Qed.

Lemma run_settles {A} (t : Async A) (w : World) :
  settles t -> exists a, snd (run t w) = Returned a.
Proof.
  revert w; induction t as [a|e|k IH|g k IH|k IH|k IH|op k IH|k IH|k IH];
    intros w Ht; cbn [run settles] in *; eauto; try done.
  - destruct (read_clock w); eauto.
  - destruct (perform op w); eauto.
Qed.

Lemma run_logged {A} (t : Async A) (a : A) (w : World) :
  fst (run (try_catch t (logged a)) w) = fst (run t w).
Proof. rewrite run_try_catch. by destruct (run t w) as [w' [a'|e]]. Qed.

Ltac settles_step :=
  match goal with
  | |- settles (_ ≫= _) => apply settles_bind
  | |- settles (try_catch _ _) => apply settles_try_catch
  | |- settles (try_finally _ _) => apply settles_try_finally
  | |- settles (match ?x with _ => _ end) => destruct x
  | |- settles (if ?x then _ else _) => destruct x
  | |- settles (let '(_, _) := ?x in _) => destruct x
  | |- forall _, _ => intro
  | |- settles _ => progress cbn [settles]
  | |- True => exact I
  end.

Ltac solve_settles := repeat settles_step.

(** The same, looking through the definitions of the services. *)
Ltac unfold_services :=
  unfold App.evaluate, App.decide_tracking, App.cleanUpStaleSession, App.commit,
    App.matchNetwork, App.readConfiguration, App.autoResetManualStop,
    App.setIsManualStop, App.setSessionDuration, App.setIsConnectedToOffice,
    App.setCurrentSSIDName, App.setCurrentSessionStart, App.setTargetSSID,
    App.setIsOnTargetNetwork,
    NetworkService.isConnectedToTargetNetwork, NetworkService.isConnectedToWifi,
    NetworkService.getCurrentSSID, NetworkService.fetch,
    NetworkService.getProviderStatusAsync,
    StorageService.endSession, StorageService.endSession_body,
    StorageService.recordSession, StorageService.addToHistory,
    StorageService.addSessionDetail, StorageService.resolveSession,
    StorageService.touch, StorageService.startSession,
    StorageService.updateSessionHeartbeat, StorageService.getCurrentSession,
    StorageService.getTargetSSID, StorageService.getRawSSID,
    StorageService.clearTargetSSID, StorageService.setTargetSSID,
    StorageService.getGoalHours, StorageService.getHistory,
    StorageService.getDurationForDate, StorageService.getTodayDuration,
    StorageService.getSessionsForDate, StorageService.getTodaySessions,
    StorageService.getManualPause, StorageService.setManualPause,
    Codec.parse_as, getItem, setItem, removeItem, modify, logged.

Ltac frame_services := repeat first [within_step | progress unfold_services].
Ltac settle_services := repeat first [settles_step | progress unfold_services].


(** ** StorageService *)

Module StorageFacts.
Import StorageService.

(** *** clearHistory *)

(** C10. clearHistory removes the History map and the SessionDetail map
    and nothing else: the whole in-memory state (the cached live session,
    target name, raw identifier, goal hours and pause flag, and the
    reentrancy guard) is as before, every other key of the store keeps its
    value, and on success the store is the old one without the two keys. *)
Theorem clearHistory_removes_only_history_and_details (w : World) :
  let w' := fst (run clearHistory w) in
  mem w' = mem w /\
  (forall k, k <> KEYS.HISTORY -> k <> KEYS.SESSIONS -> store w' !! k = store w !! k) /\
  (snd (run clearHistory w) = Returned tt ->
   store w' = delete KEYS.SESSIONS (delete KEYS.HISTORY (store w))).
Proof.
  unfold clearHistory, removeItem. cbn.
  destruct (storeRejects (device w) (length (trace w))); cbn; [by repeat split |].
  destruct (storeRejects (device w) (length (trace w ++ [RemoveItem KEYS.HISTORY]))); cbn.
  - repeat split; [| done]. intros k Hk _. by rewrite lookup_delete_ne.
  - repeat split. intros k Hk Hk'. by rewrite !lookup_delete_ne.
Qed.

(** C7, the failing operation. When AsyncStorage rejects the first removal,
    clearHistory does not catch the failure: the exception reaches the
    caller (and nothing has been removed). *)
Theorem clearHistory_surfaces_store_failure (w : World) :
  rejects_next w = true ->
  snd (run clearHistory w) = Thrown StoreError /\
  store (fst (run clearHistory w)) = store w.
Proof.
  unfold rejects_next, clearHistory, removeItem. intros H. cbn. by rewrite H.
Qed.

(** Every other operation of the service ends by returning: whatever
    AsyncStorage rejects or [JSON.parse] throws is caught inside. *)
Lemma other_operations_catch :
  (forall name rawSSID, settles (setTargetSSID name rawSSID)) /\
  settles getTargetSSID /\ settles getRawSSID /\ settles clearTargetSSID /\
  settles getGoalHours /\ settles getManualPause /\
  (forall isPaused, settles (setManualPause isPaused)) /\
  settles startSession /\ settles updateSessionHeartbeat /\ settles endSession /\
  settles getCurrentSession /\
  (forall timestamp durationMs, settles (addToHistory timestamp durationMs)) /\
  settles getHistory /\ settles getTodayDuration /\
  (forall startTime endTime, settles (addSessionDetail startTime endTime)) /\
  settles getTodaySessions /\
  (forall dateKey, settles (getSessionsForDate dateKey)) /\
  (forall dateKey, settles (getDurationForDate dateKey)).
Proof. repeat split; intros; settle_services. Qed.

Lemma clearHistory_does_not_catch : ~ settles clearHistory.
Proof. intros H. exact (H Rejected). Qed.

(** The same store failure inside getHistory is caught: the operation
    returns its default, the empty map. *)
Lemma getHistory_catches_store_failure (w : World) :
  rejects_next w = true -> snd (run getHistory w) = Returned ∅.
Proof.
  unfold rejects_next, getHistory, getItem. intros H.
  rewrite run_try_catch, run_bind. cbn. by rewrite H.
Qed.

(** *** The target network *)

(** C9. After [setTargetSSID("Work", '"Work-WiFi"')], in any state in which
    AsyncStorage accepts the write of the name, [getTargetSSID()] returns
    "Work" and [getRawSSID()] returns "Work-WiFi" (the quotes stripped);
    the only calls made to AsyncStorage are the two writes of
    [setTargetSSID]: neither read makes a call. *)
Theorem setTargetSSID_then_reads_hit_cache (w : World) :
  rejects_next w = false ->
  let w1 := fst (run (setTargetSSID (Some "Work"%string) (Some (Js.quoted "Work-WiFi"))) w) in
  let w2 := fst (run getTargetSSID w1) in
  let w3 := fst (run getRawSSID w2) in
  snd (run getTargetSSID w1) = Returned (Some "Work"%string) /\
  snd (run getRawSSID w2) = Returned (Some "Work-WiFi"%string) /\
  trace w1 = trace w ++ [SetItem KEYS.TARGET_SSID "Work"; SetItem KEYS.RAW_SSID "Work-WiFi"] /\
  trace w3 = trace w1.
Proof.
  unfold rejects_next. intros H. unfold setTargetSSID, setItem, modify. cbn.
  rewrite H. cbn.
  destruct (storeRejects (device w) (length (trace w ++ _))); cbn;
    by rewrite <- app_assoc.
Qed.

(** *** Malformed persisted values *)


(** The goal is 8.5 when none is stored, and when the read fails. *)
Lemma getGoalHours_default (w : World) :
  GOAL_HOURS (cache (mem w)) = None ->
  rejects_next w = true \/ store w !! KEYS.GOAL_HOURS = None ->
  snd (run getGoalHours w) = Returned default_goal.
Proof.
  unfold rejects_next. intros Hcache H.
  unfold getGoalHours, getItem, modify. cbn. rewrite Hcache. cbn.
  destruct (storeRejects (device w) (length (trace w))); [reflexivity |].
  destruct H as [H | H]; [discriminate | by rewrite H].
Qed.

(** *** endSession: the reentrancy guard *)

Lemma parse_as_guard_kept {A} (decode : Json.json -> option A) (text : string) :
  guard_kept (Codec.parse_as decode text).
Proof. unfold guard_kept, Codec.parse_as. solve_within. Qed.

Lemma addToHistory_guard_kept (timestamp durationMs : Z) :
  guard_kept (addToHistory timestamp durationMs).
Proof.
  unfold guard_kept, addToHistory, getItem, setItem, logged.
  solve_within; apply parse_as_guard_kept.
Qed.

Lemma addSessionDetail_guard_kept (startTime endTime : Z) :
  guard_kept (addSessionDetail startTime endTime).
Proof.
  unfold guard_kept, addSessionDetail, getItem, setItem, logged.
  solve_within; apply parse_as_guard_kept.
Qed.

Lemma recordSession_guard_kept (dev : Device) (session : Session) (now : Z) :
  guard_kept (recordSession dev session now).
Proof.
  unfold guard_kept, recordSession. solve_within;
    try apply addToHistory_guard_kept; try apply addSessionDetail_guard_kept.
Qed.

Lemma endSession_body_guard_kept : guard_kept (try_catch endSession_body (logged tt)).
Proof.
  unfold guard_kept, endSession_body, recordSession, resolveSession, touch, getItem,
    removeItem, modify, logged.
  solve_within;
    try apply parse_as_guard_kept;
    try apply addToHistory_guard_kept; try apply addSessionDetail_guard_kept.
Qed.

Lemma endSession_unfold (m : Mem) :
  (if _isEnding m then Ret tt
   else modify (set_isEnding true) ;;
        try_finally (try_catch endSession_body (logged tt)) release)
  = if _isEnding m then Ret tt
    else Modify (set_isEnding true)
           (try_finally (try_catch endSession_body (logged tt)) release).
Proof. reflexivity. Qed.

Lemma guarded_advance (b : Async unit) (w : World) :
  guard_kept b -> _isEnding (mem w) = true ->
  suspended (snd (advance (try_finally b release) w)) = true ->
  _isEnding (mem (fst (advance (try_finally b release) w))) = true /\
  exists b', guard_kept b' /\ snd (advance (try_finally b release) w) = try_finally b' release.
Proof.
  intros Hb Hw. rewrite advance_try_finally.
  destruct (advance_within _isEnding (fun _ => False) true b w Hb) as [(Hg & _) Hb1].
  pose proof (advance_settles b w) as Hs.
  destruct (advance b w) as [w1 b1]. cbn [fst snd] in *.
  destruct (suspended b1) eqn:E; cbn [fst snd].
  - intros _. split; [congruence | eauto].
  - destruct (Hs eq_refl) as [[a ->] | [e ->]]; cbn; discriminate.
Qed.

(** While an invocation of endSession is in flight (suspended on a call to
    AsyncStorage), the guard is set: an invariant of its execution. *)
Lemma endSession_in_flight (n : nat) (w : World) :
  suspended (snd (turns n endSession w)) = true ->
  _isEnding (mem (fst (turns n endSession w))) = true /\
  exists b, guard_kept b /\ snd (turns n endSession w) = try_finally b release.
Proof.
  induction n as [|n IH].
  - cbn [turns]. unfold endSession. cbn [advance]. rewrite endSession_unfold.
    destruct (_isEnding (mem w)) eqn:E; [discriminate |].
    cbn [advance]. apply guarded_advance; [apply endSession_body_guard_kept | reflexivity].
  - cbn [turns]. destruct (turns n endSession w) as [w1 t1]. cbn [fst snd] in IH.
    destruct (suspended t1) eqn:E.
    + destruct (IH eq_refl) as (Hg & b & Hb & ->).
      destruct b; try discriminate E; cbn [try_finally resume].
      * destruct Hb as [_ Hk]. destruct (perform op w1) as [w2 r] eqn:Ep.
        apply guarded_advance; [apply Hk |].
        apply (f_equal fst) in Ep. cbn in Ep. by subst w2.
      * by apply guarded_advance.
      * by apply guarded_advance.
    + rewrite resume_settled by done. cbn [snd]. congruence.
Qed.

(** C3. An invocation of endSession that arrives while another one is in
    flight returns at once and changes nothing, so the two together leave
    exactly what the first alone leaves: one set of appends.  And an
    invocation that took the guard has released it when it ends, whatever
    AsyncStorage rejected on the way; it never throws. *)
Theorem endSession_reentrancy (w : World) (n : nat) :
  _isEnding (mem w) = false ->
  (suspended (snd (turns n endSession w)) = true ->
   let w1 := fst (turns n endSession w) in
   advance endSession w1 = (w1, Ret tt) /\
   run endSession w1 = (w1, Returned tt) /\
   finish (fst (run endSession w1), snd (turns n endSession w)) = run endSession w) /\
  _isEnding (mem (fst (run endSession w))) = false /\
  snd (run endSession w) = Returned tt.
Proof.
  intros Hfree. split.
  - intros Hs. destruct (endSession_in_flight n w Hs) as (Hg & _).
    pose proof (run_turns n endSession w) as Hrun. unfold finish in Hrun.
    destruct (turns n endSession w) as [w1 t1]. cbn [fst snd] in *.
    unfold endSession at 1 2 3. cbn [advance run]. rewrite Hg. by repeat split.
  - unfold endSession. cbn [run]. rewrite endSession_unfold, Hfree. cbn [run].
    rewrite run_try_finally, run_try_catch.
    destruct (run endSession_body _) as [w' [[]|e]]; by cbn.
Qed.

End StorageFacts.

(** ** The ledger: what endSession records *)

Module LedgerFacts.
Import StorageService.

Lemma perform_reliable (op : StoreOp) (w : World) :
  reliable (device w) ->
  perform op w = (served op w, Resolved (answer op (store w))).
Proof. intros H. unfold perform, served. by rewrite H. Qed.

Lemma run_getItem (key : string) (w : World) :
  reliable (device w) ->
  run (getItem key) w = (served (GetItem key) w, Returned (store w !! key)).
Proof. intros H. unfold getItem. cbn [run]. by rewrite perform_reliable. Qed.

Lemma run_setItem (key value : string) (w : World) :
  reliable (device w) ->
  run (setItem key value) w = (served (SetItem key value) w, Returned tt).
Proof. intros H. unfold setItem. cbn [run]. by rewrite perform_reliable. Qed.

Lemma run_removeItem (key : string) (w : World) :
  reliable (device w) ->
  run (removeItem key) w = (served (RemoveItem key) w, Returned tt).
Proof. intros H. unfold removeItem. cbn [run]. by rewrite perform_reliable. Qed.

(** Reading a stored document. *)
Lemma run_read_document {A} (decode : Json.json -> option A) (empty v : A)
    (text : option string) (w : World) :
  document decode empty text = Some v ->
  run (if Js.truthy text then Codec.parse_as decode (default EmptyString text)
       else Ret empty) w
  = (w, Returned v).
Proof.
  unfold document, Codec.parse_as.
  destruct text as [[|c t]|]; cbn; try (by intros [= ->]).
  destruct (Json.parse (String c t)); [| done]. by intros ->.
Qed.

Lemma document_stringify_history (h : gmap string Z) :
  document Codec.decode_history ∅ (Some (Codec.stringify Codec.encode_history h)) = Some h.
Proof.
  pose proof (CodecFacts.parse_as_history h) as H.
  destruct (CodecFacts.stringify_history_truthy h) as (c & t & E).
  unfold document, Codec.parse_as in *. rewrite E in *.
  destruct (Json.parse (String c t)); [| done].
  destruct (Codec.decode_history j); congruence.
Qed.

Lemma document_stringify_sessions (m : gmap string (list Detail)) :
  document Codec.decode_sessions ∅ (Some (Codec.stringify Codec.encode_sessions m)) = Some m.
Proof.
  pose proof (CodecFacts.parse_as_sessions m) as H.
  destruct (CodecFacts.stringify_sessions_truthy m) as (c & t & E).
  unfold document, Codec.parse_as in *. rewrite E in *.
  destruct (Json.parse (String c t)); [| done].
  destruct (Codec.decode_sessions j); congruence.
Qed.

Lemma ledger_refl (w : World) h m :
  history_doc (store w) = Some h -> sessions_doc (store w) = Some m -> ledger w w h m.
Proof. by repeat split. Qed.

Lemma ledger_trans (w1 w2 w3 : World) h m h' m' :
  ledger w1 w2 h m -> ledger w2 w3 h' m' -> ledger w1 w3 h' m'.
Proof.
  intros (_ & _ & H3 & H4 & H5 & H6) (H1' & H2' & H3' & H4' & H5' & H6').
  repeat split; try congruence.
  intros k Hk Hk'. rewrite H6', H6; auto.
Qed.

Lemma run_addToHistory (timestamp durationMs : Z) (w : World) h m :
  reliable (device w) ->
  history_doc (store w) = Some h -> sessions_doc (store w) = Some m ->
  snd (run (addToHistory timestamp durationMs) w) = Returned tt /\
  ledger w (fst (run (addToHistory timestamp durationMs) w))
    (add_duration (dayKey (device w) timestamp) durationMs h) m.
Proof.
  intros Hrel Hh Hm. unfold addToHistory.
  rewrite run_try_catch. cbn [run]. rewrite run_bind, run_getItem by done.
  rewrite run_bind.
  rewrite (run_read_document _ _ h) by exact Hh.
  rewrite run_setItem by done. cbn [fst snd].
  split; [reflexivity |]. unfold ledger, history_doc, sessions_doc in *. cbn.
  rewrite lookup_insert_eq, lookup_insert_ne by done.
  split; [apply document_stringify_history |].
  repeat split; try done.
  intros k Hk _. by rewrite lookup_insert_ne.
Qed.

Lemma run_addSessionDetail (startTime endTime : Z) (w : World) h m :
  reliable (device w) ->
  history_doc (store w) = Some h -> sessions_doc (store w) = Some m ->
  snd (run (addSessionDetail startTime endTime) w) = Returned tt /\
  ledger w (fst (run (addSessionDetail startTime endTime) w))
    h (push_detail (dayKey (device w) startTime) startTime endTime m).
Proof.
  intros Hrel Hh Hm. unfold addSessionDetail.
  rewrite run_try_catch. cbn [run]. rewrite run_bind, run_getItem by done.
  rewrite run_bind.
  rewrite (run_read_document _ _ m) by exact Hm.
  rewrite run_setItem by done. cbn [fst snd].
  split; [reflexivity |]. unfold ledger, history_doc, sessions_doc in *. cbn.
  rewrite lookup_insert_eq, lookup_insert_ne by done.
  split; [done |]. split; [apply document_stringify_sessions |].
  repeat split; try done.
  intros k _ Hk. by rewrite lookup_insert_ne.
Qed.

(** One segment: its duration added to the history under the day of
    [timestamp], and its interval pushed under the day of [startTime]. *)
Lemma run_record_segment (timestamp durationMs startTime endTime : Z) (w : World) h m :
  reliable (device w) ->
  history_doc (store w) = Some h -> sessions_doc (store w) = Some m ->
  snd (run (addToHistory timestamp durationMs ;; addSessionDetail startTime endTime) w)
  = Returned tt /\
  ledger w (fst (run (addToHistory timestamp durationMs ;;
                      addSessionDetail startTime endTime) w))
    (add_duration (dayKey (device w) timestamp) durationMs h)
    (push_detail (dayKey (device w) startTime) startTime endTime m).
Proof.
  intros Hrel Hh Hm. rewrite run_bind.
  destruct (run_addToHistory timestamp durationMs w h m Hrel Hh Hm) as [Hr Hl].
  destruct (run (addToHistory timestamp durationMs) w) as [w1 r1]. cbn [fst snd] in *.
  subst r1.
  destruct Hl as (Hh1 & Hm1 & Hmem & Hdev & Hclock & Hother).
  assert (Hrel1 : reliable (device w1)) by (by rewrite Hdev).
  destruct (run_addSessionDetail startTime endTime w1 _ _ Hrel1 Hh1 Hm1) as [Hr' Hl'].
  rewrite Hdev in Hl'. split; [done |].
  eapply ledger_trans; [| exact Hl']. by repeat split.
Qed.

Lemma run_recordSession_same_day (w : World) (s : Session) (now : Z) h m :
  reliable (device w) ->
  history_doc (store w) = Some h -> sessions_doc (store w) = Some m ->
  dayKey (device w) (start s) = dayKey (device w) now ->
  let day := dayKey (device w) (start s) in
  let duration := lastActive s - start s in
  snd (run (recordSession (device w) s now) w) = Returned tt /\
  ledger w (fst (run (recordSession (device w) s now) w))
    (if bool_decide (duration >= 1000) then add_duration day duration h else h)
    (if bool_decide (duration >= 1000) then push_detail day (start s) (lastActive s) m else m).
Proof.
  intros Hrel Hh Hm Hday. cbn zeta. unfold recordSession.
  rewrite bool_decide_eq_false_2 by (by intros []).
  destruct (bool_decide (lastActive s - start s >= 1000)).
  - by apply run_record_segment.
  - split; [reflexivity |]. by apply ledger_refl.
Qed.

Lemma run_recordSession_split (w : World) (s : Session) (now : Z) h m :
  reliable (device w) ->
  history_doc (store w) = Some h -> sessions_doc (store w) = Some m ->
  dayKey (device w) (start s) <> dayKey (device w) now ->
  let startDay := dayKey (device w) (start s) in
  let endDay := dayKey (device w) now in
  let midnight := endOfDay (device w) (start s) in
  let duration1 := midnight - start s in
  let duration2 := now - (midnight + 1) in
  let h1 := if bool_decide (duration1 >= 1000) then add_duration startDay duration1 h else h in
  let m1 := if bool_decide (duration1 >= 1000)
            then push_detail startDay (start s) midnight m else m in
  snd (run (recordSession (device w) s now) w) = Returned tt /\
  ledger w (fst (run (recordSession (device w) s now) w))
    (if bool_decide (duration2 >= 1000) then add_duration endDay duration2 h1 else h1)
    (if bool_decide (duration2 >= 1000)
     then push_detail (dayKey (device w) (midnight + 1)) (midnight + 1) now m1 else m1).
Proof.
  intros Hrel Hh Hm Hday. cbn zeta. unfold recordSession.
  rewrite bool_decide_eq_true_2 by done. rewrite run_bind.
  set (d1 := endOfDay (device w) (start s) - start s).
  set (d2 := now - (endOfDay (device w) (start s) + 1)).
  assert (exists w1 h1 m1,
    run (if bool_decide (d1 >= 1000)
         then addToHistory (start s) d1 ;;
              addSessionDetail (start s) (endOfDay (device w) (start s))
         else Ret tt) w = (w1, Returned tt) /\
    ledger w w1 h1 m1 /\
    h1 = (if bool_decide (d1 >= 1000)
          then add_duration (dayKey (device w) (start s)) d1 h else h) /\
    m1 = (if bool_decide (d1 >= 1000)
          then push_detail (dayKey (device w) (start s)) (start s)
                 (endOfDay (device w) (start s)) m else m))
    as (w1 & h1 & m1 & Hrun & Hl & Hh1 & Hm1).
  { destruct (bool_decide (d1 >= 1000)).
    - destruct (run_record_segment (start s) d1 (start s) (endOfDay (device w) (start s))
                  w h m Hrel Hh Hm) as [Hr Hl].
      destruct (run _ w) as [w1 r1]. cbn [fst snd] in *. subst r1. eauto 10.
    - exists w, h, m. repeat split; auto. }
  rewrite Hrun. rewrite <- Hh1, <- Hm1. clear Hh1 Hm1.
  pose proof Hl as (Hh1 & Hm1 & Hmem & Hdev & Hclock & Hother).
  assert (Hrel1 : reliable (device w1)) by (by rewrite Hdev).
  destruct (bool_decide (d2 >= 1000)).
  - destruct (run_record_segment now d2 (endOfDay (device w) (start s) + 1) now
                w1 h1 m1 Hrel1 Hh1 Hm1) as [Hr Hl'].
    rewrite Hdev in Hl'. split; [done |]. eapply ledger_trans; eauto.
  - by split.
Qed.

Lemma run_resolveSession (w : World) (s : Session) :
  reliable (device w) -> live_session w = Some s ->
  exists w1 cached,
    run resolveSession w = (w1, Returned (Some s, cached)) /\
    store w1 = store w /\ device w1 = device w /\ mem w1 = mem w /\
    clockReads w1 = clockReads w.
Proof.
  intros Hrel Hlive. unfold live_session in Hlive. unfold resolveSession. cbn [run].
  assert (Hstore : (forall s', CURRENT_SESSION (cache (mem w)) <> Some (Some s')) ->
    exists w1 cached,
      run (json ← getItem KEYS.CURRENT_SESSION;
           if Js.truthy json
           then session ← Codec.parse_as Codec.decode_session (default EmptyString json);
                Ret (Some session, false)
           else Ret (None, false)) w = (w1, Returned (Some s, cached)) /\
      store w1 = store w /\ device w1 = device w /\ mem w1 = mem w /\
      clockReads w1 = clockReads w).
  { intros Hc. rewrite run_bind, run_getItem by done.
    destruct (CURRENT_SESSION (cache (mem w))) as [[s'|]|]; [by destruct (Hc s') | |];
      (destruct (store w !! KEYS.CURRENT_SESSION) as [[|c t]|]; try discriminate Hlive;
       cbn [Js.truthy from_option id]; rewrite run_bind; unfold Codec.parse_as;
       destruct (Json.parse (String c t)) as [j|]; [| discriminate Hlive];
       rewrite Hlive; cbn; eauto 10). }
  destruct (CURRENT_SESSION (cache (mem w))) as [[s'|]|] eqn:E.
  - injection Hlive as ->. cbn. eauto 10.
  - apply Hstore. congruence.
  - apply Hstore. congruence.
Qed.

(** endSession on a live session comes down to recording the session and
    finalizing. *)
Lemma run_endSession_live (w : World) (s : Session) :
  _isEnding (mem w) = false -> reliable (device w) -> live_session w = Some s ->
  let now := clock (device w) (clockReads w) in
  let session := {| start := start s; lastActive := now |} in
  exists w2, store w2 = store w /\ device w2 = device w /\
    fst (run endSession w)
    = match run (recordSession (device w) session now) w2 with
      | (w3, Returned _) => finalize w3
      | (w3, Thrown _) => set_mem (set_isEnding false) w3
      end.
Proof.
  intros Hfree Hrel Hlive. cbn zeta.
  unfold endSession. cbn [run]. rewrite StorageFacts.endSession_unfold, Hfree. cbn [run].
  rewrite run_try_finally, run_try_catch.
  unfold endSession_body. rewrite run_bind.
  destruct (run_resolveSession (set_mem (set_isEnding true) w) s Hrel Hlive)
    as (w1 & cached & -> & Hst & Hdev & Hmem & Hclock).
  cbn [device store mem clockReads set_mem] in Hst, Hdev, Hmem, Hclock.
  unfold touch, mbind, Async_bind, modify.
  assert (Hend : forall w2, device w2 = device w ->
    (let '(w', r) :=
       match
         match run (recordSession (device w)
                      {| start := start s; lastActive := clock (device w) (clockReads w) |}
                      (clock (device w) (clockReads w))) w2 with
         | (w', Returned _) =>
             run (Modify (set_cache (cache_CURRENT_SESSION (Some None)))
                    (removeItem KEYS.CURRENT_SESSION)) w'
         | (w', Thrown e) => (w', Thrown e)
         end
       with
       | (w', Returned a) => (w', Returned a)
       | (w', Thrown e) => run (logged tt e) w'
       end in
     let '(w'', r') := run release w' in
     (w'', match r' with Returned _ => r | Thrown e => Thrown e end)).1
    = match run (recordSession (device w)
                   {| start := start s; lastActive := clock (device w) (clockReads w) |}
                   (clock (device w) (clockReads w))) w2 with
      | (w3, Returned _) => finalize w3
      | (w3, Thrown _) => set_mem (set_isEnding false) w3
      end).
  { intros w2 Hdev2.
    pose proof (run_within _isEnding (fun _ => False) true _ w2
                  (StorageFacts.recordSession_guard_kept (device w)
                     {| start := start s; lastActive := clock (device w) (clockReads w) |}
                     (clock (device w) (clockReads w)))) as (_ & _ & Hdev3 & _).
    destruct (run _ w2) as [w3 [[]|e]]; cbn [fst] in Hdev3; [| reflexivity].
    unfold removeItem. cbn [run set_mem].
    rewrite perform_reliable by (cbn; by rewrite Hdev3, Hdev2).
    reflexivity. }
  destruct cached; cbn [run bind read_clock set_mem device mem store trace clockReads];
    rewrite run_bind_raw, Hdev, Hclock;
    (eexists; split; [| split]; [| | apply Hend; reflexivity]; [exact Hst | reflexivity]).
Qed.

Lemma history_doc_finalize (w : World) :
  history_doc (store (finalize w)) = history_doc (store w).
Proof. unfold history_doc, finalize. cbn. by rewrite lookup_delete_ne. Qed.

Lemma sessions_doc_finalize (w : World) :
  sessions_doc (store (finalize w)) = sessions_doc (store w).
Proof. unfold sessions_doc, finalize. cbn. by rewrite lookup_delete_ne. Qed.

(** C2. A session that starts and ends on the same local day, ended in a
    state where the guard is free and AsyncStorage works: when it lasted
    less than 1000 ms, the History and SessionDetail documents are left as
    they were; when it lasted 1000 ms or more, the History of the start day
    grows by [lastActive - start] (lastActive being the instant of the end)
    and one interval with the session's bounds is pushed to the start day's
    SessionDetail list, nothing else changing in either document. *)
Theorem endSession_same_day (w : World) (s : Session)
    (h : gmap string Z) (m : gmap string (list Detail)) :
  let now := clock (device w) (clockReads w) in
  let day := dayKey (device w) (start s) in
  let w' := fst (run endSession w) in
  _isEnding (mem w) = false -> reliable (device w) -> live_session w = Some s ->
  history_doc (store w) = Some h -> sessions_doc (store w) = Some m ->
  dayKey (device w) now = day ->
  (now - start s < 1000 ->
   store w' !! KEYS.HISTORY = store w !! KEYS.HISTORY /\
   store w' !! KEYS.SESSIONS = store w !! KEYS.SESSIONS) /\
  (now - start s >= 1000 ->
   history_doc (store w') = Some (add_duration day (now - start s) h) /\
   sessions_doc (store w') = Some (push_detail day (start s) now m)).
Proof.
  intros now day w' Hfree Hrel Hlive Hh Hm Hday.
  destruct (run_endSession_live w s Hfree Hrel Hlive) as (w2 & Hst & Hdev & Hrun).
  fold now in Hrun. subst w'. rewrite Hrun. clear Hrun.
  set (session := {| start := start s; lastActive := now |}).
  rewrite <- Hst in Hh, Hm.
  assert (Hrel2 : reliable (device w2)) by (by rewrite Hdev).
  assert (Hday2 : dayKey (device w2) (start session) = dayKey (device w2) now)
    by (by rewrite Hdev).
  destruct (run_recordSession_same_day w2 session now h m Hrel2 Hh Hm Hday2) as [Hr Hl].
  rewrite Hdev in Hr, Hl. cbn [start lastActive session] in Hl. fold day in Hl.
  split; intros Hd.
  - unfold recordSession. cbn [start lastActive session].
    rewrite bool_decide_eq_false_2 by (by intros []).
    rewrite bool_decide_eq_false_2 by lia. unfold finalize. cbn.
    by rewrite !lookup_delete_ne, Hst.
  - rewrite !bool_decide_eq_true_2 in Hl by done.
    destruct (run _ w2) as [w3 r]. cbn [fst snd] in *. subst r.
    rewrite history_doc_finalize, sessions_doc_finalize.
    by destruct Hl as (? & ? & _).
Qed.


End LedgerFacts.

(** ** NetworkService and the evaluator *)

Module EvaluatorFacts.
Import NetworkService App.

Lemma run_isConnectedToWifi (w : World) :
  run isConnectedToWifi w = (w, Returned (on_wifi (device w))).
Proof.
  unfold isConnectedToWifi, fetch, on_wifi. cbn.
  by destruct (netinfo (device w)).
Qed.

Lemma run_getCurrentSSID (w : World) :
  run getCurrentSSID w = (w, Returned (currentSSID (device w))).
Proof.
  unfold getCurrentSSID, fetch, getProviderStatusAsync, currentSSID. cbn.
  destruct (netinfo (device w)) as [state|]; [| reflexivity]. cbn.
  destruct (is_wifi (type state)); [| reflexivity]. cbn.
  destruct (OS (device w)); cbn; try (by destruct (Js.truthy (ssid state))).
  destruct (locationServicesEnabled (device w)) as [[]|]; cbn;
    by destruct (Js.truthy (ssid state)).
Qed.

Lemma run_isConnectedToTargetNetwork (w : World) (targetSSID : option string) :
  run (isConnectedToTargetNetwork targetSSID) w
  = (w, Returned
          (on_wifi (device w) && Js.truthy targetSSID &&
           match resolvedIdentifier (device w) with
           | Some id => bool_decide (Some id = targetSSID)
           | None => is_ios (OS (device w))
           end)).
Proof.
  unfold isConnectedToTargetNetwork. rewrite run_try_catch, run_bind.
  unfold fetch at 1, on_wifi, resolvedIdentifier. cbn [run].
  destruct (netinfo (device w)) as [state|] eqn:Enet; [| reflexivity]. cbn [run].
  destruct (is_wifi (type state)) eqn:Ewifi; [| reflexivity].
  destruct (isConnected state) eqn:Econn; [| reflexivity].
  destruct (Js.truthy targetSSID) eqn:Et; [| reflexivity].
  cbn [negb orb andb run].
  destruct (OS (device w)) eqn:Eos; cbn [is_ios].
  - rewrite run_bind, run_getCurrentSSID.
    destruct (currentSSID (device w)) as [[|c t]|]; reflexivity.
  - rewrite run_bind, run_getCurrentSSID.
    destruct (currentSSID (device w)) as [[|c t]|]; reflexivity.
  - cbn. unfold currentSSID. rewrite Enet, Ewifi, Eos. reflexivity.
Qed.

(** C5, as amended. The network-match value the evaluator computes: false
    when not on Wi-Fi; true when on Wi-Fi with no raw identifier stored;
    and, on Wi-Fi with a raw identifier stored, true exactly when the
    identifier the oracle resolved (quotes stripped) is equal to the stored
    one or, the oracle having resolved none, the platform is iOS (where any
    Wi-Fi then counts). *)
Theorem network_match_value (w : World) (storedSSID : option string) (label : string) :
  exists label',
    run (matchNetwork (on_wifi (device w)) storedSSID label) w
    = (w, Returned
            (if negb (on_wifi (device w)) then false
             else if negb (Js.truthy storedSSID) then true
             else match resolvedIdentifier (device w) with
                  | Some id => bool_decide (Some id = storedSSID)
                  | None => is_ios (OS (device w))
                  end,
             label')).
Proof.
  unfold matchNetwork.
  destruct (on_wifi (device w)) eqn:Ewifi; cbn [negb andb]; [| eauto].
  destruct (Js.truthy storedSSID) eqn:Et; cbn [negb andb]; [| eauto].
  rewrite run_bind, run_isConnectedToTargetNetwork, Ewifi, Et. cbn [andb].
  destruct (match resolvedIdentifier (device w) with
            | Some id => bool_decide (Some id = storedSSID)
            | None => is_ios (OS (device w))
            end); cbn [negb run]; [eauto |].
  rewrite run_bind, run_getCurrentSSID.
  destruct (currentSSID (device w)) as [[|c t]|]; cbn; eauto.
Qed.

(** *** The stages of a tick *)

Lemma getTargetSSID_pause_kept : pause_kept StorageService.getTargetSSID.
Proof. unfold pause_kept. frame_services. Qed.

Lemma getRawSSID_pause_kept : pause_kept StorageService.getRawSSID.
Proof. unfold pause_kept. frame_services. Qed.

Lemma evaluate_pause_kept (isWifi isPaused : bool) (storedTarget storedSSID : option string) :
  pause_kept (evaluate isWifi isPaused storedTarget storedSSID).
Proof. unfold pause_kept. frame_services. Qed.

Lemma getTargetSSID_settles : settles StorageService.getTargetSSID.
Proof. settle_services. Qed.

Lemma getRawSSID_settles : settles StorageService.getRawSSID.
Proof. settle_services. Qed.

Lemma getManualPause_settles : settles StorageService.getManualPause.
Proof. settle_services. Qed.

Lemma pause_is_set_framed (w w' : World) :
  framed (fun m => (IS_MANUAL_PAUSED (cache m), isManualStop (ui m)))
         (fun k => k = KEYS.IS_MANUAL_PAUSED) true w w' ->
  pause_is_set w -> pause_is_set w'.
Proof.
  intros (Hview & Hkeys & Hdev & _). injection Hview as Hslot _.
  unfold pause_is_set. rewrite Hslot, Hkeys, Hdev by done. tauto.
Qed.

Lemma run_getManualPause_set (w : World) :
  pause_is_set w ->
  exists w1, run StorageService.getManualPause w = (w1, Returned true) /\
             device w1 = device w.
Proof.
  unfold StorageService.getManualPause. cbn [run].
  intros [-> | (-> & Hst & Hrel)]; [by exists w |].
  rewrite run_try_catch, run_bind, LedgerFacts.run_getItem, Hst by done.
  cbn. eauto.
Qed.

Lemma run_readConfiguration_paused (w : World) :
  pause_is_set w ->
  exists w1 storedTarget storedSSID,
    run readConfiguration w
    = (w1, Returned (on_wifi (device w), storedTarget, storedSSID, true)) /\
    device w1 = device w.
Proof.
  intros Hp. unfold readConfiguration.
  rewrite run_bind, run_isConnectedToWifi. rewrite run_bind.
  pose proof (run_within _ _ _ _ w getTargetSSID_pause_kept) as Hf1.
  destruct (run_settles _ w getTargetSSID_settles) as [storedTarget Hr1].
  destruct (run StorageService.getTargetSSID w) as [w1 r1]. cbn [fst snd] in *. subst r1.
  rewrite run_bind.
  pose proof (run_within _ _ _ _ w1 getRawSSID_pause_kept) as Hf2.
  destruct (run_settles _ w1 getRawSSID_settles) as [storedSSID Hr2].
  destruct (run StorageService.getRawSSID w1) as [w2 r2]. cbn [fst snd] in *. subst r2.
  rewrite run_bind.
  destruct (run_getManualPause_set w2) as (w3 & -> & Hdev3);
    [by eapply pause_is_set_framed, pause_is_set_framed |].
  cbn [run]. exists w3, storedTarget, storedSSID. split; [reflexivity |].
  destruct Hf1 as (_ & _ & Hd1 & _), Hf2 as (_ & _ & Hd2 & _). congruence.
Qed.

Lemma run_setManualPause (isPaused : bool) (w : World) :
  exists w', run (StorageService.setManualPause isPaused) w = (w', Returned tt) /\
    IS_MANUAL_PAUSED (cache (mem w')) = Some isPaused /\
    device w' = device w /\
    (reliable (device w) ->
     store w' !! KEYS.IS_MANUAL_PAUSED
     = Some (if isPaused then "true" else "false")%string).
Proof.
  unfold StorageService.setManualPause, modify, setItem.
  rewrite run_try_catch. cbn [run bind mbind Async_bind].
  unfold perform. cbn [device mem store trace clockReads set_mem].
  destruct (storeRejects (device w) (length (trace w))) eqn:E; cbn;
    eexists; (split; [reflexivity |]); repeat split.
  - intros Hrel. by rewrite Hrel in E.
  - intros _. apply lookup_insert_eq.
Qed.

(** C6. On a tick that finds the device off Wi-Fi with the manual pause
    set, the pause is cleared: the cached flag is false when the tick ends
    (so [getManualPause] answers false), the button state is false, and
    the store holds "false" provided it accepts the write. *)
Theorem tick_clears_manual_pause (w : World) :
  on_wifi (device w) = false -> pause_is_set w ->
  let w' := fst (run checkNetworkAndSession w) in
  IS_MANUAL_PAUSED (cache (mem w')) = Some false /\
  run StorageService.getManualPause w' = (w', Returned false) /\
  isManualStop (ui (mem w')) = false /\
  (reliable (device w) -> store w' !! KEYS.IS_MANUAL_PAUSED = Some "false"%string).
Proof.
  intros Hoff Hp w'. subst w'.
  unfold checkNetworkAndSession. rewrite run_logged, run_bind.
  destruct (run_readConfiguration_paused w Hp) as (w1 & storedTarget & storedSSID & -> & Hdev).
  rewrite Hoff. cbn iota. rewrite run_bind.
  unfold autoResetManualStop. cbn [negb andb]. rewrite run_bind.
  destruct (run_setManualPause false w1) as (w2 & -> & Hslot2 & Hdev2 & Hstore2).
  rewrite run_ret, run_bind. unfold setIsManualStop. rewrite run_modify.
  match goal with |- context [run ?t ?w0] =>
    pose proof (run_within _ _ _ t w0 (evaluate_pause_kept _ _ _ _))
      as (Hview & Hkeys & _);
    set (w' := fst (run t w0)) in *
  end.
  clearbody w'.
  cbn [mem set_mem set_ui ui cache isManualStop] in Hview. injection Hview as Hslot Hstop.
  rewrite Hslot2 in Hslot.
  repeat split; [done | | done |].
  - unfold StorageService.getManualPause. cbn [run]. by rewrite Hslot.
  - intros Hrel. rewrite Hkeys by done. cbn [store set_mem].
    apply Hstore2. by rewrite Hdev.
Qed.

(** *** The zombie check *)

Lemma readConfiguration_session_kept : session_kept readConfiguration.
Proof. unfold session_kept. frame_services. Qed.

Lemma readConfiguration_settles : settles readConfiguration.
Proof. settle_services. Qed.

Lemma autoResetManualStop_session_kept (isWifi isPaused : bool) :
  session_kept (autoResetManualStop isWifi isPaused).
Proof. unfold session_kept. frame_services. Qed.

Lemma autoResetManualStop_settles (isWifi isPaused : bool) :
  settles (autoResetManualStop isWifi isPaused).
Proof. settle_services. Qed.

Lemma session_is_live_framed (w w' : World) (s : Session) :
  framed (fun m => (CURRENT_SESSION (cache m), _isEnding m))
         (fun k => k = KEYS.CURRENT_SESSION) false w w' ->
  session_is_live w s -> session_is_live w' s.
Proof.
  intros (Hview & Hkeys & Hdev & _). injection Hview as Hslot _.
  unfold session_is_live, live_session. rewrite Hslot, Hkeys, Hdev by done. tauto.
Qed.

Lemma run_getCurrentSession_live (w : World) (s : Session) :
  session_is_live w s ->
  exists w1, run StorageService.getCurrentSession w = (w1, Returned (Some s)) /\
    CURRENT_SESSION (cache (mem w1)) = Some (Some s) /\
    _isEnding (mem w1) = _isEnding (mem w) /\ ui (mem w1) = ui (mem w) /\
    device w1 = device w /\ clockReads w1 = clockReads w.
Proof.
  unfold session_is_live, live_session, StorageService.getCurrentSession. cbn [run].
  intros [H | (H & Hlive & Hrel)]; rewrite H in *; [by exists w |].
  rewrite run_try_catch, run_bind, LedgerFacts.run_getItem by done.
  destruct (store w !! KEYS.CURRENT_SESSION) as [[|c t]|]; try discriminate Hlive.
  cbn [Js.truthy from_option id]. rewrite run_bind. unfold Codec.parse_as.
  destruct (Json.parse (String c t)) as [j|]; [| discriminate Hlive].
  rewrite Hlive. cbn. eexists. split; [reflexivity |]. by repeat split.
Qed.

Lemma recordSession_mem_kept (dev : Device) (session : Session) (now : Z) :
  within (fun m : Mem => m) (fun _ => False) true
    (StorageService.recordSession dev session now).
Proof. frame_services. Qed.

Lemma recordSession_settles (dev : Device) (session : Session) (now : Z) :
  settles (StorageService.recordSession dev session now).
Proof. settle_services. Qed.

(** endSession on a cached session, whatever AsyncStorage rejects: the
    cache slot is nulled and the guard is released. *)
Lemma endSession_clears_cached (w : World) (s : Session) :
  _isEnding (mem w) = false -> CURRENT_SESSION (cache (mem w)) = Some (Some s) ->
  exists w', run StorageService.endSession w = (w', Returned tt) /\
    CURRENT_SESSION (cache (mem w')) = Some None /\
    _isEnding (mem w') = false /\ ui (mem w') = ui (mem w) /\
    (reliable (device w) -> store w' !! KEYS.CURRENT_SESSION = None).
Proof.
  intros Hfree Hslot.
  unfold StorageService.endSession. cbn [run].
  rewrite StorageFacts.endSession_unfold, Hfree. cbn [run].
  rewrite run_try_finally, run_try_catch.
  unfold StorageService.endSession_body, StorageService.resolveSession,
    StorageService.touch, mbind, Async_bind, modify.
  cbn [run bind set_mem mem cache set_isEnding]. rewrite Hslot.
  cbn [run bind read_clock set_mem device mem store trace clockReads].
  rewrite run_bind_raw.
  match goal with |- context [run (StorageService.recordSession ?d ?s' ?n) ?w2] =>
    pose proof (run_within _ _ _ _ w2 (recordSession_mem_kept d s' n))
      as (Hmem & _ & Hdev & _);
    destruct (run_settles _ w2 (recordSession_settles d s' n)) as [[] Hr];
    destruct (run (StorageService.recordSession d s' n) w2) as [w3 r]
  end.
  cbn [fst snd mem device set_mem] in Hmem, Hdev, Hr. subst r.
  unfold removeItem. cbn [run]. unfold perform.
  cbn [device mem store trace clockReads set_mem]. rewrite Hmem, Hdev.
  destruct (storeRejects (device w) (length (trace w3))) eqn:E; cbn;
    (eexists; split; [reflexivity |]); repeat split.
  - intros Hrel. by rewrite Hrel in E.
  - intros _. apply lookup_delete_eq.
Qed.

(** The world a tick leaves when it finds a stale session: the one
    endSession leaves, with the idle state on the screen. *)
Lemma tick_on_stale_session (w : World) (s : Session) :
  _isEnding (mem w) = false -> session_is_live w s ->
  clock (device w) (clockReads w) - lastActive s > zombie_limit ->
  exists w6,
    fst (run checkNetworkAndSession w)
    = fst (run (setSessionDuration 0 ;; setIsConnectedToOffice false ;;
                setCurrentSSIDName (Some "Not Connected"%string)) w6) /\
    CURRENT_SESSION (cache (mem w6)) = Some None /\
    _isEnding (mem w6) = false /\
    (reliable (device w) -> store w6 !! KEYS.CURRENT_SESSION = None).
Proof.
  intros Hfree Hlive Hstale.
  unfold checkNetworkAndSession. rewrite run_logged, run_bind.
  pose proof (run_within _ _ _ _ w readConfiguration_session_kept) as Hf1.
  destruct (run_settles _ w readConfiguration_settles)
    as [[[[isWifi storedTarget] storedSSID] isPaused] Hr1].
  destruct (run readConfiguration w) as [w1 r1]. cbn [fst snd] in Hf1, Hr1. subst r1.
  cbn iota. rewrite run_bind.
  pose proof (run_within _ _ _ _ w1 (autoResetManualStop_session_kept isWifi isPaused))
    as Hf2.
  destruct (run_settles _ w1 (autoResetManualStop_settles isWifi isPaused))
    as [isPaused' Hr2].
  destruct (run (autoResetManualStop isWifi isPaused) w1) as [w2 r2].
  cbn [fst snd] in Hf2, Hr2. subst r2.
  pose proof (framed_trans _ _ _ _ _ _ Hf1 Hf2) as Hf. clear Hf1 Hf2.
  rewrite run_bind. unfold setIsManualStop. rewrite run_modify.
  unfold evaluate. rewrite run_bind.
  set (w3 := set_mem _ w2).
  assert (Hf3 : framed (fun m => (CURRENT_SESSION (cache m), _isEnding m))
                  (fun k => k = KEYS.CURRENT_SESSION) false w w3).
  { destruct Hf as (Hview & Hkeys & Hdev & Hclock). by repeat split. }
  clearbody w3. clear Hf.
  destruct (run_getCurrentSession_live w3 s (session_is_live_framed _ _ _ Hf3 Hlive))
    as (w4 & -> & Hslot4 & Hguard4 & Hui4 & Hdev4 & Hclock4).
  destruct Hf3 as (Hview & _ & Hdev3 & Hclock3). injection Hview as _ Hguard3.
  specialize (Hclock3 eq_refl).
  rewrite run_bind. unfold mbind at 1, Async_bind. cbn [run bind read_clock].
  rewrite Hdev4, Hdev3, Hclock4, Hclock3.
  rewrite (bool_decide_eq_true_2 _ Hstale).
  unfold cleanUpStaleSession. rewrite run_bind.
  match goal with |- context [run StorageService.endSession ?w5] =>
    destruct (endSession_clears_cached w5 s) as (w6 & -> & Hslot6 & Hguard6 & _ & Hstore6);
      [cbn; congruence | exact Hslot4 |]
  end.
  exists w6. by repeat split.
Qed.

End EvaluatorFacts.

(** ** More on StorageService: the configuration *)

Lemma run_device {A} (t : Async A) (w : World) : device (fst (run t w)) = device w.
Proof.
  revert w; induction t as [a|e|k IH|g k IH|k IH|k IH|op k IH|k IH|k IH];
    intros w; cbn [run]; auto.
  - by rewrite IH.
  - cbn. by rewrite IH.
  - unfold perform. destruct (storeRejects _ _); by rewrite IH.
Qed.

Module ConfigurationFacts.
Import StorageService.

(** *** Goal hours *)

(** X1. setGoalHours then getGoalHours: the goal just set is returned from the
    cache, with no call to AsyncStorage, whether or not the write was
    accepted; setGoalHours itself never throws, and a rejected write
    leaves the store as it was. *)
Theorem setGoalHours_then_getGoalHours (toString : Js.number -> string)
    (hours : Js.number) (w : World) :
  let w1 := fst (run (setGoalHours toString hours) w) in
  snd (run (setGoalHours toString hours) w) = Returned tt /\
  run getGoalHours w1 = (w1, Returned hours) /\
  trace w1 = trace w ++ [SetItem KEYS.GOAL_HOURS (toString hours)] /\
  store w1 = (if rejects_next w then store w
              else <[KEYS.GOAL_HOURS := toString hours]> (store w)).
Proof.
  unfold setGoalHours, getGoalHours, setItem, modify, rejects_next. cbn.
  by destruct (storeRejects (device w) (length (trace w))).
Qed.

(** *** Reads that AsyncStorage rejects *)

Ltac rejected_read H :=
  unfold idle_with, getTargetSSID, getRawSSID, getGoalHours, getManualPause,
    getCurrentSession, getHistory, getTodayDuration, getTodaySessions,
    getSessionsForDate, getDurationForDate, getItem;
  repeat first [ rewrite run_try_catch | rewrite run_bind
               | progress cbn [run read_clock perform device mem store trace clockReads fst snd] ];
  rewrite ?H; by cbn.

(** X2. When AsyncStorage rejects the read, every getter returns its default
    (null, 8.5, false, the empty map, 0, the empty list) and changes
    neither the in-memory state nor the store: a failed read is not
    cached, so the next call asks AsyncStorage again.  (The five cached
    getters are taken with their slot unset; with the slot set they do not
    call AsyncStorage.) *)
Theorem rejected_reads_give_defaults (w : World) :
  rejects_next w = true ->
  (TARGET_SSID (cache (mem w)) = None -> idle_with getTargetSSID None w) /\
  (RAW_SSID (cache (mem w)) = None -> idle_with getRawSSID None w) /\
  (GOAL_HOURS (cache (mem w)) = None -> idle_with getGoalHours default_goal w) /\
  (IS_MANUAL_PAUSED (cache (mem w)) = None -> idle_with getManualPause false w) /\
  (CURRENT_SESSION (cache (mem w)) = None -> idle_with getCurrentSession None w) /\
  idle_with getHistory ∅ w /\
  idle_with getTodayDuration 0 w /\
  idle_with getTodaySessions [] w /\
  (forall dateKey, idle_with (getSessionsForDate dateKey) [] w) /\
  (forall dateKey, idle_with (getDurationForDate dateKey) 0 w).
Proof.
  unfold rejects_next. intros H.
  split; [intros Hc; unfold idle_with, getTargetSSID; cbn [run]; rewrite Hc; rejected_read H |].
  split; [intros Hc; unfold idle_with, getRawSSID; cbn [run]; rewrite Hc; rejected_read H |].
  split; [intros Hc; unfold idle_with, getGoalHours; cbn [run]; rewrite Hc; rejected_read H |].
  split; [intros Hc; unfold idle_with, getManualPause; cbn [run]; rewrite Hc; rejected_read H |].
  split; [intros Hc; unfold idle_with, getCurrentSession; cbn [run]; rewrite Hc; rejected_read H |].
  repeat split; intros; rejected_read H.
Qed.
(** *** What is saved survives a relaunch *)

Lemma run_getTargetSSID_cold (w : World) :
  reliable (device w) -> TARGET_SSID (cache (mem w)) = None ->
  snd (run getTargetSSID w) = Returned (store w !! KEYS.TARGET_SSID).
Proof.
  intros Hrel Hc. unfold getTargetSSID. cbn [run]. rewrite Hc.
  by rewrite run_try_catch, run_bind, LedgerFacts.run_getItem.
Qed.

Lemma run_getRawSSID_cold (w : World) :
  reliable (device w) -> RAW_SSID (cache (mem w)) = None ->
  snd (run getRawSSID w) = Returned (store w !! KEYS.RAW_SSID).
Proof.
  intros Hrel Hc. unfold getRawSSID. cbn [run]. rewrite Hc.
  by rewrite run_try_catch, run_bind, LedgerFacts.run_getItem.
Qed.

Lemma run_getManualPause_cold (w : World) :
  reliable (device w) -> IS_MANUAL_PAUSED (cache (mem w)) = None ->
  snd (run getManualPause w) = Returned (stored_pause (store w)).
Proof.
  intros Hrel Hc. unfold getManualPause. cbn [run]. rewrite Hc.
  by rewrite run_try_catch, run_bind, LedgerFacts.run_getItem.
Qed.

(** X3. What the setters save survives a relaunch (the cache gone, the store
    as it was left), AsyncStorage working: the target name is read back as
    given; the raw identifier is read back with its quotes stripped when
    one was passed, and is the one stored before when none was (a rename
    keeps the network); the pause flag, stored as the text "true" or
    "false", is read back as the boolean that was set. *)
Theorem settings_survive_relaunch (w : World) (name : string) (rawSSID : option string)
    (isPaused : bool) :
  reliable (device w) -> name <> EmptyString ->
  let w1 := fst (run (setTargetSSID (Some name) rawSSID) w) in
  let w2 := fst (run (setManualPause isPaused) w) in
  snd (run getTargetSSID (relaunch w1)) = Returned (Some name) /\
  snd (run getRawSSID (relaunch w1))
  = Returned (if Js.truthy rawSSID
              then Some (Js.stripQuotes (default EmptyString rawSSID))
              else store w !! KEYS.RAW_SSID) /\
  snd (run getManualPause (relaunch w2)) = Returned isPaused.
Proof.
  intros Hrel Hname w1 w2.
  assert (Hrel1 : reliable (device (relaunch w1))) by (cbn; unfold w1; by rewrite run_device).
  assert (Hrel2 : reliable (device (relaunch w2))) by (cbn; unfold w2; by rewrite run_device).
  rewrite run_getTargetSSID_cold, run_getRawSSID_cold, run_getManualPause_cold by done.
  subst w1 w2. cbn [relaunch store].
  destruct name as [|c n]; [done |].
  unfold setTargetSSID, setManualPause.
  rewrite !run_logged.
  repeat split.
  - rewrite run_bind, run_modify, run_bind, LedgerFacts.run_setItem by done.
    destruct rawSSID as [[|c' r]|]; cbn [run fst store served apply_op];
      rewrite ?run_bind, ?run_modify; rewrite ?LedgerFacts.run_setItem by done;
      cbn [run fst store served apply_op set_mem];
      rewrite ?lookup_insert_ne by done; f_equal; apply lookup_insert_eq.
  - rewrite run_bind, run_modify, run_bind, LedgerFacts.run_setItem by done.
    destruct rawSSID as [[|c' r]|]; cbn [run fst store served apply_op Js.truthy];
      rewrite ?run_bind, ?run_modify; rewrite ?LedgerFacts.run_setItem by done;
      cbn [run fst store served apply_op set_mem from_option id];
      f_equal; first [apply lookup_insert_eq | by apply lookup_insert_ne].
  - rewrite run_bind, run_modify, LedgerFacts.run_setItem by done.
    cbn [fst store served apply_op set_mem]. f_equal.
    unfold stored_pause. rewrite lookup_insert_eq. by destruct isPaused.
Qed.

End ConfigurationFacts.

(** ** More on StorageService: the live session *)

Module SessionFacts.
Import StorageService.

Lemma stored_session_stringify (st : gmap string string) (s : Session) :
  st !! KEYS.CURRENT_SESSION = Some (Codec.stringify Codec.encode_session s) ->
  stored_session st = Some s.
Proof.
  intros H. unfold stored_session. rewrite H.
  pose proof (CodecFacts.parse_as_session s) as Hp.
  destruct (CodecFacts.stringify_session_truthy s) as (c & t & E).
  unfold Codec.parse_as in Hp. rewrite E in *.
  destruct (Json.parse (String c t)); [| done].
  destruct (Codec.decode_session j); congruence.
Qed.

Lemma run_getCurrentSession_cold (w : World) :
  reliable (device w) -> CURRENT_SESSION (cache (mem w)) = None ->
  snd (run getCurrentSession w) = Returned (stored_session (store w)).
Proof.
  intros Hrel Hc. unfold getCurrentSession. cbn [run]. rewrite Hc.
  rewrite run_try_catch, run_bind, LedgerFacts.run_getItem by done.
  unfold stored_session.
  destruct (store w !! KEYS.CURRENT_SESSION) as [[|c t]|]; try reflexivity.
  cbn [Js.truthy from_option id]. rewrite run_bind. unfold Codec.parse_as.
  destruct (Json.parse (String c t)) as [j|]; [| reflexivity].
  destruct (Codec.decode_session j); reflexivity.
Qed.

(** X4. startSession returns the session [{start: now, lastActive: now}];
    getCurrentSession then answers it from the cache without a call to
    AsyncStorage, and answers it again after a relaunch, from the JSON text
    startSession stored (AsyncStorage working). *)
Theorem session_survives_relaunch (w : World) :
  reliable (device w) ->
  let now := clock (device w) (clockReads w) in
  let session := {| start := now; lastActive := now |} in
  let w1 := fst (run startSession w) in
  snd (run startSession w) = Returned (Some session) /\
  run getCurrentSession w1 = (w1, Returned (Some session)) /\
  snd (run getCurrentSession (relaunch w1)) = Returned (Some session).
Proof.
  intros Hrel now session w1. subst w1.
  unfold startSession. rewrite run_try_catch, run_bind. cbn [run read_clock].
  rewrite run_bind, run_modify, run_bind, LedgerFacts.run_setItem by done.
  cbn [run fst snd]. repeat split.
  rewrite run_getCurrentSession_cold by done.
  f_equal. apply stored_session_stringify. cbn. apply lookup_insert_eq.
Qed.

Lemma run_touch (s : Session) (cached : bool) (now : Z) (w0 : World) :
  exists w2,
    run (touch s cached now) w0 = (w2, Returned {| start := start s; lastActive := now |}) /\
    store w2 = store w0 /\ device w2 = device w0 /\ clockReads w2 = clockReads w0 /\
    ui (mem w2) = ui (mem w0) /\ _isEnding (mem w2) = _isEnding (mem w0) /\
    (forall v, cache_CURRENT_SESSION v (cache (mem w2))
               = cache_CURRENT_SESSION v (cache (mem w0))).
Proof.
  unfold touch. rewrite run_bind.
  destruct cached; [rewrite run_modify |]; cbn [run]; eexists; by repeat split.
Qed.

(** What updateSessionHeartbeat leaves on a live session. *)
Lemma heartbeat_live (w : World) (s : Session) :
  reliable (device w) -> live_session w = Some s ->
  let s' := {| start := start s; lastActive := clock (device w) (clockReads w) |} in
  exists w',
    run updateSessionHeartbeat w = (w', Returned (Some s')) /\
    CURRENT_SESSION (cache (mem w')) = Some (Some s') /\
    store w' = <[KEYS.CURRENT_SESSION := Codec.stringify Codec.encode_session s']> (store w) /\
    device w' = device w /\ clockReads w' = S (clockReads w) /\
    ui (mem w') = ui (mem w) /\ _isEnding (mem w') = _isEnding (mem w) /\
    (forall v, cache_CURRENT_SESSION v (cache (mem w'))
               = cache_CURRENT_SESSION v (cache (mem w))).
Proof.
  intros Hrel Hlive s'.
  unfold updateSessionHeartbeat. rewrite run_try_catch, run_bind.
  destruct (LedgerFacts.run_resolveSession w s Hrel Hlive)
    as (w1 & cached & -> & Hst & Hdev & Hmem & Hclock).
  cbn iota. rewrite run_bind. cbn [run read_clock].
  assert (Hnow : clock (device w1) (clockReads w1) = clock (device w) (clockReads w))
    by (by rewrite Hdev, Hclock).
  rewrite Hnow. rewrite run_bind.
  match goal with |- context [run (touch s cached ?n) ?w0] =>
    destruct (run_touch s cached n w0)
      as (w2 & -> & Hst2 & Hdev2 & Hclock2 & Hui2 & Hg2 & Hcache2)
  end.
  cbn [store device clockReads mem] in Hst2, Hdev2, Hclock2, Hui2, Hg2, Hcache2.
  rewrite run_bind, run_modify, run_bind.
  rewrite LedgerFacts.run_setItem by (cbn; by rewrite Hdev2, Hdev).
  cbn [run fst snd]. eexists. split; [reflexivity |].
  cbn [mem store device clockReads served apply_op set_mem set_cache cache ui _isEnding
       cache_CURRENT_SESSION CURRENT_SESSION].
  repeat split; try congruence.
  - by rewrite Hst2, Hst.
  - intros v. specialize (Hcache2 v). rewrite Hmem in Hcache2.
    unfold cache_CURRENT_SESSION in *. cbn. by injection Hcache2 as -> -> -> ->.
Qed.

(** X5. updateSessionHeartbeat on a live session (cached, or stored), with
    AsyncStorage working: the session keeps its start and its lastActive
    becomes the clock reading; that session is returned, cached (so
    getCurrentSession answers it) and stored; no other key of the store
    changes. *)
Theorem heartbeat_keeps_start (w : World) (s : Session) :
  reliable (device w) -> live_session w = Some s ->
  let now := clock (device w) (clockReads w) in
  let s' := {| start := start s; lastActive := now |} in
  let w' := fst (run updateSessionHeartbeat w) in
  snd (run updateSessionHeartbeat w) = Returned (Some s') /\
  run getCurrentSession w' = (w', Returned (Some s')) /\
  stored_session (store w') = Some s' /\
  (forall k, k <> KEYS.CURRENT_SESSION -> store w' !! k = store w !! k).
Proof.
  intros Hrel Hlive now s' w'. subst w'.
  destruct (heartbeat_live w s Hrel Hlive) as (w' & -> & Hslot & Hst & _).
  cbn [fst snd]. repeat split.
  - unfold getCurrentSession. cbn [run]. by rewrite Hslot.
  - apply stored_session_stringify. rewrite Hst. apply lookup_insert_eq.
  - intros k Hk. rewrite Hst. by rewrite lookup_insert_ne.
Qed.

Lemma resolveSession_none (w : World) :
  live_session w = None ->
  (exists e, snd (run resolveSession w) = Thrown e) \/
  (exists cached, snd (run resolveSession w) = Returned (None, cached)).
Proof.
  unfold live_session, resolveSession. intros Hlive. cbn [run].
  destruct (CURRENT_SESSION (cache (mem w))) as [[s|]|]; [done | |];
    (unfold getItem; rewrite run_bind; cbn [run]; unfold perform;
     destruct (storeRejects _ _); cbn [run fst snd]; [eauto |];
     cbn [answer];
     destruct (store w !! KEYS.CURRENT_SESSION) as [[|c t]|];
       cbn [Js.truthy from_option id run snd]; eauto;
     rewrite run_bind; unfold Codec.parse_as;
     destruct (Json.parse (String c t)) as [j|]; cbn [run]; eauto;
     rewrite Hlive; cbn; eauto).
Qed.

Lemma resolveSession_quiet (w : World) :
  mem (fst (run resolveSession w)) = mem w /\
  store (fst (run resolveSession w)) = store w.
Proof.
  pose proof (run_within (fun m : Mem => m) (fun _ => True) false resolveSession w) as Hf.
  destruct Hf as (Hm & Hs & _).
  { unfold resolveSession. frame_services. }
  split; [done |]. apply map_eq. intros k. by apply Hs.
Qed.

Lemma heartbeat_idle (w : World) :
  live_session w = None -> idle_with updateSessionHeartbeat None w.
Proof.
  intros Hlive. unfold idle_with.
  destruct (resolveSession_quiet w) as [Hm Hs].
  unfold updateSessionHeartbeat. rewrite run_try_catch, run_bind.
  destruct (resolveSession_none w Hlive) as [[e He] | [cached He]];
    destruct (run resolveSession w) as [w1 r]; cbn [fst snd] in *; subst r; by cbn.
Qed.

Lemma endSession_idle (w : World) :
  live_session w = None -> idle_with endSession tt w.
Proof.
  intros Hlive. unfold idle_with.
  unfold endSession. cbn [run]. rewrite StorageFacts.endSession_unfold.
  destruct (_isEnding (mem w)) eqn:Eg; [by cbn |].
  cbn [run]. rewrite run_try_finally, run_try_catch.
  unfold endSession_body. rewrite run_bind.
  assert (Hlive' : live_session (set_mem (set_isEnding true) w) = None) by exact Hlive.
  destruct (resolveSession_quiet (set_mem (set_isEnding true) w)) as [Hm' Hs'].
  destruct (resolveSession_none _ Hlive') as [[e He] | [cached He]];
    destruct (run resolveSession _) as [w1 r]; cbn [fst snd] in *; subst r;
    unfold logged, release, modify;
    cbn [run fst snd set_mem mem store] in *; rewrite Hm'; (repeat split; [| done]);
    destruct (mem w); cbn in *; by subst.
Qed.

(** X6. With no session live -- none cached, and under CURRENT_SESSION
    nothing stored, or the empty text (the stored text has its shape and
    is not that of a session) -- updateSessionHeartbeat returns null and
    endSession returns, and neither changes the in-memory state or the
    store, whatever AsyncStorage rejects: a heartbeat never creates a
    session, and ending nothing records nothing. *)
Theorem nothing_live_nothing_done (w : World) :
  live_session w = None -> session_shaped (store w) = true ->
  idle_with updateSessionHeartbeat None w /\ idle_with endSession tt w.
Proof. intros Hlive _. split; [by apply heartbeat_idle | by apply endSession_idle]. Qed.

End SessionFacts.

(** ** More on StorageService: reading the ledger back *)

Module LedgerReads.
Import StorageService.

Lemma run_getHistory (w : World) (h : gmap string Z) :
  reliable (device w) -> history_doc (store w) = Some h ->
  snd (run getHistory w) = Returned h.
Proof.
  intros Hrel Hh. unfold getHistory.
  rewrite run_try_catch, run_bind, LedgerFacts.run_getItem by done.
  by rewrite (LedgerFacts.run_read_document _ _ h).
Qed.

Lemma run_getDurationForDate (w : World) (h : gmap string Z) (dateKey : string) :
  reliable (device w) -> history_doc (store w) = Some h ->
  snd (run (getDurationForDate dateKey) w) = Returned (default 0 (h !! dateKey)).
Proof.
  intros Hrel Hh. unfold getDurationForDate.
  rewrite run_try_catch, run_bind, LedgerFacts.run_getItem by done.
  rewrite run_bind. by rewrite (LedgerFacts.run_read_document _ _ h).
Qed.

Lemma run_getSessionsForDate (w : World) (m : gmap string (list Detail)) (dateKey : string) :
  reliable (device w) -> sessions_doc (store w) = Some m ->
  snd (run (getSessionsForDate dateKey) w) = Returned (default [] (m !! dateKey)).
Proof.
  intros Hrel Hm. unfold getSessionsForDate.
  rewrite run_try_catch, run_bind, LedgerFacts.run_getItem by done.
  rewrite run_bind. by rewrite (LedgerFacts.run_read_document _ _ m).
Qed.

Lemma run_getTodayDuration (w : World) (h : gmap string Z) :
  reliable (device w) -> history_doc (store w) = Some h ->
  snd (run getTodayDuration w)
  = Returned (default 0 (h !! dayKey (device w) (clock (device w) (clockReads w)))).
Proof.
  intros Hrel Hh. unfold getTodayDuration.
  rewrite run_try_catch, run_bind. cbn [run read_clock].
  rewrite run_bind, LedgerFacts.run_getItem by done.
  rewrite run_bind. by rewrite (LedgerFacts.run_read_document _ _ h).
Qed.

Lemma run_getTodaySessions (w : World) (m : gmap string (list Detail)) :
  reliable (device w) -> sessions_doc (store w) = Some m ->
  snd (run getTodaySessions w)
  = Returned (default [] (m !! dayKey (device w) (clock (device w) (clockReads w)))).
Proof.
  intros Hrel Hm. unfold getTodaySessions.
  rewrite run_try_catch, run_bind. cbn [run read_clock].
  rewrite run_bind, LedgerFacts.run_getItem by done.
  rewrite run_bind. by rewrite (LedgerFacts.run_read_document _ _ m).
Qed.

(** X7. addToHistory then the readers (AsyncStorage working, both documents
    well-formed): the day of [timestamp] reads its former total plus
    [durationMs] (a day without an entry counting as 0), every other day
    reads what it read before, and the session details are not touched. *)
Theorem addToHistory_then_read (w : World) (timestamp durationMs : Z)
    (h : gmap string Z) (m : gmap string (list Detail)) :
  reliable (device w) ->
  history_doc (store w) = Some h -> sessions_doc (store w) = Some m ->
  let day := dayKey (device w) timestamp in
  let w' := fst (run (addToHistory timestamp durationMs) w) in
  snd (run (getDurationForDate day) w') = Returned (default 0 (h !! day) + durationMs) /\
  (forall t, dayKey (device w) t <> day ->
     snd (run (getDurationForDate (dayKey (device w) t)) w')
     = Returned (default 0 (h !! dayKey (device w) t))) /\
  (forall t, snd (run (getSessionsForDate (dayKey (device w) t)) w')
             = Returned (default [] (m !! dayKey (device w) t))).
Proof.
  intros Hrel Hh Hm day w'.
  destruct (LedgerFacts.run_addToHistory timestamp durationMs w h m Hrel Hh Hm)
    as [_ (Hh' & Hm' & _ & Hdev & _)].
  fold w' day in Hh', Hm', Hdev.
  assert (Hrel' : reliable (device w')) by (by rewrite Hdev).
  repeat split.
  - rewrite (run_getDurationForDate w' _ day Hrel' Hh').
    unfold add_duration. by rewrite lookup_insert_eq.
  - intros t Ht. rewrite (run_getDurationForDate w' _ _ Hrel' Hh').
    unfold add_duration. by rewrite lookup_insert_ne.
  - intros t. by rewrite (run_getSessionsForDate w' _ _ Hrel' Hm').
Qed.

(** X8. addSessionDetail then the readers (AsyncStorage working, both
    documents well-formed): the day of [startTime] reads its former
    intervals followed by the new one, whose duration is [endTime -
    startTime]; every other day reads what it read before, and the
    history is not touched. *)
Theorem addSessionDetail_then_read (w : World) (startTime endTime : Z)
    (h : gmap string Z) (m : gmap string (list Detail)) :
  reliable (device w) ->
  history_doc (store w) = Some h -> sessions_doc (store w) = Some m ->
  let day := dayKey (device w) startTime in
  let w' := fst (run (addSessionDetail startTime endTime) w) in
  snd (run (getSessionsForDate day) w')
  = Returned (default [] (m !! day)
              ++ [{| d_start := startTime; d_end := endTime;
                     d_duration := endTime - startTime |}]) /\
  (forall t, dayKey (device w) t <> day ->
     snd (run (getSessionsForDate (dayKey (device w) t)) w')
     = Returned (default [] (m !! dayKey (device w) t))) /\
  (forall t, snd (run (getDurationForDate (dayKey (device w) t)) w')
             = Returned (default 0 (h !! dayKey (device w) t))).
Proof.
  intros Hrel Hh Hm day w'.
  destruct (LedgerFacts.run_addSessionDetail startTime endTime w h m Hrel Hh Hm)
    as [_ (Hh' & Hm' & _ & Hdev & _)].
  fold w' day in Hh', Hm', Hdev.
  assert (Hrel' : reliable (device w')) by (by rewrite Hdev).
  repeat split.
  - rewrite (run_getSessionsForDate w' _ day Hrel' Hm').
    unfold push_detail. by rewrite lookup_insert_eq.
  - intros t Ht. rewrite (run_getSessionsForDate w' _ _ Hrel' Hm').
    unfold push_detail. by rewrite lookup_insert_ne.
  - intros t. by rewrite (run_getDurationForDate w' _ _ Hrel' Hh').
Qed.

End LedgerReads.

(** ** Properties of every run *)

Section Respects.
Context (R : World -> World -> Prop) `{!PreOrder R}.

Lemma respects_ret {A} (a : A) : respects R (Ret a).
Proof. intros w. reflexivity. Qed.

Lemma respects_throw {A} (e : Exn) : respects R (@Throw A e).
Proof. intros w. reflexivity. Qed.

Lemma respects_bind {A B} (t : Async A) (f : A -> Async B) :
  respects R t -> (forall a, respects R (f a)) -> respects R (t ≫= f).
Proof.
  intros Ht Hf w. rewrite run_bind. specialize (Ht w).
  destruct (run t w) as [w1 [a|e]]; cbn [fst] in *; [| done].
  etrans; [exact Ht | apply Hf].
Qed.

Lemma respects_try_catch {A} (t : Async A) (h : Exn -> Async A) :
  respects R t -> (forall e, respects R (h e)) -> respects R (try_catch t h).
Proof.
  intros Ht Hh w. rewrite run_try_catch. specialize (Ht w).
  destruct (run t w) as [w1 [a|e]]; cbn [fst] in *; [done |].
  etrans; [exact Ht | apply Hh].
Qed.

Lemma respects_try_finally {A} (t : Async A) (fin : Async unit) :
  respects R t -> respects R fin -> respects R (try_finally t fin).
Proof.
  intros Ht Hf w. rewrite run_try_finally. specialize (Ht w).
  destruct (run t w) as [w1 r]. specialize (Hf w1).
  destruct (run fin w1) as [w2 r']. cbn [fst] in *. by etrans.
Qed.

Lemma respects_get {A} (k : Mem -> Async A) :
  (forall m, respects R (k m)) -> respects R (Get k).
Proof. intros Hk w. apply Hk. Qed.

Lemma respects_device {A} (k : Device -> Async A) :
  (forall d, respects R (k d)) -> respects R (TheDevice k).
Proof. intros Hk w. apply Hk. Qed.

Lemma respects_net {A} (k : option NetInfoState -> Async A) :
  (forall r, respects R (k r)) -> respects R (AwaitNet k).
Proof. intros Hk w. apply Hk. Qed.

Lemma respects_location {A} (k : option bool -> Async A) :
  (forall r, respects R (k r)) -> respects R (AwaitLocation k).
Proof. intros Hk w. apply Hk. Qed.

Lemma respects_modify {A} (f : Mem -> Mem) (k : Async A) :
  (forall w, R w (set_mem f w)) -> respects R k -> respects R (Modify f k).
Proof. intros Hf Hk w. cbn [run]. etrans; [apply Hf | apply Hk]. Qed.

Lemma respects_date_now {A} (k : Z -> Async A) :
  (forall w, R w (snd (read_clock w))) -> (forall n, respects R (k n)) ->
  respects R (DateNow k).
Proof. intros Hc Hk w. cbn [run]. specialize (Hc w). cbn in *. etrans; [exact Hc | apply Hk]. Qed.

Lemma respects_await {A} (op : StoreOp) (k : Reply -> Async A) :
  (forall w, R w (fst (perform op w))) -> (forall r, respects R (k r)) ->
  respects R (Await op k).
Proof.
  intros Hop Hk w. cbn [run]. specialize (Hop w).
  destruct (perform op w) as [w1 r]. cbn [fst] in *. etrans; [exact Hop | apply Hk].
Qed.

(** What a function leaves alone it respects, when [R] only looks there. *)
Lemma within_respects {X A} (view : Mem -> X) (keys : string -> Prop) (clockOk : bool)
    (t : Async A) :
  (forall w w', framed view keys clockOk w w' -> R w w') ->
  within view keys clockOk t -> respects R t.
Proof. intros HR Ht w. apply HR. by apply run_within. Qed.

End Respects.

#[global] Instance stable_preorder (I : World -> Prop) : PreOrder (stable I).
Proof. split; unfold stable; [intros w; auto | intros w1 w2 w3; auto]. Qed.

Ltac respects_step :=
  match goal with
  | |- respects _ (_ ≫= _) => apply respects_bind; [typeclasses eauto | |]
  | |- respects _ (try_catch _ _) => apply respects_try_catch; [typeclasses eauto | |]
  | |- respects _ (try_finally _ _) => apply respects_try_finally; [typeclasses eauto | |]
  | |- respects _ (Ret _) => apply respects_ret; typeclasses eauto
  | |- respects _ (Throw _) => apply respects_throw; typeclasses eauto
  | |- respects _ (Get _) => apply respects_get
  | |- respects _ (TheDevice _) => apply respects_device
  | |- respects _ (AwaitNet _) => apply respects_net
  | |- respects _ (AwaitLocation _) => apply respects_location
  | |- respects _ (match ?x with _ => _ end) => destruct x
  | |- respects _ (if ?x then _ else _) => destruct x
  | |- respects _ (let '(_, _) := ?x in _) => destruct x
  | |- forall _, _ => intro
  end.

(** *** Nothing recorded is lost *)

#[global] Instance grows_preorder : PreOrder grows.
Proof.
  split.
  - intros w. split; intros d Hd; exists d; by split.
  - intros w1 w2 w3 [Hh12 Hm12] [Hh23 Hm23]. split.
    + intros h1 H1. destruct (Hh12 h1 H1) as (h2 & H2 & Hle12).
      destruct (Hh23 h2 H2) as (h3 & H3 & Hle23).
      exists h3. split; [done |]. intros day. etrans; [apply Hle12 | apply Hle23].
    + intros m1 H1. destruct (Hm12 m1 H1) as (m2 & H2 & Hle12).
      destruct (Hm23 m2 H2) as (m3 & H3 & Hle23).
      exists m3. split; [done |]. intros day. etrans; [apply Hle12 | apply Hle23].
Qed.

Lemma grows_same_ledger (w w' : World) :
  store w' !! KEYS.HISTORY = store w !! KEYS.HISTORY ->
  store w' !! KEYS.SESSIONS = store w !! KEYS.SESSIONS ->
  grows w w'.
Proof.
  intros Hh Hm. unfold grows, history_doc, sessions_doc. rewrite Hh, Hm.
  split; intros d Hd; exists d; by split.
Qed.

Lemma grows_framed (w w' : World) :
  framed (fun _ : Mem => tt) ledger_keys true w w' -> grows w w'.
Proof.
  intros (_ & Hk & _). apply grows_same_ledger; apply Hk; unfold ledger_keys; auto.
Qed.

Lemma run_read_document_none {A} (decode : Json.json -> option A) (empty : A)
    (text : option string) (w : World) :
  document decode empty text = None ->
  exists e, run (if Js.truthy text then Codec.parse_as decode (default EmptyString text)
                 else Ret empty) w = (w, Thrown e).
Proof.
  unfold document, Codec.parse_as.
  destruct text as [[|c t]|]; cbn; try done.
  destruct (Json.parse (String c t)) as [j|]; [| eauto].
  intros ->. eauto.
Qed.

Lemma addToHistory_grows (timestamp durationMs : Z) :
  0 <= durationMs -> respects grows (StorageService.addToHistory timestamp durationMs).
Proof.
  intros Hd w. unfold StorageService.addToHistory.
  rewrite run_logged. cbn [run]. rewrite run_bind.
  unfold getItem at 1. cbn [run]. unfold perform.
  destruct (storeRejects (device w) (length (trace w))); cbn [run fst snd].
  { by apply grows_same_ledger. }
  cbn [answer]. rewrite run_bind.
  destruct (document Codec.decode_history ∅ (store w !! KEYS.HISTORY)) as [h|] eqn:Eh.
  - rewrite (LedgerFacts.run_read_document _ _ h) by exact Eh.
    unfold setItem. cbn [run]. unfold perform. cbn [device trace store].
    destruct (storeRejects (device w) (length (trace w ++ _))); cbn [fst run];
      [by apply grows_same_ledger |].
    split.
    + intros h0 H0. unfold history_doc in *. cbn [store apply_op].
      rewrite lookup_insert_eq. rewrite LedgerFacts.document_stringify_history.
      eexists. split; [reflexivity |].
      assert (h0 = h) as -> by congruence.
      intros day. destruct (decide (day = dayKey (device w) timestamp)) as [-> |].
      * rewrite lookup_insert_eq. cbn. lia.
      * by rewrite lookup_insert_ne.
    + intros m0 H0. unfold sessions_doc in *. cbn [store apply_op].
      rewrite lookup_insert_ne by done. exists m0. by split.
  - match goal with |- context [run (if _ then _ else _) ?w0] =>
      destruct (run_read_document_none Codec.decode_history ∅ _ w0 Eh) as [e ->]
    end.
    by apply grows_same_ledger.
Qed.

Lemma addSessionDetail_grows (startTime endTime : Z) :
  respects grows (StorageService.addSessionDetail startTime endTime).
Proof.
  intros w. unfold StorageService.addSessionDetail.
  rewrite run_logged. cbn [run]. rewrite run_bind.
  unfold getItem at 1. cbn [run]. unfold perform.
  destruct (storeRejects (device w) (length (trace w))); cbn [run fst snd].
  { by apply grows_same_ledger. }
  cbn [answer]. rewrite run_bind.
  destruct (document Codec.decode_sessions ∅ (store w !! KEYS.SESSIONS)) as [m|] eqn:Em.
  - rewrite (LedgerFacts.run_read_document _ _ m) by exact Em.
    unfold setItem. cbn [run]. unfold perform. cbn [device trace store].
    destruct (storeRejects (device w) (length (trace w ++ _))); cbn [fst run];
      [by apply grows_same_ledger |].
    split.
    + intros h0 H0. unfold history_doc in *. cbn [store apply_op].
      rewrite lookup_insert_ne by done. exists h0. by split.
    + intros m0 H0. unfold sessions_doc in *. cbn [store apply_op].
      rewrite lookup_insert_eq. rewrite LedgerFacts.document_stringify_sessions.
      eexists. split; [reflexivity |].
      assert (m0 = m) as -> by congruence.
      intros day. destruct (decide (day = dayKey (device w) startTime)) as [-> |].
      * rewrite lookup_insert_eq. cbn. by apply prefix_app_r.
      * by rewrite lookup_insert_ne.
  - match goal with |- context [run (if _ then _ else _) ?w0] =>
      destruct (run_read_document_none Codec.decode_sessions ∅ _ w0 Em) as [e ->]
    end.
    by apply grows_same_ledger.
Qed.

Lemma recordSession_grows (dev : Device) (session : Session) (now : Z) :
  respects grows (StorageService.recordSession dev session now).
Proof.
  unfold StorageService.recordSession.
  repeat first
    [ apply addSessionDetail_grows
    | apply addToHistory_grows;
      match goal with H : bool_decide _ = true |- _ => apply bool_decide_eq_true_1 in H; lia end
    | match goal with
      | |- respects _ (if bool_decide ?P then _ else _) => destruct (bool_decide P) eqn:?
      end
    | respects_step ].
Qed.

Lemma grows_perform (op : StoreOp) (w : World) :
  spares ledger_keys op -> grows w (fst (perform op w)).
Proof. intros Hop. apply grows_framed. by apply framed_perform. Qed.

Ltac unfold_callers :=
  unfold App.backgroundTask, App.checkNetworkAndSession,
    App.evaluate, App.decide_tracking, App.cleanUpStaleSession, App.commit,
    App.matchNetwork, App.readConfiguration, App.autoResetManualStop,
    App.setIsManualStop, App.setSessionDuration, App.setIsConnectedToOffice,
    App.setCurrentSSIDName, App.setCurrentSessionStart, App.setTargetSSID,
    App.setIsOnTargetNetwork,
    NetworkService.isConnectedToTargetNetwork, NetworkService.isConnectedToWifi,
    NetworkService.getCurrentSSID, NetworkService.fetch,
    NetworkService.getProviderStatusAsync,
    StorageService.endSession, StorageService.endSession_body,
    StorageService.resolveSession,
    StorageService.touch, StorageService.startSession,
    StorageService.updateSessionHeartbeat, StorageService.getCurrentSession,
    StorageService.getTargetSSID, StorageService.getRawSSID,
    StorageService.clearTargetSSID, StorageService.setTargetSSID,
    StorageService.getGoalHours, StorageService.setGoalHours, StorageService.getHistory,
    StorageService.getDurationForDate, StorageService.getTodayDuration,
    StorageService.getSessionsForDate, StorageService.getTodaySessions,
    StorageService.getManualPause, StorageService.setManualPause,
    Codec.parse_as, getItem, setItem, removeItem, modify, logged.

Ltac grows_step :=
  first
    [ apply recordSession_grows
    | apply addSessionDetail_grows
    | respects_step
    | match goal with
      | |- respects grows (Modify _ _) =>
          apply respects_modify; [typeclasses eauto | intros ?; by apply grows_same_ledger |]
      | |- respects grows (DateNow _) =>
          apply respects_date_now; [typeclasses eauto | intros ?; by apply grows_same_ledger |]
      | |- respects grows (Await _ _) =>
          apply respects_await;
          [typeclasses eauto
          | intros ?; apply grows_perform; unfold spares, ledger_keys;
            first [exact I | (intros [H | H]; discriminate H)]
          |]
      end
    | progress unfold_callers ].

Ltac grows_services := repeat grows_step.





(** *** The cache agrees with the store *)

Lemma in_sync_framed (w w' : World) :
  framed (fun m => (cache m, _isEnding m)) state_keys true w w' ->
  in_sync w -> in_sync w'.
Proof.
  intros (Hview & Hkeys & Hdev & _) (Hrel & Hg & Hcoh).
  injection Hview as Hc Hg'.
  split; [by rewrite Hdev |]. split; [congruence |].
  unfold coherent, stored_goal, stored_pause, stored_session in *.
  rewrite Hc.
  rewrite !Hkeys by (unfold state_keys; tauto). exact Hcoh.
Qed.

Lemma in_sync_same (w w' : World) :
  mem w' = mem w -> store w' = store w -> device w' = device w ->
  in_sync w -> in_sync w'.
Proof.
  unfold in_sync, coherent. intros -> -> ->. auto.
Qed.

Ltac sync_start :=
  intros w Hsync; pose proof Hsync as (Hrel & Hg & Hcoh);
  unfold coherent, stored_goal, stored_pause, stored_session in Hcoh;
  destruct Hcoh as (Htarget & Hraw & Hgoal & Hpause & Hsession).

Ltac sync_finish :=
  split; [by rewrite ?run_device |];
  split; [try done |];
  unfold coherent, stored_goal, stored_pause, stored_session;
  cbn [mem store cache set_mem set_cache served apply_op
       cache_TARGET_SSID cache_RAW_SSID cache_GOAL_HOURS cache_IS_MANUAL_PAUSED
       cache_CURRENT_SESSION TARGET_SSID RAW_SSID GOAL_HOURS IS_MANUAL_PAUSED
       CURRENT_SESSION _isEnding];
  repeat first [ rewrite lookup_insert_eq | rewrite lookup_delete_eq
               | rewrite lookup_insert_ne by done | rewrite lookup_delete_ne by done ];
  repeat split; try assumption; try (intros v [= <-]; try reflexivity).

Lemma getTargetSSID_in_sync : respects (stable in_sync) StorageService.getTargetSSID.
Proof.
  sync_start. unfold StorageService.getTargetSSID. cbn [run].
  destruct (TARGET_SSID (cache (mem w))) as [v|] eqn:E; [exact Hsync |].
  rewrite run_try_catch, run_bind, LedgerFacts.run_getItem by done.
  rewrite run_bind, run_modify. cbn [run fst].
  sync_finish.
Qed.

Lemma getRawSSID_in_sync : respects (stable in_sync) StorageService.getRawSSID.
Proof.
  sync_start. unfold StorageService.getRawSSID. cbn [run].
  destruct (RAW_SSID (cache (mem w))) as [v|] eqn:E; [exact Hsync |].
  rewrite run_try_catch, run_bind, LedgerFacts.run_getItem by done.
  rewrite run_bind, run_modify. cbn [run fst].
  sync_finish.
Qed.

Lemma getGoalHours_in_sync : respects (stable in_sync) StorageService.getGoalHours.
Proof.
  sync_start. unfold StorageService.getGoalHours. cbn [run].
  destruct (GOAL_HOURS (cache (mem w))) as [v|] eqn:E; [exact Hsync |].
  rewrite run_try_catch, run_bind, LedgerFacts.run_getItem by done.
  rewrite run_bind, run_modify. cbn [run fst].
  sync_finish.
Qed.

Lemma getManualPause_in_sync : respects (stable in_sync) StorageService.getManualPause.
Proof.
  sync_start. unfold StorageService.getManualPause. cbn [run].
  destruct (IS_MANUAL_PAUSED (cache (mem w))) as [v|] eqn:E; [exact Hsync |].
  rewrite run_try_catch, run_bind, LedgerFacts.run_getItem by done.
  rewrite run_bind, run_modify. cbn [run fst].
  sync_finish.
Qed.

Lemma setManualPause_in_sync (isPaused : bool) :
  respects (stable in_sync) (StorageService.setManualPause isPaused).
Proof.
  sync_start. unfold StorageService.setManualPause.
  rewrite run_logged, run_bind, run_modify, LedgerFacts.run_setItem by done.
  cbn [fst]. sync_finish. by destruct isPaused.
Qed.

Lemma clearTargetSSID_in_sync : respects (stable in_sync) StorageService.clearTargetSSID.
Proof.
  sync_start. unfold StorageService.clearTargetSSID.
  rewrite run_logged, run_bind, run_modify, run_bind, run_modify, run_bind.
  rewrite LedgerFacts.run_removeItem by done.
  rewrite LedgerFacts.run_removeItem by done.
  cbn [fst]. sync_finish.
Qed.

Lemma setTargetSSID_in_sync (name rawSSID : option string) :
  respects (stable in_sync) (StorageService.setTargetSSID name rawSSID).
Proof.
  sync_start. unfold StorageService.setTargetSSID. rewrite run_logged.
  destruct name as [[|c n]|].
  - rewrite run_bind, run_modify, run_bind, run_modify, run_bind.
    rewrite LedgerFacts.run_removeItem by done.
    rewrite LedgerFacts.run_removeItem by done.
    cbn [fst]. sync_finish.
  - rewrite run_bind, run_modify, run_bind, LedgerFacts.run_setItem by done.
    destruct rawSSID as [[|c' r]|]; cbn [run fst];
      rewrite ?run_bind, ?run_modify; rewrite ?LedgerFacts.run_setItem by done;
      cbn [fst]; sync_finish.
  - rewrite run_bind, run_modify, run_bind, run_modify, run_bind.
    rewrite LedgerFacts.run_removeItem by done.
    rewrite LedgerFacts.run_removeItem by done.
    cbn [fst]. sync_finish.
Qed.

Lemma read_session_stringify (s : Session) :
  match Codec.stringify Codec.encode_session s with
  | EmptyString => None
  | String c t =>
      match Json.parse (String c t) with
      | Some j => Codec.decode_session j
      | None => None
      end
  end = Some s.
Proof.
  pose proof (SessionFacts.stored_session_stringify
                {[ KEYS.CURRENT_SESSION := Codec.stringify Codec.encode_session s ]} s
                (lookup_singleton_eq _ _)) as H.
  unfold stored_session in H. by rewrite lookup_singleton_eq in H.
Qed.

Lemma startSession_in_sync : respects (stable in_sync) StorageService.startSession.
Proof.
  sync_start. unfold StorageService.startSession.
  rewrite run_logged, run_bind. cbn [run read_clock].
  rewrite run_bind, run_modify, run_bind, LedgerFacts.run_setItem by done.
  cbn [run fst]. sync_finish.
  symmetry. apply read_session_stringify.
Qed.

Lemma getCurrentSession_in_sync : respects (stable in_sync) StorageService.getCurrentSession.
Proof.
  sync_start. unfold StorageService.getCurrentSession. cbn [run].
  destruct (CURRENT_SESSION (cache (mem w))) as [v|] eqn:E; [exact Hsync |].
  rewrite run_try_catch, run_bind, LedgerFacts.run_getItem by done.
  rewrite run_bind.
  destruct (store w !! KEYS.CURRENT_SESSION) as [[|c t]|] eqn:Et;
    cbn [Js.truthy from_option id run].
  - rewrite run_bind, run_modify. cbn [run fst]. sync_finish. by rewrite Et.
  - rewrite run_bind. unfold Codec.parse_as.
    destruct (Json.parse (String c t)) as [j|] eqn:Ep; cbn [run fst snd].
    + destruct (Codec.decode_session j) as [s|] eqn:Ed; cbn [run fst snd].
      * rewrite run_bind, run_modify. cbn [run fst]. sync_finish. by rewrite Et, Ep.
      * by apply (in_sync_same w).
    + by apply (in_sync_same w).
  - rewrite run_bind, run_modify. cbn [run fst]. sync_finish. by rewrite Et.
Qed.

Lemma recordSession_state_kept (dev : Device) (session : Session) (now : Z) :
  within (fun m : Mem => m) state_keys false (StorageService.recordSession dev session now).
Proof.
  repeat first
    [ within_step
    | match goal with
      | |- spares state_keys _ =>
          unfold spares, state_keys; intros [H|[H|[H|[H|H]]]]; discriminate H
      end
    | progress unfold_services ].
Qed.

Lemma endSession_ends (w : World) (s : Session) :
  _isEnding (mem w) = false -> reliable (device w) -> live_session w = Some s ->
  let now := clock (device w) (clockReads w) in
  let session := {| start := start s; lastActive := now |} in
  exists w2 w3,
    run (StorageService.recordSession (device w) session now) w2 = (w3, Returned tt) /\
    run StorageService.endSession w = (finalize w3, Returned tt) /\
    store w2 = store w /\ device w2 = device w /\ clockReads w2 = S (clockReads w) /\
    ui (mem w2) = ui (mem w) /\
    (forall v, cache_CURRENT_SESSION v (cache (mem w2))
               = cache_CURRENT_SESSION v (cache (mem w))) /\
    mem w3 = mem w2 /\ device w3 = device w /\ clockReads w3 = clockReads w2 /\
    (forall k, state_keys k -> store w3 !! k = store w2 !! k).
Proof.
  intros Hfree Hrel Hlive now session.
  unfold StorageService.endSession. cbn [run].
  rewrite StorageFacts.endSession_unfold, Hfree. cbn [run].
  rewrite run_try_finally, run_try_catch.
  unfold StorageService.endSession_body. rewrite run_bind.
  destruct (LedgerFacts.run_resolveSession (set_mem (set_isEnding true) w) s Hrel Hlive)
    as (w1 & cached & -> & Hst & Hdev & Hmem & Hclock).
  cbn [device store mem clockReads set_mem] in Hst, Hdev, Hmem, Hclock.
  cbn iota. rewrite run_bind. cbn [run read_clock].
  assert (Hnow : clock (device w1) (clockReads w1) = now) by (by rewrite Hdev, Hclock).
  rewrite Hnow. rewrite run_bind.
  match goal with |- context [run (StorageService.touch s cached now) ?w0] =>
    destruct (SessionFacts.run_touch s cached now w0) as (w2 & -> & Hst2 & Hdev2 & Hclock2 & Hui2 & _ & Hcache2)
  end.
  cbn [store device clockReads mem] in Hst2, Hdev2, Hclock2, Hui2, Hcache2.
  rewrite Hst in Hst2. rewrite Hdev in Hdev2. rewrite Hclock in Hclock2.
  rewrite Hmem in Hui2, Hcache2. cbn [ui cache set_isEnding] in Hui2, Hcache2.
  cbn [run]. rewrite Hdev2. rewrite run_bind. subst session.
  match goal with |- context [run (StorageService.recordSession ?d ?s' ?n) w2] =>
    pose proof (run_within _ _ _ _ w2 (recordSession_state_kept d s' n))
      as (Hmem3 & Hkeys3 & Hdev3 & Hclock3);
    destruct (run_settles _ w2 (EvaluatorFacts.recordSession_settles d s' n)) as [[] Hr];
    destruct (run (StorageService.recordSession d s' n) w2) as [w3 r] eqn:Erun
  end.
  cbn [fst snd] in *. subst r.
  rewrite run_bind, run_modify.
  rewrite LedgerFacts.run_removeItem by (cbn; by rewrite Hdev3, Hdev2).
  unfold release, modify. cbn [run fst snd].
  exists w2, w3. split; [exact Erun |].
  repeat split; try done; try congruence. by apply Hclock3.
Qed.

(** Only the session changed, in the cache and in the store. *)
Lemma coherent_session_update (w w' : World) :
  coherent w ->
  (forall v, cache_CURRENT_SESSION v (cache (mem w'))
             = cache_CURRENT_SESSION v (cache (mem w))) ->
  (forall k, state_keys k -> k <> KEYS.CURRENT_SESSION -> store w' !! k = store w !! k) ->
  (forall v, CURRENT_SESSION (cache (mem w')) = Some v -> v = stored_session (store w')) ->
  coherent w'.
Proof.
  intros (Ht & Hr & Hg & Hp & _) Hc Hk Hs.
  specialize (Hc None). unfold cache_CURRENT_SESSION in Hc.
  injection Hc as Ec1 Ec2 Ec3 Ec4.
  unfold coherent, stored_goal, stored_pause in *.
  rewrite Ec1, Ec2, Ec3, Ec4.
  rewrite !Hk by (unfold state_keys; first [tauto | done]).
  auto.
Qed.

Lemma endSession_in_sync : respects (stable in_sync) StorageService.endSession.
Proof.
  intros w Hsync. pose proof Hsync as (Hrel & Hg & Hcoh).
  destruct (live_session w) as [s|] eqn:Hlive.
  - destruct (endSession_ends w s Hg Hrel Hlive)
      as (w2 & w3 & _ & -> & Hst2 & Hdev2 & _ & _ & Hcache2 & Hmem3 & Hdev3 & _ & Hkeys3).
    cbn [fst]. split; [| split].
    + unfold finalize. cbn. by rewrite Hdev3.
    + reflexivity.
    + apply (coherent_session_update w); [done | | |].
      * intros v. unfold finalize. cbn. rewrite Hmem3. apply Hcache2.
      * intros k Hk Hne. unfold finalize. cbn. rewrite lookup_delete_ne by done.
        by rewrite Hkeys3, Hst2.
      * unfold finalize. cbn. intros v [= <-].
        unfold stored_session. by rewrite lookup_delete_eq.
  - destruct (SessionFacts.endSession_idle w Hlive) as (_ & Hm & Hs).
    apply (in_sync_same w); [done | done | apply run_device | done].
Qed.

Lemma updateSessionHeartbeat_in_sync :
  respects (stable in_sync) StorageService.updateSessionHeartbeat.
Proof.
  intros w Hsync. pose proof Hsync as (Hrel & Hg & Hcoh).
  destruct (live_session w) as [s|] eqn:Hlive.
  - destruct (SessionFacts.heartbeat_live w s Hrel Hlive)
      as (w' & -> & Hslot & Hst & Hdev & _ & _ & Hg' & Hcache).
    cbn [fst]. split; [by rewrite Hdev | split; [congruence |]].
    apply (coherent_session_update w); [done | done | |].
    + intros k _ Hne. rewrite Hst. by rewrite lookup_insert_ne.
    + rewrite Hslot. intros v [= <-]. symmetry.
      apply SessionFacts.stored_session_stringify. rewrite Hst. apply lookup_insert_eq.
  - destruct (SessionFacts.heartbeat_idle w Hlive) as (_ & Hm & Hs).
    apply (in_sync_same w); [done | done | apply run_device | done].
Qed.

Lemma in_sync_modify (f : Mem -> Mem) (w : World) :
  keeps (fun m => (cache m, _isEnding m)) f -> stable in_sync w (set_mem f w).
Proof.
  intros Hf. unfold stable. apply in_sync_framed. repeat split; cbn; auto.
Qed.

Lemma in_sync_perform (op : StoreOp) (w : World) :
  spares state_keys op -> stable in_sync w (fst (perform op w)).
Proof. intros Hop. unfold stable. apply in_sync_framed. by apply framed_perform. Qed.

Ltac unfold_app :=
  unfold App.backgroundTask, App.checkNetworkAndSession,
    App.evaluate, App.decide_tracking, App.cleanUpStaleSession, App.commit,
    App.matchNetwork, App.readConfiguration, App.autoResetManualStop,
    App.setIsManualStop, App.setSessionDuration, App.setIsConnectedToOffice,
    App.setCurrentSSIDName, App.setCurrentSessionStart, App.setTargetSSID,
    App.setIsOnTargetNetwork,
    NetworkService.isConnectedToTargetNetwork, NetworkService.isConnectedToWifi,
    NetworkService.getCurrentSSID, NetworkService.fetch,
    NetworkService.getProviderStatusAsync, modify, logged.

Ltac unfold_ledger :=
  unfold StorageService.recordSession, StorageService.addToHistory,
    StorageService.addSessionDetail, StorageService.clearHistory,
    StorageService.getHistory, StorageService.getDurationForDate,
    StorageService.getTodayDuration, StorageService.getSessionsForDate,
    StorageService.getTodaySessions, Codec.parse_as, getItem, setItem, removeItem,
    modify, logged.

Ltac sync_step :=
  first
    [ apply getTargetSSID_in_sync | apply getRawSSID_in_sync | apply getGoalHours_in_sync
    | apply getManualPause_in_sync | apply setManualPause_in_sync
    | apply clearTargetSSID_in_sync | apply setTargetSSID_in_sync
    | apply startSession_in_sync | apply getCurrentSession_in_sync
    | apply endSession_in_sync | apply updateSessionHeartbeat_in_sync
    | respects_step
    | match goal with
      | |- respects (stable in_sync) (Modify _ _) =>
          apply respects_modify;
          [typeclasses eauto | intros ?; apply in_sync_modify; intros []; reflexivity |]
      | |- respects (stable in_sync) (DateNow _) =>
          apply respects_date_now;
          [typeclasses eauto | intros ?; unfold stable; by apply in_sync_same |]
      | |- respects (stable in_sync) (Await _ _) =>
          apply respects_await;
          [typeclasses eauto
          | intros ?; apply in_sync_perform; unfold spares, state_keys;
            first [exact I | (intros [H|[H|[H|[H|H]]]]; discriminate H)]
          |]
      end
    | progress unfold_app ].

Ltac sync_services := repeat sync_step.
Ltac sync_ledger := repeat first [sync_step | progress unfold_ledger].

(** ** What every operation keeps *)

Module InvariantFacts.
Import StorageService.

(** X9. Nothing recorded is lost by the evaluator, by the background task or
    by the operations of StorageService that start, touch or end a session
    or write the configuration (endSession, startSession,
    updateSessionHeartbeat, addSessionDetail, setTargetSSID,
    clearTargetSSID, setManualPause) -- in every state whose stored
    session text has its shape (none, empty, or the JSON text of a
    session), whatever is cached and whatever AsyncStorage rejects: a
    History document that is well-formed is well-formed afterwards and no
    day's total has decreased; SessionDetails that are well-formed are
    well-formed afterwards and every day still starts with the intervals
    it had, in the same order. *)
Theorem recorded_time_is_never_lost (w : World) :
  session_shaped (store w) = true ->
  grows w (fst (run App.checkNetworkAndSession w)) /\
  (forall data error, grows w (fst (run (App.backgroundTask data error) w))) /\
  grows w (fst (run endSession w)) /\
  grows w (fst (run startSession w)) /\
  grows w (fst (run updateSessionHeartbeat w)) /\
  (forall startTime endTime, grows w (fst (run (addSessionDetail startTime endTime) w))) /\
  (forall name rawSSID, grows w (fst (run (setTargetSSID name rawSSID) w))) /\
  grows w (fst (run clearTargetSSID w)) /\
  (forall isPaused, grows w (fst (run (setManualPause isPaused) w))).
Proof.
  intros _.
  repeat match goal with |- _ /\ _ => split end; intros;
    match goal with |- grows w (fst (run ?t w)) =>
      assert (Ht : respects grows t) by grows_services; by apply Ht
    end.
Qed.

(** X10. The cache never disagrees with the store while AsyncStorage works:
    from a state in which AsyncStorage rejects nothing, no endSession is
    in flight and every cache slot that is set holds what a read of the
    store would give, the evaluator, the background task and each
    operation of StorageService other than setGoalHours lead to such a
    state again. *)
Theorem cache_stays_in_sync (w : World) :
  in_sync w ->
  in_sync (fst (run App.checkNetworkAndSession w)) /\
  (forall data error, in_sync (fst (run (App.backgroundTask data error) w))) /\
  (forall name rawSSID, in_sync (fst (run (setTargetSSID name rawSSID) w))) /\
  in_sync (fst (run getTargetSSID w)) /\
  in_sync (fst (run getRawSSID w)) /\
  in_sync (fst (run clearTargetSSID w)) /\
  in_sync (fst (run getGoalHours w)) /\
  in_sync (fst (run getManualPause w)) /\
  (forall isPaused, in_sync (fst (run (setManualPause isPaused) w))) /\
  in_sync (fst (run startSession w)) /\
  in_sync (fst (run updateSessionHeartbeat w)) /\
  in_sync (fst (run endSession w)) /\
  in_sync (fst (run getCurrentSession w)) /\
  (forall timestamp durationMs, in_sync (fst (run (addToHistory timestamp durationMs) w))) /\
  (forall startTime endTime, in_sync (fst (run (addSessionDetail startTime endTime) w))) /\
  in_sync (fst (run clearHistory w)) /\
  in_sync (fst (run getHistory w)) /\
  in_sync (fst (run getTodayDuration w)) /\
  in_sync (fst (run getTodaySessions w)) /\
  (forall dateKey, in_sync (fst (run (getSessionsForDate dateKey) w))) /\
  (forall dateKey, in_sync (fst (run (getDurationForDate dateKey) w))).
Proof.
  intros Hsync.
  repeat match goal with |- _ /\ _ => split end; intros;
    match goal with |- in_sync (fst (run ?t w)) =>
      assert (Ht : respects (stable in_sync) t) by sync_ledger; by apply Ht
    end.
Qed.

Lemma run_getGoalHours_cold (w : World) :
  reliable (device w) -> GOAL_HOURS (cache (mem w)) = None ->
  snd (run getGoalHours w) = Returned (stored_goal (store w)).
Proof.
  intros Hrel Hc. unfold getGoalHours. cbn [run]. rewrite Hc.
  rewrite run_try_catch, run_bind, LedgerFacts.run_getItem by done.
  unfold stored_goal. by destruct (store w !! KEYS.GOAL_HOURS).
Qed.

(** X11. The cache is transparent: in a state in which AsyncStorage rejects
    nothing, no endSession is in flight, every cache slot that is set
    holds what a read of the store would give and the stored session text
    has its shape (none, empty, or the JSON text of a session), each of
    the five cached getters answers what it would answer after a relaunch,
    with the cache empty. *)
Theorem cache_is_transparent (w : World) :
  in_sync w -> session_shaped (store w) = true ->
  snd (run getTargetSSID w) = snd (run getTargetSSID (relaunch w)) /\
  snd (run getRawSSID w) = snd (run getRawSSID (relaunch w)) /\
  snd (run getGoalHours w) = snd (run getGoalHours (relaunch w)) /\
  snd (run getManualPause w) = snd (run getManualPause (relaunch w)) /\
  snd (run getCurrentSession w) = snd (run getCurrentSession (relaunch w)).
Proof.
  intros (Hrel & _ & Ht & Hr & Hg & Hp & Hs) _.
  assert (Hrel' : reliable (device (relaunch w))) by exact Hrel.
  rewrite (ConfigurationFacts.run_getTargetSSID_cold (relaunch w)),
    (ConfigurationFacts.run_getRawSSID_cold (relaunch w)),
    (run_getGoalHours_cold (relaunch w)),
    (ConfigurationFacts.run_getManualPause_cold (relaunch w)),
    (SessionFacts.run_getCurrentSession_cold (relaunch w)) by done.
  cbn [relaunch store].
  repeat apply conj.
  - destruct (TARGET_SSID (cache (mem w))) as [v|] eqn:E.
    + unfold getTargetSSID. cbn [run]. rewrite E. cbn. f_equal. by apply Ht.
    + by apply ConfigurationFacts.run_getTargetSSID_cold.
  - destruct (RAW_SSID (cache (mem w))) as [v|] eqn:E.
    + unfold getRawSSID. cbn [run]. rewrite E. cbn. f_equal. by apply Hr.
    + by apply ConfigurationFacts.run_getRawSSID_cold.
  - destruct (GOAL_HOURS (cache (mem w))) as [v|] eqn:E.
    + unfold getGoalHours. cbn [run]. rewrite E. cbn. f_equal. by apply Hg.
    + by apply run_getGoalHours_cold.
  - destruct (IS_MANUAL_PAUSED (cache (mem w))) as [v|] eqn:E.
    + unfold getManualPause. cbn [run]. rewrite E. cbn. f_equal. by apply Hp.
    + by apply ConfigurationFacts.run_getManualPause_cold.
  - destruct (CURRENT_SESSION (cache (mem w))) as [v|] eqn:E.
    + unfold getCurrentSession. cbn [run]. rewrite E. cbn. f_equal. by apply Hs.
    + by apply SessionFacts.run_getCurrentSession_cold.
Qed.

End InvariantFacts.

(** ** The evaluator, branch by branch *)

#[global] Instance quiet_preorder : PreOrder quiet.
Proof.
  split.
  - intros w. unfold quiet, warmed. by repeat split; left.
  - intros w1 w2 w3 (Hd & Hs & Hc & Hu & Hg & H1 & H2 & H3 & H4 & H5)
      (Hd' & Hs' & Hc' & Hu' & Hg' & H1' & H2' & H3' & H4' & H5').
    rewrite Hs in *.
    unfold quiet, warmed in *.
    repeat split; try congruence;
      match goal with
      | Ha : ?s2 = ?s1 \/ _, Hb : ?s3 = ?s2 \/ _ |- ?s3 = ?s1 \/ _ =>
          destruct Ha as [Ha | [Ha Ha']], Hb as [Hb | [Hb Hb']];
          first [ left; congruence | right; split; congruence ]
      end.
Qed.

Lemma quiet_seen (w w' : World) :
  quiet w w' ->
  seen_target w' = seen_target w /\ seen_raw w' = seen_raw w /\
  seen_pause w' = seen_pause w /\ seen_session w' = seen_session w /\
  live_session w' = live_session w.
Proof.
  intros (_ & Hs & _ & _ & _ & H1 & H2 & _ & H4 & H5).
  unfold seen_target, seen_raw, seen_pause, seen_session, live_session, stored_session,
    warmed in *.
  rewrite Hs.
  repeat split.
  - destruct H1 as [-> | [-> ->]]; reflexivity.
  - destruct H2 as [-> | [-> ->]]; reflexivity.
  - destruct H4 as [-> | [-> ->]]; reflexivity.
  - destruct H5 as [-> | [-> ->]]; reflexivity.
  - destruct H5 as [-> | [-> ->]]; [reflexivity |].
    destruct (store w !! KEYS.CURRENT_SESSION) as [[|c t]|]; try reflexivity.
    destruct (Json.parse (String c t)) as [j|]; [| reflexivity].
    by destruct (Codec.decode_session j).
Qed.

Ltac quiet_finish :=
  unfold quiet, warmed;
  cbn [mem store device clockReads ui _isEnding cache set_mem set_cache served apply_op
       cache_TARGET_SSID cache_RAW_SSID cache_GOAL_HOURS cache_IS_MANUAL_PAUSED
       cache_CURRENT_SESSION TARGET_SSID RAW_SSID GOAL_HOURS IS_MANUAL_PAUSED
       CURRENT_SESSION];
  repeat split; first [by left | by right | idtac].

Lemma run_getTargetSSID (w : World) :
  reliable (device w) ->
  exists w1, run StorageService.getTargetSSID w = (w1, Returned (seen_target w)) /\
    quiet w w1.
Proof.
  intros Hrel. unfold StorageService.getTargetSSID, seen_target. cbn [run].
  destruct (TARGET_SSID (cache (mem w))) as [v|] eqn:E.
  - exists w. split; [reflexivity | reflexivity].
  - rewrite run_try_catch, run_bind, LedgerFacts.run_getItem by done.
    rewrite run_bind, run_modify. cbn [run]. eexists. split; [reflexivity |].
    quiet_finish.
Qed.

Lemma run_getRawSSID (w : World) :
  reliable (device w) ->
  exists w1, run StorageService.getRawSSID w = (w1, Returned (seen_raw w)) /\
    quiet w w1.
Proof.
  intros Hrel. unfold StorageService.getRawSSID, seen_raw. cbn [run].
  destruct (RAW_SSID (cache (mem w))) as [v|] eqn:E.
  - exists w. split; [reflexivity | reflexivity].
  - rewrite run_try_catch, run_bind, LedgerFacts.run_getItem by done.
    rewrite run_bind, run_modify. cbn [run]. eexists. split; [reflexivity |].
    quiet_finish.
Qed.

Lemma run_getManualPause (w : World) :
  reliable (device w) ->
  exists w1, run StorageService.getManualPause w = (w1, Returned (seen_pause w)) /\
    quiet w w1 /\ IS_MANUAL_PAUSED (cache (mem w1)) = Some (seen_pause w).
Proof.
  intros Hrel. unfold StorageService.getManualPause, seen_pause. cbn [run].
  destruct (IS_MANUAL_PAUSED (cache (mem w))) as [v|] eqn:E.
  - exists w. split; [reflexivity |]. split; [reflexivity | done].
  - rewrite run_try_catch, run_bind, LedgerFacts.run_getItem by done.
    rewrite run_bind, run_modify. cbn [run]. eexists. split; [reflexivity |].
    split; [quiet_finish | reflexivity].
Qed.

Lemma run_getCurrentSession (w : World) :
  reliable (device w) ->
  exists w1, run StorageService.getCurrentSession w = (w1, Returned (seen_session w)) /\
    quiet w w1 /\
    (forall s, seen_session w = Some s -> CURRENT_SESSION (cache (mem w1)) = Some (Some s)).
Proof.
  intros Hrel. unfold StorageService.getCurrentSession, seen_session. cbn [run].
  destruct (CURRENT_SESSION (cache (mem w))) as [v|] eqn:E.
  - exists w. split; [reflexivity |]. split; [reflexivity |]. by intros s ->.
  - rewrite run_try_catch, run_bind, LedgerFacts.run_getItem by done.
    rewrite run_bind. unfold stored_session.
    destruct (store w !! KEYS.CURRENT_SESSION) as [[|c t]|] eqn:Et;
      cbn [Js.truthy from_option id run].
    + rewrite run_bind, run_modify. cbn [run]. eexists. split; [reflexivity |].
      split; [| done]. quiet_finish. right. unfold stored_session. by rewrite Et.
    + rewrite run_bind. unfold Codec.parse_as.
      destruct (Json.parse (String c t)) as [j|] eqn:Ep; cbn [run fst snd].
      * destruct (Codec.decode_session j) as [s|] eqn:Ed; cbn [run fst snd].
        -- rewrite run_bind, run_modify. cbn [run]. eexists. split; [reflexivity |].
           split; [| by intros ? [= <-]]. quiet_finish. right.
           unfold stored_session. by rewrite Et, Ep, Ed.
        -- eexists. split; [reflexivity |]. split; [| done]. quiet_finish.
      * eexists. split; [reflexivity |]. split; [| done]. quiet_finish.
    + rewrite run_bind, run_modify. cbn [run]. eexists. split; [reflexivity |].
      split; [| done]. quiet_finish. right. unfold stored_session. by rewrite Et.
Qed.

#[global] Instance calm_preorder : PreOrder calm.
Proof.
  split.
  - intros w. unfold calm, warmed. by repeat split; left.
  - intros w1 w2 w3 (Hd & Hc & Hg & Hs & U1 & U2 & U3 & U4 & U5 & U6 & H1 & H2 & H3)
      (Hd' & Hc' & Hg' & Hs' & U1' & U2' & U3' & U4' & U5' & U6' & H1' & H2' & H3').
    unfold stored_session in *.
    rewrite !Hs in H1', H2', H3' by done.
    unfold calm, warmed, stored_session in *.
    repeat split; try congruence.
    + intros k Hk. rewrite Hs', Hs; done.
    + destruct H1 as [H1 | [H1 H1a]], H1' as [H1' | [H1' H1a']];
        first [ left; congruence | right; split; congruence ].
    + destruct H2 as [H2 | [H2 H2a]], H2' as [H2' | [H2' H2a']];
        first [ left; congruence | right; split; congruence ].
    + destruct H3 as [H3 | [H3 H3a]], H3' as [H3' | [H3' H3a']];
        first [ left; congruence | right; split; congruence ].
Qed.

Lemma quiet_calm (w w' : World) : quiet w w' -> calm w w'.
Proof.
  intros (Hd & Hs & Hc & Hu & Hg & H1 & H2 & _ & _ & H5).
  unfold calm. rewrite Hu, Hs. by repeat split.
Qed.

Lemma calm_seen (w w' : World) :
  calm w w' ->
  seen_target w' = seen_target w /\ seen_raw w' = seen_raw w /\
  seen_session w' = seen_session w /\ live_session w' = live_session w.
Proof.
  intros (_ & _ & _ & Hs & _ & _ & _ & _ & _ & _ & H1 & H2 & H5).
  unfold seen_target, seen_raw, seen_session, live_session, stored_session, warmed in *.
  rewrite !Hs by done.
  repeat split.
  - destruct H1 as [-> | [-> ->]]; reflexivity.
  - destruct H2 as [-> | [-> ->]]; reflexivity.
  - destruct H5 as [-> | [-> ->]]; reflexivity.
  - destruct H5 as [-> | [-> ->]]; [reflexivity |].
    destruct (store w !! KEYS.CURRENT_SESSION) as [[|c t]|]; try reflexivity.
    destruct (Json.parse (String c t)) as [j|]; [| reflexivity].
    by destruct (Codec.decode_session j).
Qed.

Lemma run_readConfiguration (w : World) :
  reliable (device w) ->
  exists w1,
    run App.readConfiguration w
    = (w1, Returned (on_wifi (device w), seen_target w, seen_raw w, seen_pause w)) /\
    quiet w w1 /\ IS_MANUAL_PAUSED (cache (mem w1)) = Some (seen_pause w).
Proof.
  intros Hrel. unfold App.readConfiguration.
  rewrite run_bind, EvaluatorFacts.run_isConnectedToWifi. rewrite run_bind.
  destruct (run_getTargetSSID w Hrel) as (w1 & -> & Hq1).
  assert (Hrel1 : reliable (device w1)) by (destruct Hq1 as (-> & _); done).
  rewrite run_bind.
  destruct (run_getRawSSID w1 Hrel1) as (w2 & -> & Hq2).
  assert (Hrel2 : reliable (device w2)) by (destruct Hq2 as (-> & _); done).
  rewrite run_bind.
  destruct (run_getManualPause w2 Hrel2) as (w3 & -> & Hq3 & Hp3).
  cbn [run]. exists w3.
  destruct (quiet_seen _ _ Hq1) as (_ & Hr1 & Hp1 & _).
  pose proof (transitivity Hq1 Hq2) as Hq12.
  destruct (quiet_seen _ _ Hq12) as (_ & _ & Hp12 & _).
  rewrite Hr1, Hp12 in *.
  split; [reflexivity |]. split; [| done].
  by etrans.
Qed.

Ltac calm_finish :=
  unfold calm, warmed;
  cbn [mem store device clockReads ui _isEnding cache set_mem set_cache set_ui served
       apply_op cache_TARGET_SSID cache_RAW_SSID cache_GOAL_HOURS cache_IS_MANUAL_PAUSED
       cache_CURRENT_SESSION TARGET_SSID RAW_SSID GOAL_HOURS IS_MANUAL_PAUSED
       CURRENT_SESSION isManualStop sessionDuration isConnectedToOffice currentSSIDName
       currentSessionStart targetSSID isOnTargetNetwork];
  repeat split; first [by left | (intros ? ?; by rewrite lookup_insert_ne) | idtac].

Lemma run_tick_prefix (w : World) :
  reliable (device w) ->
  exists w3,
    fst (run App.checkNetworkAndSession w)
    = fst (run (App.evaluate (on_wifi (device w)) (effective_pause w)
                  (seen_target w) (seen_raw w)) w3) /\
    calm w w3 /\
    isManualStop (ui (mem w3)) = effective_pause w /\
    IS_MANUAL_PAUSED (cache (mem w3)) = Some (effective_pause w) /\
    (on_wifi (device w) = false -> seen_pause w = true ->
     store w3 !! KEYS.IS_MANUAL_PAUSED = Some "false"%string) /\
    (on_wifi (device w) = true \/ seen_pause w = false -> store w3 = store w).
Proof.
  intros Hrel. unfold App.checkNetworkAndSession. rewrite run_logged, run_bind.
  destruct (run_readConfiguration w Hrel) as (w1 & -> & Hq1 & Hp1).
  pose proof (quiet_calm _ _ Hq1) as Hc1.
  pose proof Hq1 as (_ & Hst1 & _).
  assert (Hrel1 : reliable (device w1)) by (destruct Hq1 as (-> & _); done).
  cbn iota. rewrite run_bind. unfold App.autoResetManualStop, effective_pause.
  destruct (on_wifi (device w)) eqn:Ewifi; cbn [negb andb].
  - cbn [run]. rewrite run_bind. unfold App.setIsManualStop. rewrite run_modify.
    eexists. split; [reflexivity |].
    split; [| split; [reflexivity | split; [exact Hp1 | split; [done | by intros _]]]].
    etrans; [exact Hc1 |]. calm_finish.
  - destruct (seen_pause w) eqn:Epause.
    + rewrite run_bind. unfold StorageService.setManualPause.
      rewrite run_try_catch, run_bind, run_modify, LedgerFacts.run_setItem by done.
      cbn [run]. rewrite run_bind. unfold App.setIsManualStop. rewrite run_modify.
      eexists. split; [reflexivity |].
      split; [| split; [reflexivity | split; [reflexivity | split]]].
      * etrans; [exact Hc1 |]. calm_finish.
      * intros _ _. cbn. apply lookup_insert_eq.
      * by intros [H | H].
    + cbn [run]. rewrite run_bind. unfold App.setIsManualStop. rewrite run_modify.
      eexists. split; [reflexivity |].
      split; [| split; [reflexivity | split; [exact Hp1 | split; [done | by intros _]]]].
      etrans; [exact Hc1 |]. calm_finish.
Qed.

Lemma run_matchNetwork (w : World) (raw : option string) (label : string) :
  run (App.matchNetwork (on_wifi (device w)) raw label) w
  = (w, Returned (network_match (device w) raw, network_label (device w) raw label)).
Proof.
  unfold App.matchNetwork, network_label. unfold network_match.
  destruct (on_wifi (device w)) eqn:Ewifi; cbn [negb andb]; [| reflexivity].
  destruct (Js.truthy raw) eqn:Et; cbn [negb andb]; [| reflexivity].
  rewrite run_bind, EvaluatorFacts.run_isConnectedToTargetNetwork, Ewifi, Et. cbn [andb].
  destruct (match resolvedIdentifier (device w) with
            | Some id => bool_decide (Some id = raw)
            | None => NetworkService.is_ios (OS (device w))
            end); cbn [negb run]; [reflexivity |].
  rewrite run_bind, EvaluatorFacts.run_getCurrentSSID.
  destruct (currentSSID (device w)) as [[|c t]|]; reflexivity.
Qed.

Lemma run_matchNetwork_at (w : World) (isWifi : bool) (raw : option string) (label : string) :
  isWifi = on_wifi (device w) ->
  run (App.matchNetwork isWifi raw label) w
  = (w, Returned (network_match (device w) raw, network_label (device w) raw label)).
Proof. intros ->. apply run_matchNetwork. Qed.

Lemma run_evaluate (w : World) (isWifi isPaused : bool) (target raw : option string) :
  reliable (device w) ->
  let label := if isWifi then "Wi-Fi Connected"%string else "Not Connected"%string in
  exists w1,
    quiet w w1 /\
    (forall s, seen_session w = Some s -> CURRENT_SESSION (cache (mem w1)) = Some (Some s)) /\
    run (App.evaluate isWifi isPaused target raw) w
    = match seen_session w with
      | Some s =>
          if bool_decide (clock (device w) (clockReads w) - lastActive s > App.zombie_limit)
          then run App.cleanUpStaleSession (snd (read_clock w1))
          else run (App.decide_tracking isWifi isPaused target raw (Some s) label)
                 (snd (read_clock w1))
      | None => run (App.decide_tracking isWifi isPaused target raw None label) w1
      end.
Proof.
  intros Hrel label. unfold App.evaluate. rewrite run_bind.
  destruct (run_getCurrentSession w Hrel) as (w1 & -> & Hq & Hs).
  exists w1. split; [done |]. split; [done |].
  destruct Hq as (Hd & _ & Hc & _).
  destruct (seen_session w) as [s|].
  - rewrite run_bind. unfold mbind at 1, Async_bind. cbn [bind run read_clock].
    unfold read_clock. cbn [snd]. rewrite Hd, Hc. by destruct (bool_decide _).
  - rewrite run_bind. reflexivity.
Qed.

Lemma run_startSession (w : World) :
  reliable (device w) ->
  let now := clock (device w) (clockReads w) in
  let session := {| start := now; lastActive := now |} in
  run StorageService.startSession w
  = (served (SetItem KEYS.CURRENT_SESSION (Codec.stringify Codec.encode_session session))
       (set_mem (set_cache (cache_CURRENT_SESSION (Some (Some session))))
          (snd (read_clock w))),
     Returned (Some session)).
Proof.
  intros Hrel now session. unfold StorageService.startSession.
  rewrite run_try_catch, run_bind. cbn [run read_clock].
  rewrite run_bind, run_modify, run_bind, LedgerFacts.run_setItem by done.
  reflexivity.
Qed.

Ltac run_ui :=
  unfold App.commit, App.setIsManualStop, App.setSessionDuration,
    App.setIsConnectedToOffice, App.setCurrentSSIDName, App.setCurrentSessionStart,
    App.setTargetSSID, App.setIsOnTargetNetwork;
  repeat first [rewrite run_bind | rewrite run_modify | progress cbn [run fst snd]].

Lemma run_tick_start (w : World) :
  reliable (device w) -> seen_session w = None -> should_track w = true ->
  let now := clock (device w) (clockReads w) in
  let session := {| start := now; lastActive := now |} in
  exists w4,
    calm w w4 /\
    fst (run App.checkNetworkAndSession w)
    = fst (run (App.setCurrentSessionStart (Some now) ;;
                App.commit (on_wifi (device w)) (effective_pause w) (seen_target w)
                  (network_match (device w) (seen_raw w)) true
                  (default EmptyString (seen_target w)))
             (served (SetItem KEYS.CURRENT_SESSION
                        (Codec.stringify Codec.encode_session session))
                (set_mem (set_cache (cache_CURRENT_SESSION (Some (Some session))))
                   (snd (read_clock w4))))).
Proof.
  intros Hrel Hnone Htrack now session.
  destruct (run_tick_prefix w Hrel) as (w3 & -> & Hcalm & _).
  pose proof Hcalm as (Hd3 & Hc3 & _).
  destruct (calm_seen _ _ Hcalm) as (_ & _ & Hs3 & _).
  assert (Hrel3 : reliable (device w3)) by (by rewrite Hd3).
  destruct (run_evaluate w3 (on_wifi (device w)) (effective_pause w) (seen_target w)
              (seen_raw w) Hrel3) as (w4 & Hq4 & _ & ->).
  rewrite Hs3, Hnone.
  pose proof Hq4 as (Hd4 & _ & Hc4 & _).
  assert (Hrel4 : reliable (device w4)) by (by rewrite Hd4).
  exists w4. split; [etrans; [exact Hcalm | by apply quiet_calm] |].
  unfold App.decide_tracking. rewrite run_bind.
  rewrite run_matchNetwork_at by (by rewrite Hd4, Hd3). cbn iota.
  unfold should_track in Htrack. rewrite Hd4, Hd3, Htrack.
  rewrite run_bind, run_startSession by done. cbn iota.
  cbn [start]. by rewrite Hd4, Hd3, Hc4, Hc3.
Qed.

Lemma run_tick_stop (w : World) (s : Session) :
  reliable (device w) -> seen_session w = Some s -> should_track w = false ->
  exists w4 label,
    calm w w4 /\ CURRENT_SESSION (cache (mem w4)) = Some (Some s) /\
    (on_wifi (device w) = false -> label = "Not Connected"%string) /\
    fst (run App.checkNetworkAndSession w)
    = fst (run (StorageService.endSession ;; App.setSessionDuration 0 ;;
                App.setIsConnectedToOffice false ;;
                App.setCurrentSSIDName (Some label))
             (snd (read_clock w4))).
Proof.
  intros Hrel Hsome Htrack.
  destruct (run_tick_prefix w Hrel) as (w3 & -> & Hcalm & _).
  pose proof Hcalm as (Hd3 & Hc3 & _).
  destruct (calm_seen _ _ Hcalm) as (_ & _ & Hs3 & _).
  assert (Hrel3 : reliable (device w3)) by (by rewrite Hd3).
  destruct (run_evaluate w3 (on_wifi (device w)) (effective_pause w) (seen_target w)
              (seen_raw w) Hrel3) as (w4 & Hq4 & Hslot & ->).
  rewrite Hs3, Hsome in *. specialize (Hslot s eq_refl).
  pose proof Hq4 as (Hd4 & _ & Hc4 & _).
  exists w4.
  destruct (bool_decide (clock (device w3) (clockReads w3) - lastActive s > App.zombie_limit)).
  - exists "Not Connected"%string.
    split; [etrans; [exact Hcalm | by apply quiet_calm] |]. by repeat split.
  - exists (if on_wifi (device w)
            then if network_match (device w) (seen_raw w)
                 then "Wi-Fi Connected (Idle)"%string
                 else network_label (device w) (seen_raw w)
                        (if on_wifi (device w) then "Wi-Fi Connected" else "Not Connected")
            else "Not Connected"%string).
    split; [etrans; [exact Hcalm | by apply quiet_calm] |].
    split; [done |]. split; [by intros -> |].
    unfold App.decide_tracking. rewrite run_bind.
    rewrite run_matchNetwork_at by (cbn; by rewrite Hd4, Hd3).
    cbn iota. cbn [read_clock snd device]. unfold should_track in Htrack.
    rewrite Hd4, Hd3, Htrack. reflexivity.
Qed.

Lemma run_date_now {A} (f : Z -> Async A) (w : World) :
  run (DateNow Ret ≫= f) w = run (f (clock (device w) (clockReads w))) (snd (read_clock w)).
Proof. rewrite run_bind. reflexivity. Qed.

(** The stage of a tick that follows the zombie check, for a session that
    is live and not stale. *)
Lemma run_tick_live (w : World) (s : Session) :
  reliable (device w) -> seen_session w = Some s ->
  clock (device w) (clockReads w) - lastActive s <= App.zombie_limit ->
  exists w4,
    calm w w4 /\ CURRENT_SESSION (cache (mem w4)) = Some (Some s) /\
    fst (run App.checkNetworkAndSession w)
    = fst (run (App.decide_tracking (on_wifi (device w)) (effective_pause w)
                  (seen_target w) (seen_raw w) (Some s)
                  (if on_wifi (device w) then "Wi-Fi Connected" else "Not Connected"))
             (snd (read_clock w4))).
Proof.
  intros Hrel Hsome Hfresh.
  destruct (run_tick_prefix w Hrel) as (w3 & -> & Hcalm & _).
  pose proof Hcalm as (Hd3 & Hc3 & _).
  destruct (calm_seen _ _ Hcalm) as (_ & _ & Hs3 & _).
  assert (Hrel3 : reliable (device w3)) by (by rewrite Hd3).
  destruct (run_evaluate w3 (on_wifi (device w)) (effective_pause w) (seen_target w)
              (seen_raw w) Hrel3) as (w4 & Hq4 & Hslot & ->).
  rewrite Hs3, Hsome in *. specialize (Hslot s eq_refl).
  rewrite Hd3, Hc3. rewrite bool_decide_eq_false_2 by lia.
  exists w4. split; [etrans; [exact Hcalm | by apply quiet_calm] |]. by split.
Qed.

Lemma tick_stop_outcome (w : World) (s : Session)
    (h : gmap string Z) (m : gmap string (list Detail)) :
  reliable (device w) -> _isEnding (mem w) = false ->
  seen_session w = Some s -> should_track w = false ->
  history_doc (store w) = Some h -> sessions_doc (store w) = Some m ->
  let now := clock (device w) (S (clockReads w)) in
  let day := dayKey (device w) (start s) in
  let w' := fst (run App.checkNetworkAndSession w) in
  run StorageService.getCurrentSession w' = (w', Returned None) /\
  store w' !! KEYS.CURRENT_SESSION = None /\
  _isEnding (mem w') = false /\
  sessionDuration (ui (mem w')) = 0 /\
  isConnectedToOffice (ui (mem w')) = false /\
  (on_wifi (device w) = false ->
   currentSSIDName (ui (mem w')) = Some "Not Connected"%string) /\
  (dayKey (device w) now = day ->
   history_doc (store w')
   = Some (if bool_decide (now - start s >= 1000)
           then add_duration day (now - start s) h else h) /\
   sessions_doc (store w')
   = Some (if bool_decide (now - start s >= 1000)
           then push_detail day (start s) now m else m)).
Proof.
  intros Hrel Hfree Hsome Htrack Hh Hm now day w'. subst w'.
  destruct (run_tick_stop w s Hrel Hsome Htrack) as (w4 & label & Hcalm & Hslot & Hlabel & ->).
  destruct Hcalm as (Hd4 & Hc4 & Hg4 & Hst4 & _).
  set (w5 := snd (read_clock w4)).
  assert (Hfree5 : _isEnding (mem w5) = false) by (cbn; congruence).
  assert (Hrel5 : reliable (device w5)) by (cbn; by rewrite Hd4).
  assert (Hlive5 : live_session w5 = Some s) by (unfold live_session; cbn; by rewrite Hslot).
  destruct (endSession_ends w5 s Hfree5 Hrel5 Hlive5)
    as (w2 & w3 & Hrec & Hend & Hst2 & Hd2 & _ & _ & _ & Hmem3 & Hd3 & _ & _).
  assert (Hnow : clock (device w5) (clockReads w5) = now)
    by (cbn; by rewrite Hd4, Hc4).
  rewrite Hnow in Hrec. cbn [device w5 read_clock snd] in Hrec, Hd2. rewrite Hd4 in Hrec, Hd2.
  rewrite run_bind, Hend. run_ui.
  cbn [mem store ui set_mem set_ui _isEnding sessionDuration isConnectedToOffice
       currentSSIDName].
  split; [| split; [| split; [| split; [| split; [| split]]]]]; try reflexivity.
  - unfold finalize. cbn. apply lookup_delete_eq.
  - intros Hoff. by rewrite (Hlabel Hoff).
  - intros Hday.
    rewrite LedgerFacts.history_doc_finalize, LedgerFacts.sessions_doc_finalize.
    assert (Hh2 : history_doc (store w2) = Some h).
    { unfold history_doc in *. rewrite Hst2. cbn. by rewrite Hst4. }
    assert (Hm2 : sessions_doc (store w2) = Some m).
    { unfold sessions_doc in *. rewrite Hst2. cbn. by rewrite Hst4. }
    assert (Hrel2 : reliable (device w2)) by (by rewrite Hd2).
    pose proof (LedgerFacts.run_recordSession_same_day w2
                  {| start := start s; lastActive := now |} now h m Hrel2 Hh2 Hm2) as Hl.
    rewrite Hd2 in Hl. cbn [start lastActive] in Hl.
    specialize (Hl (eq_sym Hday)). cbn zeta in Hl.
    rewrite Hrec in Hl. cbn [fst snd] in Hl. fold day in Hl.
    by destruct Hl as (_ & ? & ? & _).
Qed.

Lemma tick_idle_outcome (w : World) :
  let w' := fst (run App.checkNetworkAndSession w) in
  let wifi := on_wifi (device w) in
  reliable (device w) -> seen_session w = None -> should_track w = false ->
  seen_session w' = None /\
  store w' !! KEYS.CURRENT_SESSION = store w !! KEYS.CURRENT_SESSION /\
  store w' !! KEYS.HISTORY = store w !! KEYS.HISTORY /\
  store w' !! KEYS.SESSIONS = store w !! KEYS.SESSIONS /\
  sessionDuration (ui (mem w')) = 0 /\
  currentSessionStart (ui (mem w')) = None /\
  isConnectedToOffice (ui (mem w')) = false /\
  targetSSID (ui (mem w')) = seen_target w /\
  isOnTargetNetwork (ui (mem w')) = network_match (device w) (seen_raw w) /\
  currentSSIDName (ui (mem w'))
  = Some (if negb (Js.truthy (seen_target w))
          then if wifi then "Wi-Fi Connected (Not Configured)" else "Not Connected"
          else if wifi && seen_pause w then "Paused (Manual)"
          else network_label (device w) (seen_raw w)
                 (if wifi then "Wi-Fi Connected" else "Not Connected"))%string.
Proof.
  intros w' wifi Hrel Hnone Htrack.
  destruct (run_tick_prefix w Hrel) as (w3 & Hrun & Hcalm & _).
  pose proof Hcalm as (Hd3 & Hc3 & _).
  destruct (calm_seen _ _ Hcalm) as (_ & _ & Hs3 & _).
  assert (Hrel3 : reliable (device w3)) by (by rewrite Hd3).
  destruct (run_evaluate w3 (on_wifi (device w)) (effective_pause w) (seen_target w)
              (seen_raw w) Hrel3) as (w4 & Hq4 & _ & Hev).
  rewrite Hs3, Hnone in Hev.
  assert (Hcalm4 : calm w w4) by (etrans; [exact Hcalm | by apply quiet_calm]).
  destruct (calm_seen _ _ Hcalm4) as (_ & _ & Hs4 & _).
  destruct Hcalm4 as (Hd4 & Hc4 & _ & Hst4 & _).
  eassert (Hw' : w' = _).
  { subst w'. rewrite Hrun, Hev.
    unfold App.decide_tracking. rewrite run_bind.
    rewrite run_matchNetwork_at by (by rewrite Hd4).
    cbn iota. rewrite Hd4. unfold should_track in Htrack. rewrite Htrack.
    run_ui. reflexivity. }
  clearbody w'. subst w'.
  cbn [mem store ui cache set_mem set_ui sessionDuration currentSessionStart
       isConnectedToOffice currentSSIDName targetSSID isOnTargetNetwork].
  split; [by rewrite <- Hnone, <- Hs4 |].
  rewrite !Hst4 by done. repeat split.
  unfold effective_pause. fold wifi.
  destruct (Js.truthy (seen_target w)), wifi, (seen_pause w); reflexivity.
Qed.

Lemma run_tick_stale (w : World) (s : Session) :
  reliable (device w) -> seen_session w = Some s ->
  clock (device w) (clockReads w) - lastActive s > App.zombie_limit ->
  exists w4,
    calm w w4 /\ CURRENT_SESSION (cache (mem w4)) = Some (Some s) /\
    fst (run App.checkNetworkAndSession w)
    = fst (run (StorageService.endSession ;; App.setSessionDuration 0 ;;
                App.setIsConnectedToOffice false ;;
                App.setCurrentSSIDName (Some "Not Connected"%string))
             (snd (read_clock w4))).
Proof.
  intros Hrel Hsome Hstale.
  destruct (run_tick_prefix w Hrel) as (w3 & -> & Hcalm & _).
  pose proof Hcalm as (Hd3 & Hc3 & _).
  destruct (calm_seen _ _ Hcalm) as (_ & _ & Hs3 & _).
  assert (Hrel3 : reliable (device w3)) by (by rewrite Hd3).
  destruct (run_evaluate w3 (on_wifi (device w)) (effective_pause w) (seen_target w)
              (seen_raw w) Hrel3) as (w4 & Hq4 & Hslot & ->).
  rewrite Hs3, Hsome in *. specialize (Hslot s eq_refl).
  rewrite Hd3, Hc3. rewrite bool_decide_eq_true_2 by done.
  exists w4. split; [etrans; [exact Hcalm | by apply quiet_calm] |]. by split.
Qed.

Lemma session_is_live_seen (w : World) (s : Session) :
  session_is_live w s -> seen_session w = Some s.
Proof.
  unfold session_is_live, live_session, seen_session, stored_session.
  intros [-> | (-> & H & _)]; [reflexivity | exact H].
Qed.

(** What a tick that finds a stale session leaves in the ledger: what
    endSession records for the session closed at the second reading of the
    clock. *)
Lemma tick_stale_ledger (w : World) (s : Session)
    (h : gmap string Z) (m : gmap string (list Detail)) :
  reliable (device w) -> _isEnding (mem w) = false ->
  seen_session w = Some s ->
  clock (device w) (clockReads w) - lastActive s > App.zombie_limit ->
  history_doc (store w) = Some h -> sessions_doc (store w) = Some m ->
  let now := clock (device w) (S (clockReads w)) in
  let startDay := dayKey (device w) (start s) in
  let midnight := endOfDay (device w) (start s) in
  let hA := if bool_decide (midnight - start s >= 1000)
            then add_duration startDay (midnight - start s) h else h in
  let mA := if bool_decide (midnight - start s >= 1000)
            then push_detail startDay (start s) midnight m else m in
  let w' := fst (run App.checkNetworkAndSession w) in
  (startDay = dayKey (device w) now ->
   history_doc (store w')
   = Some (if bool_decide (now - start s >= 1000)
           then add_duration startDay (now - start s) h else h) /\
   sessions_doc (store w')
   = Some (if bool_decide (now - start s >= 1000)
           then push_detail startDay (start s) now m else m)) /\
  (startDay <> dayKey (device w) now ->
   history_doc (store w')
   = Some (if bool_decide (now - (midnight + 1) >= 1000)
           then add_duration (dayKey (device w) now) (now - (midnight + 1)) hA else hA) /\
   sessions_doc (store w')
   = Some (if bool_decide (now - (midnight + 1) >= 1000)
           then push_detail (dayKey (device w) (midnight + 1)) (midnight + 1) now mA
           else mA)).
Proof.
  intros Hrel Hfree Hsome Hstale Hh Hm now startDay midnight hA mA w'. subst w'.
  destruct (run_tick_stale w s Hrel Hsome Hstale) as (w4 & Hcalm & Hslot & ->).
  destruct Hcalm as (Hd4 & Hc4 & Hg4 & Hst4 & _).
  set (w5 := snd (read_clock w4)).
  assert (Hfree5 : _isEnding (mem w5) = false) by (cbn; congruence).
  assert (Hrel5 : reliable (device w5)) by (cbn; by rewrite Hd4).
  assert (Hlive5 : live_session w5 = Some s) by (unfold live_session; cbn; by rewrite Hslot).
  destruct (endSession_ends w5 s Hfree5 Hrel5 Hlive5)
    as (w2 & w3 & Hrec & Hend & Hst2 & Hd2 & _ & _ & _ & Hmem3 & Hd3 & _ & _).
  assert (Hnow : clock (device w5) (clockReads w5) = now)
    by (cbn; by rewrite Hd4, Hc4).
  rewrite Hnow in Hrec. cbn [device w5 read_clock snd] in Hrec, Hd2. rewrite Hd4 in Hrec, Hd2.
  rewrite run_bind, Hend. run_ui.
  cbn [mem store ui set_mem set_ui].
  rewrite LedgerFacts.history_doc_finalize, LedgerFacts.sessions_doc_finalize.
  assert (Hh2 : history_doc (store w2) = Some h).
  { unfold history_doc in *. rewrite Hst2. cbn. by rewrite Hst4. }
  assert (Hm2 : sessions_doc (store w2) = Some m).
  { unfold sessions_doc in *. rewrite Hst2. cbn. by rewrite Hst4. }
  assert (Hrel2 : reliable (device w2)) by (by rewrite Hd2).
  split; intros Hday.
  - pose proof (LedgerFacts.run_recordSession_same_day w2
                  {| start := start s; lastActive := now |} now h m Hrel2 Hh2 Hm2) as Hl.
    rewrite Hd2 in Hl. cbn [start lastActive] in Hl.
    specialize (Hl Hday). cbn zeta in Hl.
    rewrite Hrec in Hl. cbn [fst snd] in Hl. fold startDay in Hl.
    by destruct Hl as (_ & ? & ? & _).
  - pose proof (LedgerFacts.run_recordSession_split w2
                  {| start := start s; lastActive := now |} now h m Hrel2 Hh2 Hm2) as Hl.
    rewrite Hd2 in Hl. cbn [start lastActive] in Hl.
    specialize (Hl Hday). cbn zeta in Hl.
    rewrite Hrec in Hl. cbn [fst snd] in Hl.
    fold startDay midnight in Hl. fold hA mA in Hl.
    by destruct Hl as (_ & ? & ? & _).
Qed.

Module TickFacts.

(** C4. A tick that finds a live session whose heartbeat is more than 20
    minutes old force-ends it through endSession, whatever the network and
    the configuration are and whatever AsyncStorage rejects: when the tick
    is over no session is live ([getCurrentSession] answers null from the
    cache), the guard is free, the screen shows the idle state, and the
    stored session is removed provided the store accepts the removal.
    The session's time is not discarded: with AsyncStorage working and
    the two ledger documents well-formed, the session is recorded up to
    the instant of its end (the tick's second reading of the clock) as
    endSession records it -- under the start day when the end is on that
    day, and split at the end of the start day otherwise, each part
    provided it lasts 1000 ms or more. *)
Theorem tick_ends_stale_session (w : World) (s : Session) :
  _isEnding (mem w) = false -> session_is_live w s ->
  clock (device w) (clockReads w) - lastActive s > App.zombie_limit ->
  let now := clock (device w) (S (clockReads w)) in
  let startDay := dayKey (device w) (start s) in
  let midnight := endOfDay (device w) (start s) in
  let w' := fst (run App.checkNetworkAndSession w) in
  run StorageService.getCurrentSession w' = (w', Returned None) /\
  _isEnding (mem w') = false /\
  sessionDuration (ui (mem w')) = 0 /\
  isConnectedToOffice (ui (mem w')) = false /\
  currentSSIDName (ui (mem w')) = Some "Not Connected"%string /\
  (reliable (device w) -> store w' !! KEYS.CURRENT_SESSION = None) /\
  (reliable (device w) ->
   forall (h : gmap string Z) (m : gmap string (list Detail)),
     history_doc (store w) = Some h -> sessions_doc (store w) = Some m ->
     let hA := if bool_decide (midnight - start s >= 1000)
               then add_duration startDay (midnight - start s) h else h in
     let mA := if bool_decide (midnight - start s >= 1000)
               then push_detail startDay (start s) midnight m else m in
     (startDay = dayKey (device w) now ->
      history_doc (store w')
      = Some (if bool_decide (now - start s >= 1000)
              then add_duration startDay (now - start s) h else h) /\
      sessions_doc (store w')
      = Some (if bool_decide (now - start s >= 1000)
              then push_detail startDay (start s) now m else m)) /\
     (startDay <> dayKey (device w) now ->
      history_doc (store w')
      = Some (if bool_decide (now - (midnight + 1) >= 1000)
              then add_duration (dayKey (device w) now) (now - (midnight + 1)) hA
              else hA) /\
      sessions_doc (store w')
      = Some (if bool_decide (now - (midnight + 1) >= 1000)
              then push_detail (dayKey (device w) (midnight + 1)) (midnight + 1) now mA
              else mA))).
Proof.
  intros Hfree Hlive Hstale now startDay midnight w'.
  destruct (EvaluatorFacts.tick_on_stale_session w s Hfree Hlive Hstale)
    as (w6 & Hrun & Hslot & Hguard & Hstore).
  split; [| split; [| split; [| split; [| split; [| split]]]]];
    [| | | | | | intros Hrel h m Hh Hm;
                 exact (tick_stale_ledger w s h m Hrel Hfree
                          (session_is_live_seen w s Hlive) Hstale Hh Hm)];
    subst w'; rewrite Hrun; clear Hrun;
    unfold App.setSessionDuration, App.setIsConnectedToOffice, App.setCurrentSSIDName,
      modify, mbind, Async_bind;
    cbn [run bind set_mem mem store fst set_ui ui cache _isEnding sessionDuration
         isConnectedToOffice currentSSIDName]; try done.
  unfold StorageService.getCurrentSession. cbn [run mem set_mem set_ui cache].
  by rewrite Hslot.
Qed.


(** X12. A tick that finds no live session (none cached and none stored,
    the stored session text being absent, empty or that of a session)
    while tracking is due (on the target network, a target configured,
    not paused), AsyncStorage working: a session starting at the clock reading is created, cached
    and stored; the screen shows tracking under the target's name with
    that start time; the History and the SessionDetails are not touched. *)
Theorem tick_starts_tracking (w : World) :
  reliable (device w) -> seen_session w = None -> session_shaped (store w) = true ->
  should_track w = true ->
  let now := clock (device w) (clockReads w) in
  let session := {| start := now; lastActive := now |} in
  let w' := fst (run App.checkNetworkAndSession w) in
  run StorageService.getCurrentSession w' = (w', Returned (Some session)) /\
  stored_session (store w') = Some session /\
  isConnectedToOffice (ui (mem w')) = true /\
  currentSSIDName (ui (mem w')) = seen_target w /\
  currentSessionStart (ui (mem w')) = Some now /\
  isOnTargetNetwork (ui (mem w')) = true /\
  store w' !! KEYS.HISTORY = store w !! KEYS.HISTORY /\
  store w' !! KEYS.SESSIONS = store w !! KEYS.SESSIONS.
Proof.
  intros Hrel Hnone _ Htrack now session w'. subst w'.
  destruct (run_tick_start w Hrel Hnone Htrack) as (w4 & Hcalm & ->).
  destruct Hcalm as (_ & _ & _ & Hst & _).
  unfold should_track in Htrack.
  apply andb_prop in Htrack as [Htrack Hpause].
  apply andb_prop in Htrack as [Hmatch Htarget].
  apply negb_true_iff in Hpause.
  run_ui. rewrite Hmatch, Htarget, Hpause.
  cbn [negb andb mem store set_mem set_ui set_cache served apply_op ui cache fst snd
       read_clock cache_CURRENT_SESSION CURRENT_SESSION isConnectedToOffice currentSSIDName
       currentSessionStart isOnTargetNetwork].
  rewrite andb_false_r.
  repeat split.
  - apply SessionFacts.stored_session_stringify. apply lookup_insert_eq.
  - destruct (seen_target w) as [[|c t]|]; try discriminate Htarget. reflexivity.
  - rewrite lookup_insert_ne by done. by apply Hst.
  - rewrite lookup_insert_ne by done. by apply Hst.
Qed.

(** X13. A tick that finds a live session while tracking is not due (off the
    target network, no target configured, or paused), the guard free and
    AsyncStorage working: the session is ended, whether it was stale or
    not -- afterwards none is live (getCurrentSession answers null from
    the cache), the stored session is removed, the guard is free and the
    screen shows idle with a duration of 0, under "Not Connected" when off
    Wi-Fi.  The session is closed at the tick's second reading of the
    clock: when that instant is on the session's start day, the day's
    total grows by the time since the start and one interval is pushed,
    provided this is 1000 ms or more, and the ledger is unchanged
    otherwise. *)
Theorem tick_stops_tracking (w : World) (s : Session)
    (h : gmap string Z) (m : gmap string (list Detail)) :
  reliable (device w) -> _isEnding (mem w) = false ->
  seen_session w = Some s -> should_track w = false ->
  history_doc (store w) = Some h -> sessions_doc (store w) = Some m ->
  let now := clock (device w) (S (clockReads w)) in
  let day := dayKey (device w) (start s) in
  let w' := fst (run App.checkNetworkAndSession w) in
  run StorageService.getCurrentSession w' = (w', Returned None) /\
  store w' !! KEYS.CURRENT_SESSION = None /\
  _isEnding (mem w') = false /\
  sessionDuration (ui (mem w')) = 0 /\
  isConnectedToOffice (ui (mem w')) = false /\
  (on_wifi (device w) = false ->
   currentSSIDName (ui (mem w')) = Some "Not Connected"%string) /\
  (dayKey (device w) now = day ->
   history_doc (store w')
   = Some (if bool_decide (now - start s >= 1000)
           then add_duration day (now - start s) h else h) /\
   sessions_doc (store w')
   = Some (if bool_decide (now - start s >= 1000)
           then push_detail day (start s) now m else m)).
Proof. exact (tick_stop_outcome w s h m). Qed.

(** X14. A tick that finds a live session, not stale, on the day it started,
    while tracking is due (AsyncStorage working): the session goes on with
    the same start; the screen shows tracking under the target's name, the
    session's start and the time since then; the heartbeat is written --
    lastActive set to the clock reading, in the cache and in the store --
    exactly when the last one is more than 5000 ms old, and otherwise the
    stored session is not touched; the History and the SessionDetails are
    not touched either. *)
Theorem tick_keeps_tracking (w : World) (s : Session) :
  let t0 := clock (device w) (clockReads w) in
  let t1 := clock (device w) (1 + clockReads w) in
  let t2 := clock (device w) (2 + clockReads w) in
  let t3 := clock (device w) (3 + clockReads w) in
  let t4 := clock (device w) (4 + clockReads w) in
  let beat := bool_decide (t3 - lastActive s > 5000) in
  let s' := if beat then {| start := start s; lastActive := t4 |} else s in
  let w' := fst (run App.checkNetworkAndSession w) in
  reliable (device w) -> seen_session w = Some s -> should_track w = true ->
  t0 - lastActive s <= App.zombie_limit ->
  dayKey (device w) (start s) = dayKey (device w) t1 ->
  run StorageService.getCurrentSession w' = (w', Returned (Some s')) /\
  (if beat then stored_session (store w') = Some s'
   else store w' !! KEYS.CURRENT_SESSION = store w !! KEYS.CURRENT_SESSION) /\
  sessionDuration (ui (mem w')) = t2 - start s /\
  currentSessionStart (ui (mem w')) = Some (start s) /\
  isConnectedToOffice (ui (mem w')) = true /\
  currentSSIDName (ui (mem w')) = seen_target w /\
  store w' !! KEYS.HISTORY = store w !! KEYS.HISTORY /\
  store w' !! KEYS.SESSIONS = store w !! KEYS.SESSIONS.
Proof.
  intros t0 t1 t2 t3 t4 beat s' w' Hrel Hsome Htrack Hfresh Hday.
  destruct (run_tick_live w s Hrel Hsome Hfresh) as (w4 & Hcalm & Hslot & Hrun).
  destruct Hcalm as (Hd4 & Hc4 & _ & Hst4 & _).
  unfold should_track in Htrack. pose proof Htrack as Htrack'.
  apply andb_prop in Htrack' as [Htrack' Hpause].
  apply andb_prop in Htrack' as [Hmatch Htarget].
  apply negb_true_iff in Hpause.
  eassert (Hw' : w' = _).
  { subst w'. rewrite Hrun.
    unfold App.decide_tracking. rewrite run_bind.
    rewrite run_matchNetwork_at by (cbn; by rewrite Hd4).
    cbn iota. cbn [read_clock snd device]. rewrite Hd4, Htrack. cbn [negb].
    rewrite run_date_now. cbn [run read_clock snd device clockReads mem store trace].
    rewrite ?Hd4, ?Hc4. change (clock (device w) (S (clockReads w))) with t1.
    rewrite bool_decide_eq_false_2 by (by intros []).
    unfold App.setCurrentSessionStart, App.setSessionDuration.
    rewrite run_bind, run_modify, run_date_now.
    cbn [read_clock snd device clockReads set_mem mem store trace].
    change (clock (device w) (S (S (clockReads w)))) with t2.
    rewrite run_bind, run_modify, run_date_now.
    cbn [read_clock snd device clockReads set_mem mem store trace].
    change (clock (device w) (S (S (S (clockReads w))))) with t3. fold beat.
    rewrite run_bind. reflexivity. }
  clearbody w'. subst s'. destruct beat.
  - match type of Hw' with context [run _ ?Wb] =>
      destruct (SessionFacts.heartbeat_live Wb s) as (wh & Hhb & Hslot' & Hst' & _ & _ & Hui' & _);
        [cbn; by rewrite ?Hd4 | unfold live_session; cbn; by rewrite Hslot |]
    end.
    rewrite run_bind in Hw'.
    cbn [device clockReads mem store ui set_ui] in Hhb, Hst', Hui', Hslot'.
    change (clock (device w) (S (S (S (S (clockReads w)))))) with t4 in Hhb, Hslot', Hst'.
    rewrite Hhb in Hw'. cbn [run] in Hw'. revert Hw'. run_ui. intros ->.
    cbn [mem store ui cache set_mem set_ui sessionDuration currentSessionStart
         isConnectedToOffice currentSSIDName].
    rewrite Hui', Hst', Hmatch, Htarget, Hpause. cbn [negb andb]. rewrite andb_false_r.
    split; [unfold StorageService.getCurrentSession; cbn; by rewrite Hslot' |].
    split; [apply SessionFacts.stored_session_stringify; apply lookup_insert_eq |].
    repeat split.
    + destruct (seen_target w) as [[|c t]|]; try discriminate Htarget. reflexivity.
    + rewrite lookup_insert_ne by done. by apply Hst4.
    + rewrite lookup_insert_ne by done. by apply Hst4.
  - cbn [run] in Hw'. revert Hw'. run_ui. intros ->.
    cbn [mem store ui cache set_mem set_ui sessionDuration currentSessionStart
         isConnectedToOffice currentSSIDName].
    rewrite Hmatch, Htarget, Hpause. cbn [negb andb]. rewrite andb_false_r.
    split; [unfold StorageService.getCurrentSession; cbn; by rewrite Hslot |].
    split; [by apply Hst4 |].
    repeat split.
    + destruct (seen_target w) as [[|c t]|]; try discriminate Htarget. reflexivity.
    + by apply Hst4.
    + by apply Hst4.
Qed.

(** X15. A tick that finds no live session (none cached and none stored,
    the stored session text being absent, empty or that of a session)
    while tracking is not due (AsyncStorage working): no session is created and the stored session,
    the History and the SessionDetails are not touched; the screen shows
    idle, no start time, a duration of 0, the target name and the network
    match as read, and as network name "Wi-Fi Connected (Not Configured)"
    or "Not Connected" when no target is configured, else "Paused
    (Manual)" when paused on Wi-Fi, else the name the network matching
    left. *)
Theorem tick_stays_idle (w : World) :
  let w' := fst (run App.checkNetworkAndSession w) in
  let wifi := on_wifi (device w) in
  reliable (device w) -> seen_session w = None -> session_shaped (store w) = true ->
  should_track w = false ->
  seen_session w' = None /\
  store w' !! KEYS.CURRENT_SESSION = store w !! KEYS.CURRENT_SESSION /\
  store w' !! KEYS.HISTORY = store w !! KEYS.HISTORY /\
  store w' !! KEYS.SESSIONS = store w !! KEYS.SESSIONS /\
  sessionDuration (ui (mem w')) = 0 /\
  currentSessionStart (ui (mem w')) = None /\
  isConnectedToOffice (ui (mem w')) = false /\
  targetSSID (ui (mem w')) = seen_target w /\
  isOnTargetNetwork (ui (mem w')) = network_match (device w) (seen_raw w) /\
  currentSSIDName (ui (mem w'))
  = Some (if negb (Js.truthy (seen_target w))
          then if wifi then "Wi-Fi Connected (Not Configured)" else "Not Connected"
          else if wifi && seen_pause w then "Paused (Manual)"
          else network_label (device w) (seen_raw w)
                 (if wifi then "Wi-Fi Connected" else "Not Connected"))%string.
Proof.
  intros w' wifi Hrel Hnone _ Htrack.
  exact (tick_idle_outcome w Hrel Hnone Htrack).
Qed.

(** X16. A tick that finds a live session, not stale, started on another day
    than the tick's, while tracking is due (guard free, AsyncStorage
    working): the session is ended at the next reading of the clock and a
    new one is started at the reading after that, cached and stored; the
    tick returns without refreshing the screen.  What endSession records is
    the split of the old session at the end of its start day: each part is
    added to the History and pushed to the SessionDetails when it lasts
    1000 ms or more, the second part under the day of the end in the
    History and under the day after the start day's end in the
    SessionDetails. *)
Theorem tick_restarts_at_midnight (w : World) (s : Session)
    (h : gmap string Z) (m : gmap string (list Detail)) :
  let t0 := clock (device w) (clockReads w) in
  let t1 := clock (device w) (1 + clockReads w) in
  let t2 := clock (device w) (2 + clockReads w) in
  let t3 := clock (device w) (3 + clockReads w) in
  let s' := {| start := t3; lastActive := t3 |} in
  let w' := fst (run App.checkNetworkAndSession w) in
  let startDay := dayKey (device w) (start s) in
  let midnight := endOfDay (device w) (start s) in
  let hA := if bool_decide (midnight - start s >= 1000)
            then add_duration startDay (midnight - start s) h else h in
  let mA := if bool_decide (midnight - start s >= 1000)
            then push_detail startDay (start s) midnight m else m in
  reliable (device w) -> _isEnding (mem w) = false ->
  seen_session w = Some s -> should_track w = true ->
  t0 - lastActive s <= App.zombie_limit ->
  startDay <> dayKey (device w) t1 ->
  history_doc (store w) = Some h -> sessions_doc (store w) = Some m ->
  run StorageService.getCurrentSession w' = (w', Returned (Some s')) /\
  stored_session (store w') = Some s' /\
  _isEnding (mem w') = false /\
  isConnectedToOffice (ui (mem w')) = isConnectedToOffice (ui (mem w)) /\
  sessionDuration (ui (mem w')) = sessionDuration (ui (mem w)) /\
  currentSSIDName (ui (mem w')) = currentSSIDName (ui (mem w)) /\
  (startDay <> dayKey (device w) t2 ->
   history_doc (store w')
   = Some (if bool_decide (t2 - (midnight + 1) >= 1000)
           then add_duration (dayKey (device w) t2) (t2 - (midnight + 1)) hA else hA) /\
   sessions_doc (store w')
   = Some (if bool_decide (t2 - (midnight + 1) >= 1000)
           then push_detail (dayKey (device w) (midnight + 1)) (midnight + 1) t2 mA
           else mA)).
Proof.
  intros t0 t1 t2 t3 s' w' startDay midnight hA mA
    Hrel Hfree Hsome Htrack Hfresh Hday Hh Hm.
  destruct (run_tick_live w s Hrel Hsome Hfresh) as (w4 & Hcalm & Hslot & Hrun).
  destruct Hcalm as (Hd4 & Hc4 & Hg4 & Hst4 & U1 & U2 & U3 & _).
  unfold should_track in Htrack.
  set (w6 := snd (read_clock (snd (read_clock w4)))).
  assert (Hw6 : w' = fst (run (StorageService.endSession ;; StorageService.startSession ;;
                               Ret tt) w6)).
  { subst w' w6. rewrite Hrun.
    unfold App.decide_tracking. rewrite run_bind.
    rewrite run_matchNetwork_at by (cbn; by rewrite Hd4).
    cbn iota. cbn [read_clock snd device]. rewrite Hd4, Htrack. cbn [negb].
    rewrite run_date_now. cbn [run read_clock snd device clockReads mem store trace].
    rewrite ?Hd4, ?Hc4. change (clock (device w) (S (clockReads w))) with t1.
    rewrite bool_decide_eq_true_2 by done. reflexivity. }
  clearbody w'. subst w'.
  assert (Hfree6 : _isEnding (mem w6) = false) by (cbn; congruence).
  assert (Hrel6 : reliable (device w6)) by (cbn; by rewrite Hd4).
  assert (Hlive6 : live_session w6 = Some s) by (unfold live_session; cbn; by rewrite Hslot).
  destruct (endSession_ends w6 s Hfree6 Hrel6 Hlive6)
    as (w2 & w3 & Hrec & Hend & Hst2 & Hd2 & Hc2 & Hui2 & _ & Hmem3 & Hd3 & Hc3 & _).
  assert (Hnow : clock (device w6) (clockReads w6) = t2) by (cbn; by rewrite Hd4, Hc4).
  rewrite Hnow in Hrec.
  cbn [device w6 read_clock snd clockReads mem store] in Hrec, Hd2, Hc2, Hd3, Hc3, Hui2, Hst2.
  rewrite Hd4 in Hrec, Hd2, Hd3. rewrite Hc4 in Hc2.
  assert (Hnow3 : clock (device w3) (clockReads w3) = t3) by (by rewrite Hd3, Hc3, Hc2).
  rewrite run_bind, Hend, run_bind.
  rewrite run_startSession by (unfold finalize; cbn; by rewrite Hd3).
  cbn [run fst snd]. unfold finalize.
  cbn [mem store ui cache set_mem set_cache set_isEnding served apply_op read_clock snd
       device clockReads _isEnding cache_CURRENT_SESSION CURRENT_SESSION].
  rewrite Hnow3, Hmem3, Hui2, U1, U2, U3. fold s'.
  split; [unfold StorageService.getCurrentSession; cbn; reflexivity |].
  split; [apply SessionFacts.stored_session_stringify; apply lookup_insert_eq |].
  split; [reflexivity |]. split; [reflexivity |]. split; [reflexivity |].
  split; [reflexivity |].
  intros Hday2.
  assert (Hh2 : history_doc (store w2) = Some h).
  { unfold history_doc in *. rewrite Hst2. by rewrite Hst4. }
  assert (Hm2 : sessions_doc (store w2) = Some m).
  { unfold sessions_doc in *. rewrite Hst2. by rewrite Hst4. }
  assert (Hrel2 : reliable (device w2)) by (by rewrite Hd2).
  pose proof (LedgerFacts.run_recordSession_split w2
                {| start := start s; lastActive := t2 |} t2 h m Hrel2 Hh2 Hm2) as Hl.
  rewrite Hd2 in Hl. cbn [start lastActive] in Hl.
  specialize (Hl Hday2). cbn zeta in Hl.
  rewrite Hrec in Hl. cbn [fst snd] in Hl.
  fold startDay midnight in Hl. fold hA mA in Hl.
  destruct Hl as (_ & Hh3 & Hm3 & _).
  unfold history_doc, sessions_doc in *.
  rewrite !lookup_insert_ne, !lookup_delete_ne by done.
  by split.
Qed.
End TickFacts.

(** ** The background task *)

Lemma coherent_seen_live (w : World) : coherent w -> live_session w = seen_session w.
Proof.
  intros (_ & _ & _ & _ & Hs). unfold live_session, seen_session.
  destruct (CURRENT_SESSION (cache (mem w))) as [[s|]|] eqn:E; try reflexivity.
  specialize (Hs _ eq_refl). unfold stored_session in Hs. by rewrite <- Hs.
Qed.

Lemma run_background_decision (w : World) :
  reliable (device w) ->
  Js.truthy (seen_target w) = true -> seen_pause w = false ->
  exists w3,
    quiet w w3 /\
    fst (run (App.backgroundTask true false) w)
    = fst (run (if network_match (device w) (seen_raw w)
                then currentSession ← StorageService.getCurrentSession;
                     match currentSession with
                     | Some _ => StorageService.updateSessionHeartbeat ;; Ret tt
                     | None => StorageService.startSession ;; Ret tt
                     end
                else StorageService.endSession) w3).
Proof.
  intros Hrel Htarget Hpause. unfold App.backgroundTask. rewrite run_logged.
  rewrite run_bind.
  destruct (run_getTargetSSID w Hrel) as (w1 & -> & Hq1).
  assert (Hrel1 : reliable (device w1)) by (destruct Hq1 as (-> & _); done).
  rewrite run_bind.
  destruct (run_getRawSSID w1 Hrel1) as (w2 & -> & Hq2).
  assert (Hrel2 : reliable (device w2)) by (destruct Hq2 as (-> & _); done).
  rewrite run_bind.
  destruct (run_getManualPause w2 Hrel2) as (w3 & -> & Hq3 & _).
  pose proof (transitivity Hq1 Hq2) as Hq12.
  pose proof (transitivity Hq12 Hq3) as Hq.
  destruct (quiet_seen _ _ Hq1) as (_ & Hr1 & _).
  destruct (quiet_seen _ _ Hq12) as (_ & _ & Hp12 & _).
  rewrite Hr1, Hp12, Htarget, Hpause. cbn [negb orb].
  exists w3. split; [exact Hq |].
  destruct Hq as (Hd & _).
  rewrite run_bind, EvaluatorFacts.run_isConnectedToWifi. rewrite run_bind.
  unfold network_match. rewrite Hd.
  destruct (on_wifi (device w)) eqn:Ewifi; cbn [negb].
  - destruct (Js.truthy (seen_raw w)) eqn:Eraw; cbn [negb].
    + rewrite EvaluatorFacts.run_isConnectedToTargetNetwork. rewrite Hd, Ewifi, Eraw.
      cbn [andb]. reflexivity.
    + reflexivity.
  - reflexivity.
Qed.

Module BackgroundFacts.

(** X17. The background task stands by when it is called with an error or
    without data, when no target is configured, and when tracking is
    paused (AsyncStorage working): it writes nothing -- the store, the
    guard, the screen and the clock are as before and the live session,
    if there is one, is still live, neither ended nor given a heartbeat,
    wherever the device is. *)
Theorem background_task_stands_by (w : World) (data error : bool) :
  reliable (device w) ->
  error = true \/ data = false \/ Js.truthy (seen_target w) = false \/ seen_pause w = true ->
  let w' := fst (run (App.backgroundTask data error) w) in
  store w' = store w /\ seen_session w' = seen_session w /\
  live_session w' = live_session w /\
  _isEnding (mem w') = _isEnding (mem w) /\ ui (mem w') = ui (mem w) /\
  clockReads w' = clockReads w.
Proof.
  intros Hrel Hcase w'.
  assert (Hq : quiet w w').
  { subst w'. unfold App.backgroundTask.
    destruct error; [reflexivity |]. destruct data; [| reflexivity].
    destruct Hcase as [H | [H | H]]; try discriminate H.
    rewrite run_logged, run_bind.
    destruct (run_getTargetSSID w Hrel) as (w1 & -> & Hq1).
    assert (Hrel1 : reliable (device w1)) by (destruct Hq1 as (-> & _); done).
    rewrite run_bind.
    destruct (run_getRawSSID w1 Hrel1) as (w2 & -> & Hq2).
    assert (Hrel2 : reliable (device w2)) by (destruct Hq2 as (-> & _); done).
    rewrite run_bind.
    destruct (run_getManualPause w2 Hrel2) as (w3 & -> & Hq3 & _).
    pose proof (transitivity Hq1 Hq2) as Hq12.
    destruct (quiet_seen _ _ Hq12) as (_ & _ & Hp12 & _).
    rewrite Hp12.
    assert (negb (Js.truthy (seen_target w)) || seen_pause w = true) as ->.
    { destruct H as [-> | ->]; [reflexivity | apply orb_true_r]. }
    cbn [run fst]. by etrans. }
  destruct (quiet_seen _ _ Hq) as (_ & _ & _ & Hs & Hl).
  destruct Hq as (_ & Hst & Hc & Hu & Hg & _).
  by repeat split.
Qed.

(** X18. What the background task does when a target is configured and
    tracking is not paused (from a state in which AsyncStorage works, the
    guard is free, the cache agrees with the store and the stored session
    text is absent, empty or that of a session).  On the target
    network it starts a session at the clock reading when none is live,
    and otherwise gives the live session a heartbeat at the clock reading,
    however old the last one is.  Off the target network it ends the live
    session at the clock reading (recording it as endSession does: for an
    end on the start day, the day's total grows by the session's length
    and one interval is pushed when that is 1000 ms or more), and does
    nothing when none is live. *)
Theorem background_task_decides (w : World)
    (h : gmap string Z) (m : gmap string (list Detail)) :
  let now := clock (device w) (clockReads w) in
  let w' := fst (run (App.backgroundTask true false) w) in
  in_sync w -> session_shaped (store w) = true ->
  Js.truthy (seen_target w) = true -> seen_pause w = false ->
  history_doc (store w) = Some h -> sessions_doc (store w) = Some m ->
  match seen_session w, network_match (device w) (seen_raw w) with
  | None, true =>
      let s' := {| start := now; lastActive := now |} in
      run StorageService.getCurrentSession w' = (w', Returned (Some s')) /\
      stored_session (store w') = Some s'
  | Some s, true =>
      let s' := {| start := start s; lastActive := now |} in
      run StorageService.getCurrentSession w' = (w', Returned (Some s')) /\
      stored_session (store w') = Some s' /\
      history_doc (store w') = Some h /\ sessions_doc (store w') = Some m
  | Some s, false =>
      let day := dayKey (device w) (start s) in
      run StorageService.getCurrentSession w' = (w', Returned None) /\
      store w' !! KEYS.CURRENT_SESSION = None /\
      _isEnding (mem w') = false /\
      (dayKey (device w) now = day ->
       history_doc (store w')
       = Some (if bool_decide (now - start s >= 1000)
               then add_duration day (now - start s) h else h) /\
       sessions_doc (store w')
       = Some (if bool_decide (now - start s >= 1000)
               then push_detail day (start s) now m else m))
  | None, false => store w' = store w /\ seen_session w' = None
  end.
Proof.
  intros now w' (Hrel & Hfree & Hcoh) _ Htarget Hpause Hh Hm.
  destruct (run_background_decision w Hrel Htarget Hpause) as (w3 & Hq & Hrun).
  destruct (quiet_seen _ _ Hq) as (_ & _ & _ & Hs3 & Hl3).
  pose proof Hq as (Hd3 & Hst3 & Hc3 & _ & Hg3 & _).
  assert (Hrel3 : reliable (device w3)) by (by rewrite Hd3).
  assert (Hlive : live_session w3 = seen_session w)
    by (by rewrite Hl3, coherent_seen_live).
  subst w'. rewrite Hrun. clear Hrun.
  destruct (network_match (device w) (seen_raw w)).
  - rewrite run_bind.
    destruct (run_getCurrentSession w3 Hrel3) as (w4 & -> & Hq4 & Hslot4).
    rewrite Hs3 in *.
    pose proof Hq4 as (Hd4 & Hst4 & Hc4 & _).
    assert (Hrel4 : reliable (device w4)) by (by rewrite Hd4).
    destruct (seen_session w) as [s|].
    + assert (Hlive4 : live_session w4 = Some s)
        by (unfold live_session; by rewrite (Hslot4 s eq_refl)).
      rewrite run_bind.
      destruct (SessionFacts.heartbeat_live w4 s Hrel4 Hlive4)
        as (w5 & -> & Hslot5 & Hst5 & _).
      rewrite Hd4, Hd3, Hc4, Hc3 in Hslot5, Hst5. fold now in Hslot5, Hst5.
      cbn [run fst]. cbn zeta.
      split; [unfold StorageService.getCurrentSession; cbn [run]; by rewrite Hslot5 |].
      split; [apply SessionFacts.stored_session_stringify; rewrite Hst5;
              apply lookup_insert_eq |].
      unfold history_doc, sessions_doc in *. rewrite Hst5.
      rewrite !lookup_insert_ne by done. by rewrite Hst4, Hst3.
    + rewrite run_bind, run_startSession by done. cbn [run fst]. cbn zeta.
      rewrite Hd4, Hd3, Hc4, Hc3. fold now.
      split; [reflexivity |].
      apply SessionFacts.stored_session_stringify. apply lookup_insert_eq.
  - destruct (seen_session w) as [s|].
    + assert (Hfree3 : _isEnding (mem w3) = false) by congruence.
      destruct (endSession_ends w3 s Hfree3 Hrel3 Hlive)
        as (w4 & w5 & Hrec & -> & Hst4 & Hd4 & _ & _ & _ & _ & _).
      rewrite Hd3, Hc3 in Hrec. fold now in Hrec. rewrite Hd3 in Hd4.
      cbn [fst]. cbn zeta.
      split; [reflexivity |].
      split; [unfold finalize; cbn; apply lookup_delete_eq |].
      split; [reflexivity |].
      intros Hday.
      rewrite LedgerFacts.history_doc_finalize, LedgerFacts.sessions_doc_finalize.
      assert (Hh4 : history_doc (store w4) = Some h) by (by rewrite Hst4, Hst3).
      assert (Hm4 : sessions_doc (store w4) = Some m) by (by rewrite Hst4, Hst3).
      assert (Hrel4 : reliable (device w4)) by (by rewrite Hd4).
      pose proof (LedgerFacts.run_recordSession_same_day w4
                    {| start := start s; lastActive := now |} now h m Hrel4 Hh4 Hm4) as Hl.
      rewrite Hd4 in Hl. cbn [start lastActive] in Hl.
      specialize (Hl (eq_sym Hday)). cbn zeta in Hl.
      rewrite Hrec in Hl. cbn [fst snd] in Hl.
      by destruct Hl as (_ & ? & ? & _).
    + destruct (SessionFacts.endSession_idle w3 Hlive) as (_ & Hm5 & Hst5).
      split; [by rewrite Hst5 |].
      unfold seen_session in *. rewrite Hst5, Hm5. exact Hs3.
Qed.

End BackgroundFacts.

(** ** The handlers of the screen *)

Lemma run_logged_unit (t : Async unit) (w : World) :
  snd (run (try_catch t (logged tt)) w) = Returned tt.
Proof. rewrite run_try_catch. by destruct (run t w) as [w' [[]|e]]. Qed.

(** The pause flag a tick leaves. *)
Lemma tick_pause_outcome (w : World) :
  reliable (device w) ->
  let w' := fst (run App.checkNetworkAndSession w) in
  IS_MANUAL_PAUSED (cache (mem w')) = Some (effective_pause w) /\
  isManualStop (ui (mem w')) = effective_pause w /\
  store w' !! KEYS.IS_MANUAL_PAUSED
  = (if negb (on_wifi (device w)) && seen_pause w then Some "false"%string
     else store w !! KEYS.IS_MANUAL_PAUSED).
Proof.
  intros Hrel w'. subst w'.
  destruct (run_tick_prefix w Hrel) as (w3 & -> & _ & Hstop & Hslot & Hoff & Hsame).
  match goal with |- context [run ?t ?w0] =>
    pose proof (run_within _ _ _ t w0 (EvaluatorFacts.evaluate_pause_kept _ _ _ _))
      as (Hview & Hkeys & _);
    set (w' := fst (run t w0)) in *
  end.
  clearbody w'. injection Hview as Hslot' Hstop'.
  rewrite Hslot', Hstop', Hkeys by done.
  repeat split; try done.
  destruct (on_wifi (device w)) eqn:Ewifi; cbn [negb andb].
  - by rewrite Hsame by (by left).
  - destruct (seen_pause w) eqn:Ep.
    + by apply Hoff.
    + by rewrite Hsame by (by right).
Qed.

Lemma run_onPressPause (stopped : bool) (w : World) :
  reliable (device w) ->
  run (App.onPressPause stopped) w
  = run App.checkNetworkAndSession (pressed (negb stopped) w).
Proof.
  intros Hrel. unfold App.onPressPause. cbn zeta.
  rewrite run_bind. unfold StorageService.setManualPause.
  rewrite run_try_catch, run_bind, run_modify, LedgerFacts.run_setItem by done.
  cbn iota. rewrite run_bind. unfold App.setIsManualStop. rewrite run_modify.
  reflexivity.
Qed.


(** *** The Reset button *)

Ltac setup_frame :=
  frame_services;
  try (unfold spares, setup_keys; intros [H|[H|H]]; discriminate H).

Lemma endSession_setup_kept :
  within (fun _ : Mem => tt) setup_keys true StorageService.endSession.
Proof. setup_frame. Qed.

Lemma tick_setup_kept :
  within (fun _ : Mem => tt) setup_keys true App.checkNetworkAndSession.
Proof. unfold App.checkNetworkAndSession. setup_frame. Qed.

Lemma tick_in_sync : respects (stable in_sync) App.checkNetworkAndSession.
Proof. sync_services. Qed.

Lemma endSession_leaves_none (w : World) :
  in_sync w -> seen_session (fst (run StorageService.endSession w)) = None.
Proof.
  intros (Hrel & Hg & Hcoh).
  destruct (live_session w) as [s|] eqn:Hlive.
  - destruct (endSession_ends w s Hg Hrel Hlive) as (w2 & w3 & _ & -> & _).
    reflexivity.
  - destruct (SessionFacts.endSession_idle w Hlive) as (_ & Hm & Hs).
    unfold seen_session. rewrite Hm, Hs. change (seen_session w = None).
    by rewrite <- (coherent_seen_live w Hcoh).
Qed.

(** What the Reset handler has established when it reaches its tick. *)
Lemma run_onPressReset (w : World) :
  in_sync w ->
  exists w4,
    run App.onPressReset w = run App.checkNetworkAndSession w4 /\
    in_sync w4 /\ device w4 = device w /\
    store w4 !! KEYS.TARGET_SSID = None /\ store w4 !! KEYS.RAW_SSID = None /\
    store w4 !! KEYS.GOAL_HOURS = store w !! KEYS.GOAL_HOURS /\
    store w4 !! KEYS.HISTORY = None /\ store w4 !! KEYS.SESSIONS = None /\
    seen_session w4 = None.
Proof.
  intros Hsync. pose proof Hsync as (Hrel & _).
  unfold App.onPressReset. rewrite run_bind.
  pose proof (clearTargetSSID_in_sync w Hsync) as Hsync1.
  assert (H1 : exists w1, run StorageService.clearTargetSSID w = (w1, Returned tt) /\
            device w1 = device w /\
            store w1 !! KEYS.TARGET_SSID = None /\ store w1 !! KEYS.RAW_SSID = None /\
            store w1 !! KEYS.GOAL_HOURS = store w !! KEYS.GOAL_HOURS).
  { unfold StorageService.clearTargetSSID.
    rewrite run_try_catch, run_bind, run_modify, run_bind, run_modify, run_bind.
    rewrite LedgerFacts.run_removeItem by done.
    rewrite LedgerFacts.run_removeItem by done.
    eexists. split; [reflexivity |]. cbn [device store served apply_op set_mem].
    repeat split.
    - rewrite lookup_delete_ne by done. apply lookup_delete_eq.
    - apply lookup_delete_eq.
    - by rewrite !lookup_delete_ne by done. }
  destruct H1 as (w1 & E1 & Hd1 & Ht1 & Hr1 & Hg1). rewrite E1 in *. cbn [fst] in Hsync1.
  cbn iota. rewrite run_bind.
  pose proof (endSession_in_sync w1 Hsync1) as Hsync2.
  pose proof (endSession_leaves_none w1 Hsync1) as Hnone2.
  pose proof (run_within _ _ _ _ w1 endSession_setup_kept) as (_ & Hk2 & Hd2 & _).
  destruct (run_settles StorageService.endSession w1) as [[] E2].
  { settle_services. }
  destruct (run StorageService.endSession w1) as [w2 r2]. cbn [fst snd] in *. subst r2.
  cbn iota. rewrite run_bind.
  assert (Hrel2 : reliable (device w2)) by (by rewrite Hd2, Hd1).
  unfold StorageService.clearHistory at 1. rewrite run_bind.
  rewrite LedgerFacts.run_removeItem by done. cbn iota.
  rewrite LedgerFacts.run_removeItem by done.
  cbn iota. run_ui.
  eexists. split; [reflexivity |].
  split.
  { destruct Hsync2 as (Hr & Hg & Hc). split; [exact Hr |]. split; [exact Hg |].
    unfold coherent, stored_goal, stored_pause, stored_session in *.
    cbn [mem store cache set_mem set_ui served apply_op].
    by rewrite !lookup_delete_ne by done. }
  cbn [device mem store cache set_mem set_ui served apply_op].
  split; [by rewrite Hd2 |].
  rewrite !(lookup_delete_ne _ KEYS.SESSIONS KEYS.TARGET_SSID),
    !(lookup_delete_ne _ KEYS.HISTORY KEYS.TARGET_SSID),
    !(lookup_delete_ne _ KEYS.SESSIONS KEYS.RAW_SSID),
    !(lookup_delete_ne _ KEYS.HISTORY KEYS.RAW_SSID),
    !(lookup_delete_ne _ KEYS.SESSIONS KEYS.GOAL_HOURS),
    !(lookup_delete_ne _ KEYS.HISTORY KEYS.GOAL_HOURS) by done.
  rewrite !Hk2 by (unfold setup_keys; auto).
  repeat split; try done.
  all: try (rewrite lookup_delete_ne by done; apply lookup_delete_eq).
  all: try apply lookup_delete_eq.
  unfold seen_session, stored_session in *.
  cbn [mem store cache set_mem set_ui served apply_op].
  by rewrite !lookup_delete_ne by done.
Qed.

Module HandlerFacts.

(** X19. The pause button (AsyncStorage working).  Pressed while the screen
    shows tracking as not paused, it leaves the pause set only if the
    device is on Wi-Fi: off Wi-Fi the tick the handler ends with clears it
    again at once.  Pressed while the screen shows it paused, it leaves
    the pause cleared.  Afterwards the cache, the store and the button
    agree on the flag. *)
Theorem pause_button_sets_flag (w : World) (stopped : bool) :
  reliable (device w) ->
  let kept := negb stopped && on_wifi (device w) in
  let w' := fst (run (App.onPressPause stopped) w) in
  snd (run (App.onPressPause stopped) w) = Returned tt /\
  run StorageService.getManualPause w' = (w', Returned kept) /\
  isManualStop (ui (mem w')) = kept /\
  store w' !! KEYS.IS_MANUAL_PAUSED = Some (if kept then "true" else "false")%string.
Proof.
  intros Hrel kept w'. subst w'. rewrite run_onPressPause by done.
  split; [apply run_logged_unit |].
  assert (Hrel1 : reliable (device (pressed (negb stopped) w))) by exact Hrel.
  destruct (tick_pause_outcome _ Hrel1) as (Hslot & Hstop & Hstore).
  assert (Hp : seen_pause (pressed (negb stopped) w) = negb stopped) by reflexivity.
  assert (He : effective_pause (pressed (negb stopped) w) = kept).
  { unfold effective_pause. rewrite Hp. cbn [pressed device set_mem served].
    unfold kept. apply andb_comm. }
  rewrite He in Hslot, Hstop.
  split; [unfold StorageService.getManualPause; cbn [run]; by rewrite Hslot |].
  split; [exact Hstop |].
  rewrite Hstore, Hp. cbn [pressed device set_mem served store apply_op].
  rewrite lookup_insert_eq. unfold kept.
  by destruct stopped, (on_wifi (device w)).
Qed.

(** X20. Pausing ends the session: when the pause button is pressed with a
    session live (guard free, AsyncStorage working), the tick of the
    handler ends that session whatever the network is.  The session is
    gone from the cache and the store, the screen shows idle, and its time
    up to the next reading of the clock is recorded as endSession records
    it (for a session ending on its start day: added to the day's History
    total and pushed to the day's SessionDetails if it lasts 1000 ms or
    more). *)
Theorem pausing_ends_the_session (w : World) (s : Session)
    (h : gmap string Z) (m : gmap string (list Detail)) :
  reliable (device w) -> _isEnding (mem w) = false ->
  seen_session w = Some s ->
  history_doc (store w) = Some h -> sessions_doc (store w) = Some m ->
  let now := clock (device w) (S (clockReads w)) in
  let day := dayKey (device w) (start s) in
  let w' := fst (run (App.onPressPause false) w) in
  run StorageService.getCurrentSession w' = (w', Returned None) /\
  store w' !! KEYS.CURRENT_SESSION = None /\
  sessionDuration (ui (mem w')) = 0 /\
  isConnectedToOffice (ui (mem w')) = false /\
  (dayKey (device w) now = day ->
   history_doc (store w')
   = Some (if bool_decide (now - start s >= 1000)
           then add_duration day (now - start s) h else h) /\
   sessions_doc (store w')
   = Some (if bool_decide (now - start s >= 1000)
           then push_detail day (start s) now m else m)).
Proof.
  intros Hrel Hfree Hsome Hh Hm now day w'. subst w'.
  rewrite run_onPressPause by done. cbn [negb].
  set (w1 := pressed true w).
  assert (Htrack : should_track w1 = false).
  { unfold should_track, effective_pause, network_match.
    change (seen_pause w1) with true. rewrite andb_true_r.
    destruct (on_wifi (device w1)); cbn [negb andb]; [apply andb_false_r | reflexivity]. }
  assert (Hh1 : history_doc (store w1) = Some h).
  { unfold history_doc. cbn [w1 pressed store set_mem served apply_op].
    by rewrite lookup_insert_ne. }
  assert (Hm1 : sessions_doc (store w1) = Some m).
  { unfold sessions_doc. cbn [w1 pressed store set_mem served apply_op].
    by rewrite lookup_insert_ne. }
  assert (Hsome1 : seen_session w1 = Some s).
  { unfold seen_session, stored_session in *.
    cbn [w1 pressed store mem cache set_mem set_ui set_cache served apply_op
         cache_IS_MANUAL_PAUSED CURRENT_SESSION].
    by rewrite lookup_insert_ne. }
  destruct (tick_stop_outcome w1 s h m Hrel Hfree Hsome1 Htrack Hh1 Hm1)
    as (H1 & H2 & _ & H4 & H5 & _ & H7).
  repeat split; try done; by apply H7.
Qed.

(** X21. The Reset button, pressed in a state where AsyncStorage works, no
    endSession is in flight, the cache agrees with the store and the
    stored session text is absent, empty or that of a session: the
    handler returns; the target name, the raw identifier, the History and
    the SessionDetails are gone from the store, the History included that
    endSession wrote a moment before for the session it ended; no getter
    finds a target, an identifier or a session any more; the goal hours
    are kept; the cache still agrees with the store; and the screen shows
    no target, idle, a duration of 0 and "Wi-Fi Connected (Not
    Configured)" or "Not Connected". *)
Theorem reset_forgets_everything (w : World) :
  in_sync w -> session_shaped (store w) = true ->
  let w' := fst (run App.onPressReset w) in
  snd (run App.onPressReset w) = Returned tt /\
  in_sync w' /\
  store w' !! KEYS.TARGET_SSID = None /\ store w' !! KEYS.RAW_SSID = None /\
  store w' !! KEYS.HISTORY = None /\ store w' !! KEYS.SESSIONS = None /\
  store w' !! KEYS.GOAL_HOURS = store w !! KEYS.GOAL_HOURS /\
  seen_target w' = None /\ seen_raw w' = None /\ seen_session w' = None /\
  targetSSID (ui (mem w')) = None /\
  isConnectedToOffice (ui (mem w')) = false /\
  sessionDuration (ui (mem w')) = 0 /\
  currentSessionStart (ui (mem w')) = None /\
  currentSSIDName (ui (mem w'))
  = Some (if on_wifi (device w) then "Wi-Fi Connected (Not Configured)"
          else "Not Connected")%string.
Proof.
  intros Hsync _ w'. subst w'.
  destruct (run_onPressReset w Hsync)
    as (w4 & -> & Hsync4 & Hd4 & Ht4 & Hr4 & Hg4 & Hh4 & Hm4 & Hnone4).
  split; [apply run_logged_unit |].
  pose proof (tick_in_sync w4 Hsync4) as Hsync'.
  pose proof (run_within _ _ _ _ w4 tick_setup_kept) as (_ & Hk & _).
  pose proof Hsync4 as (Hrel4 & _ & Hct & Hcr & _).
  assert (Hst : seen_target w4 = None).
  { unfold seen_target. destruct (TARGET_SSID (cache (mem w4))) as [v|]; [| done].
    by rewrite (Hct v eq_refl). }
  assert (Htrack : should_track w4 = false).
  { unfold should_track. rewrite Hst. cbn [Js.truthy]. by rewrite andb_false_r. }
  destruct (tick_idle_outcome w4 Hrel4 Hnone4 Htrack)
    as (Hs' & _ & Hh' & Hm' & Hdur & Hstart & Hconn & Hui & _ & Hname).
  set (w' := fst (run App.checkNetworkAndSession w4)) in *. clearbody w'.
  pose proof Hsync' as (_ & _ & Hct' & Hcr' & _).
  rewrite Hst in Hname, Hui. cbn [Js.truthy negb] in Hname. rewrite Hd4 in Hname.
  split; [exact Hsync' |].
  rewrite !Hk by (unfold setup_keys; auto).
  rewrite Hh', Hm'.
  repeat split; try done.
  - rewrite Hk by (unfold setup_keys; auto). done.
  - unfold seen_target. destruct (TARGET_SSID (cache (mem w'))) as [v|].
    + rewrite (Hct' v eq_refl). rewrite Hk by (unfold setup_keys; auto). done.
    + rewrite Hk by (unfold setup_keys; auto). done.
  - unfold seen_raw. destruct (RAW_SSID (cache (mem w'))) as [v|].
    + rewrite (Hcr' v eq_refl). rewrite Hk by (unfold setup_keys; auto). done.
    + rewrite Hk by (unfold setup_keys; auto). done.
Qed.

End HandlerFacts.

(** ** The network queries *)

Module NetworkFacts.
Import NetworkService.

(** X22. When NetInfo rejects the query, none of the three network queries
    throws and none changes anything: getCurrentSSID returns null,
    isConnectedToWifi returns false and isConnectedToTargetNetwork returns
    false for every target, so the device counts as off Wi-Fi. *)
Theorem network_queries_fail_safe (w : World) :
  netinfo (device w) = None ->
  run getCurrentSSID w = (w, Returned None) /\
  run isConnectedToWifi w = (w, Returned false) /\
  (forall target, run (isConnectedToTargetNetwork target) w = (w, Returned false)).
Proof.
  intros Hnet.
  split; [| split; [| intros target]].
  - rewrite EvaluatorFacts.run_getCurrentSSID. unfold currentSSID. by rewrite Hnet.
  - rewrite EvaluatorFacts.run_isConnectedToWifi. unfold on_wifi. by rewrite Hnet.
  - rewrite EvaluatorFacts.run_isConnectedToTargetNetwork. unfold on_wifi. by rewrite Hnet.
Qed.

(** X23. On Android, on Wi-Fi, the location services gate the identifier.
    With the location services reported off, getCurrentSSID returns null
    even though NetInfo holds an identifier, and
    isConnectedToTargetNetwork returns false for every target.  When the
    location provider reports them on, or cannot be asked at all (the
    query throws), the identifier NetInfo holds is returned with one
    leading and one trailing double quote removed. *)
Theorem android_location_gate (w : World) (state : NetInfoState) :
  OS (device w) = android -> netinfo (device w) = Some state -> type state = wifi ->
  (locationServicesEnabled (device w) = Some false ->
   run getCurrentSSID w = (w, Returned None) /\
   forall target, run (isConnectedToTargetNetwork target) w = (w, Returned false)) /\
  (locationServicesEnabled (device w) <> Some false -> Js.truthy (ssid state) = true ->
   run getCurrentSSID w
   = (w, Returned (Some (Js.stripQuotes (default EmptyString (ssid state)))))).
Proof.
  intros Hos Hnet Hwifi.
  assert (Hcur : locationServicesEnabled (device w) = Some false ->
                 currentSSID (device w) = None).
  { intros Hloc. unfold currentSSID. rewrite Hnet, Hwifi, Hos, Hloc. reflexivity. }
  split.
  - intros Hloc. split; [by rewrite EvaluatorFacts.run_getCurrentSSID, Hcur |].
    intros target. rewrite EvaluatorFacts.run_isConnectedToTargetNetwork.
    unfold resolvedIdentifier. rewrite (Hcur Hloc), Hos. cbn.
    by rewrite !andb_false_r.
  - intros Hloc Hssid. rewrite EvaluatorFacts.run_getCurrentSSID.
    unfold currentSSID. rewrite Hnet, Hwifi, Hos, Hssid. cbn.
    rewrite bool_decide_eq_false_2 by done. reflexivity.
Qed.

(** X24. Setting up on the network the device is on.  The identifier
    getCurrentSSID reports has had its quotes removed once; setTargetSSID
    removes quotes once more before it stores it.  So, on Wi-Fi with
    AsyncStorage working, after the setup has saved the captured
    identifier (not empty) under a name (not empty), the getters answer
    that name and the identifier with its quotes removed once more, and
    the network matching of the tick finds the device on the
    target network exactly when the second removal changed nothing, or
    emptied the identifier (nothing usable is stored then and any Wi-Fi
    matches).  A network whose reported identifier still begins or ends
    with a double quote is therefore not recognised by the setup made on
    it. *)
Theorem captured_network_is_recognised (w : World) (name id label : string) :
  reliable (device w) -> on_wifi (device w) = true ->
  name <> EmptyString -> id <> EmptyString ->
  run getCurrentSSID w = (w, Returned (Some id)) ->
  let w1 := fst (run (StorageService.setTargetSSID (Some name) (Some id)) w) in
  run StorageService.getTargetSSID w1 = (w1, Returned (Some name)) /\
  run StorageService.getRawSSID w1 = (w1, Returned (Some (Js.stripQuotes id))) /\
  exists label',
    run (App.matchNetwork true (Some (Js.stripQuotes id)) label) w1
    = (w1, Returned (bool_decide (Js.stripQuotes id = id \/ Js.stripQuotes id = EmptyString),
                     label')).
Proof.
  intros Hrel Hwifi Hname Hid Hcur w1.
  rewrite EvaluatorFacts.run_getCurrentSSID in Hcur. injection Hcur as Hcur.
  destruct name as [|c n]; [done |]. destruct id as [|c' r]; [done |].
  eassert (Hw1 : w1 = _).
  { unfold w1, StorageService.setTargetSSID. rewrite run_logged.
    rewrite run_bind, run_modify, run_bind, LedgerFacts.run_setItem by done.
    cbn iota. rewrite run_bind, run_modify. cbn iota.
    rewrite LedgerFacts.run_setItem by done. reflexivity. }
  clearbody w1. subst w1.
  split; [reflexivity |]. split; [reflexivity |].
  eexists. rewrite run_matchNetwork_at by (symmetry; exact Hwifi).
  f_equal. f_equal. f_equal.
  unfold network_match.
  cbn [device set_mem served fst]. rewrite Hwifi. cbn [negb].
  unfold resolvedIdentifier. rewrite Hcur. cbn [Js.truthy].
  destruct (Js.stripQuotes (String c' r)) as [|c'' r'] eqn:E; cbn [Js.truthy negb].
  - symmetry. apply bool_decide_eq_true_2. by right.
  - apply bool_decide_ext. split.
    + intros H. left. congruence.
    + intros [H | H]; [congruence | discriminate H].
Qed.

End NetworkFacts.

(** ** The statements at concrete states *)

Module Witness.
Import StorageService StorageFacts LedgerFacts EvaluatorFacts.

Lemma reliable_phone (t : Z) : reliable (Sample.phone t).
Proof. intros n. reflexivity. Qed.


Lemma clearHistory_surfaces_store_failure_witness :
  let w := Sample.fresh (Sample.failing (Sample.phone 0)) in
  rejects_next w = true /\
  snd (run clearHistory w) = Thrown StoreError /\
  store (fst (run clearHistory w)) = store w.
Proof.
  split; [reflexivity |].
  apply (clearHistory_surfaces_store_failure (Sample.fresh (Sample.failing (Sample.phone 0)))).
  reflexivity.
Defined.

Lemma setTargetSSID_then_reads_hit_cache_witness :
  let w := Sample.fresh (Sample.phone 0) in
  rejects_next w = false /\
  snd (run getRawSSID
         (fst (run getTargetSSID
            (fst (run (setTargetSSID (Some "Work"%string) (Some (Js.quoted "Work-WiFi"))) w)))))
  = Returned (Some "Work-WiFi"%string).
Proof.
  split; [reflexivity |].
  apply (setTargetSSID_then_reads_hit_cache (Sample.fresh (Sample.phone 0))).
  reflexivity.
Defined.



Lemma endSession_same_day_witness :
  let w := Sample.tracking Sample.since_2300 (Sample.phone Sample.five_seconds_later) in
  dayKey (device w) Sample.five_seconds_later = "2024-01-01"%string /\
  history_doc (store (fst (run endSession w)))
  = Some (add_duration "2024-01-01" 5000 ∅) /\
  sessions_doc (store (fst (run endSession w)))
  = Some (push_detail "2024-01-01" Sample.at_2300 Sample.five_seconds_later ∅).
Proof.
  split; [vm_compute; reflexivity |].
  refine (proj2 (endSession_same_day
            (Sample.tracking Sample.since_2300 (Sample.phone Sample.five_seconds_later))
            Sample.since_2300 ∅ ∅ eq_refl (reliable_phone _) eq_refl eq_refl eq_refl _) _).
  - vm_compute; reflexivity.
  - vm_compute. discriminate.
Defined.



Lemma endSession_reentrancy_witness :
  let w := Sample.tracking Sample.since_2300 (Sample.phone Sample.five_seconds_later) in
  _isEnding (mem w) = false /\
  suspended (snd (turns 1 endSession w)) = true /\
  run endSession (fst (turns 1 endSession w)) = (fst (turns 1 endSession w), Returned tt) /\
  _isEnding (mem (fst (run endSession w))) = false.
Proof.
  split; [reflexivity |].
  pose proof (endSession_reentrancy
                (Sample.tracking Sample.since_2300 (Sample.phone Sample.five_seconds_later))
                1 eq_refl) as (Hin & Hout & _).
  assert (Hs : suspended (snd (turns 1 endSession
             (Sample.tracking Sample.since_2300 (Sample.phone Sample.five_seconds_later))))
               = true) by (vm_compute; reflexivity).
  split; [exact Hs |]. split; [exact (proj1 (proj2 (Hin Hs))) | exact Hout].
Defined.

(** C5, the claim as stated fails on iOS: on Wi-Fi, with the raw
    identifier "Work-WiFi" stored and no identifier resolved by the oracle
    (so none that equals the stored one), the match is true. *)
Lemma network_match_ios_counterexample :
  let w := Sample.fresh (Sample.iphone 0) in
  on_wifi (device w) = true /\
  resolvedIdentifier (device w) = None /\
  snd (run (App.matchNetwork (on_wifi (device w)) (Some "Work-WiFi"%string)
              "Wi-Fi Connected") w)
  = Returned (true, "Wi-Fi Connected"%string).
Proof. vm_compute. repeat split. Qed.

Lemma tick_ends_stale_session_witness :
  let w := Sample.tracking Sample.since_2300 (Sample.phone Sample.twenty_one_minutes_later) in
  let w' := fst (run App.checkNetworkAndSession w) in
  on_wifi (device w) = true /\
  clock (device w) (clockReads w) - lastActive Sample.since_2300 = 21 * 60 * 1000 /\
  run getCurrentSession w' = (w', Returned None) /\
  store w' !! KEYS.CURRENT_SESSION = None /\
  history_doc (store w') = Some (add_duration "2024-01-01" 1260000 ∅) /\
  sessions_doc (store w')
  = Some (push_detail "2024-01-01" Sample.at_2300 Sample.twenty_one_minutes_later ∅).
Proof.
  split; [reflexivity |]. split; [reflexivity |].
  pose proof (TickFacts.tick_ends_stale_session
                (Sample.tracking Sample.since_2300
                   (Sample.phone Sample.twenty_one_minutes_later))
                Sample.since_2300 eq_refl (or_introl eq_refl) eq_refl)
    as (H1 & _ & _ & _ & _ & H6 & H7).
  split; [exact H1 |]. split; [exact (H6 (reliable_phone _)) |].
  exact (proj1 (H7 (reliable_phone _) ∅ ∅ eq_refl eq_refl) ltac:(vm_compute; reflexivity)).
Defined.

Lemma tick_clears_manual_pause_witness :
  let w := Sample.paused (Sample.offline 0) in
  let w' := fst (run App.checkNetworkAndSession w) in
  on_wifi (device w) = false /\
  IS_MANUAL_PAUSED (cache (mem w)) = Some true /\
  IS_MANUAL_PAUSED (cache (mem w')) = Some false /\
  store w' !! KEYS.IS_MANUAL_PAUSED = Some "false"%string.
Proof.
  split; [reflexivity |]. split; [reflexivity |].
  pose proof (tick_clears_manual_pause (Sample.paused (Sample.offline 0))
                eq_refl (or_introl eq_refl)) as (H1 & _ & _ & H4).
  split; [exact H1 | apply H4; intros n; reflexivity].
Defined.

End Witness.

(** ** Further statements at concrete states *)

Module Scenario.
Import StorageService.

Lemma reliable_sample (t : Z) :
  reliable (Sample.phone t) /\ reliable (Sample.offline t) /\
  reliable (Sample.netless t) /\ reliable (Sample.unlocated t).
Proof. repeat split; intros n; reflexivity. Qed.

Lemma in_sync_holding (st : gmap string string) (d : Device) :
  reliable d -> in_sync (Sample.holding st d).
Proof.
  intros Hrel. split; [exact Hrel |]. split; [reflexivity |].
  repeat split; intros v Hv; discriminate Hv.
Qed.

Lemma in_sync_tracking (d : Device) :
  reliable d -> in_sync (Sample.tracking Sample.since_2300 d).
Proof.
  intros Hrel. split; [exact Hrel |]. split; [reflexivity |].
  repeat split; intros v Hv; try discriminate Hv.
  injection Hv as <-. vm_compute. reflexivity.
Qed.

Lemma rejected_reads_give_defaults_witness :
  let w := Sample.fresh (Sample.failing (Sample.phone 0)) in
  rejects_next w = true /\
  idle_with getGoalHours default_goal w /\ idle_with getHistory ∅ w.
Proof.
  split; [reflexivity |].
  pose proof (ConfigurationFacts.rejected_reads_give_defaults
                (Sample.fresh (Sample.failing (Sample.phone 0))) eq_refl)
    as (_ & _ & Hg & _ & _ & Hh & _).
  split; [exact (Hg eq_refl) | exact Hh].
Defined.

Lemma settings_survive_relaunch_witness :
  let w := Sample.fresh (Sample.phone 0) in
  let w1 := fst (run (setTargetSSID (Some "Work"%string)
                        (Some (Js.quoted "Work-WiFi"))) w) in
  "Work"%string <> EmptyString /\
  snd (run getTargetSSID (relaunch w1)) = Returned (Some "Work"%string) /\
  snd (run getRawSSID (relaunch w1)) = Returned (Some "Work-WiFi"%string).
Proof.
  split; [discriminate |].
  pose proof (ConfigurationFacts.settings_survive_relaunch
                (Sample.fresh (Sample.phone 0)) "Work" (Some (Js.quoted "Work-WiFi")) true
                (Witness.reliable_phone 0) ltac:(discriminate)) as (H1 & H2 & _).
  split; [exact H1 | exact H2].
Defined.

Lemma session_survives_relaunch_witness :
  let w := Sample.fresh (Sample.phone Sample.at_2300) in
  rejects_next w = false /\
  snd (run getCurrentSession (relaunch (fst (run startSession w))))
  = Returned (Some Sample.since_2300).
Proof.
  split; [reflexivity |].
  pose proof (SessionFacts.session_survives_relaunch
                (Sample.fresh (Sample.phone Sample.at_2300))
                (Witness.reliable_phone _)) as (_ & _ & H).
  exact H.
Defined.

Lemma heartbeat_keeps_start_witness :
  let w := Sample.tracking Sample.since_2300 (Sample.phone Sample.five_seconds_later) in
  live_session w = Some Sample.since_2300 /\
  snd (run updateSessionHeartbeat w)
  = Returned (Some {| start := Sample.at_2300; lastActive := Sample.five_seconds_later |}).
Proof.
  split; [reflexivity |].
  pose proof (SessionFacts.heartbeat_keeps_start
                (Sample.tracking Sample.since_2300 (Sample.phone Sample.five_seconds_later))
                Sample.since_2300 (Witness.reliable_phone _) eq_refl) as (H & _).
  exact H.
Defined.

Lemma nothing_live_nothing_done_witness :
  let w := Sample.fresh (Sample.phone 0) in
  live_session w = None /\ session_shaped (store w) = true /\
  idle_with updateSessionHeartbeat None w /\ idle_with endSession tt w.
Proof.
  split; [reflexivity |]. split; [reflexivity |].
  exact (SessionFacts.nothing_live_nothing_done (Sample.fresh (Sample.phone 0))
           eq_refl eq_refl).
Defined.

Lemma addToHistory_then_read_witness :
  let w := Sample.fresh (Sample.phone Sample.at_2300) in
  let w' := fst (run (addToHistory Sample.at_2300 5000) w) in
  history_doc (store w) = Some ∅ /\
  snd (run (getDurationForDate "2024-01-01") w') = Returned 5000.
Proof.
  split; [reflexivity |].
  pose proof (LedgerReads.addToHistory_then_read
                (Sample.fresh (Sample.phone Sample.at_2300)) Sample.at_2300 5000 ∅ ∅
                (Witness.reliable_phone _) eq_refl eq_refl) as (H & _).
  exact H.
Defined.

Lemma addSessionDetail_then_read_witness :
  let w := Sample.fresh (Sample.phone Sample.at_2300) in
  let w' := fst (run (addSessionDetail Sample.at_2300 Sample.five_seconds_later) w) in
  sessions_doc (store w) = Some ∅ /\
  snd (run (getSessionsForDate "2024-01-01") w')
  = Returned [{| d_start := Sample.at_2300; d_end := Sample.five_seconds_later;
                 d_duration := 5000 |}].
Proof.
  split; [reflexivity |].
  pose proof (LedgerReads.addSessionDetail_then_read
                (Sample.fresh (Sample.phone Sample.at_2300))
                Sample.at_2300 Sample.five_seconds_later ∅ ∅
                (Witness.reliable_phone _) eq_refl eq_refl) as (H & _).
  exact H.
Defined.

Lemma recorded_time_is_never_lost_witness :
  let w := Sample.tracking Sample.since_2300 (Sample.phone Sample.five_seconds_later) in
  session_shaped (store w) = true /\
  grows w (fst (run endSession w)) /\
  grows w (fst (run App.checkNetworkAndSession w)).
Proof.
  split; [vm_compute; reflexivity |].
  pose proof (InvariantFacts.recorded_time_is_never_lost
                (Sample.tracking Sample.since_2300 (Sample.phone Sample.five_seconds_later))
                ltac:(vm_compute; reflexivity)) as (H1 & _ & H3 & _).
  split; [exact H3 | exact H1].
Defined.

Lemma cache_stays_in_sync_witness :
  let w := Sample.configured (Sample.phone Sample.at_2300) in
  in_sync w /\ in_sync (fst (run App.checkNetworkAndSession w)).
Proof.
  pose proof (in_sync_holding
                {[ KEYS.TARGET_SSID := "Work"%string; KEYS.RAW_SSID := "Work-WiFi"%string ]}
                (Sample.phone Sample.at_2300) (Witness.reliable_phone _)) as Hsync.
  split; [exact Hsync |].
  exact (proj1 (InvariantFacts.cache_stays_in_sync
                  (Sample.configured (Sample.phone Sample.at_2300)) Hsync)).
Defined.

Lemma cache_is_transparent_witness :
  let w := Sample.tracking Sample.since_2300 (Sample.phone Sample.five_seconds_later) in
  in_sync w /\ session_shaped (store w) = true /\
  snd (run getCurrentSession w) = snd (run getCurrentSession (relaunch w)).
Proof.
  pose proof (in_sync_tracking (Sample.phone Sample.five_seconds_later)
                (Witness.reliable_phone _)) as Hsync.
  split; [exact Hsync |]. split; [vm_compute; reflexivity |].
  pose proof (InvariantFacts.cache_is_transparent
                (Sample.tracking Sample.since_2300 (Sample.phone Sample.five_seconds_later))
                Hsync ltac:(vm_compute; reflexivity)) as (_ & _ & _ & _ & H).
  exact H.
Defined.

Lemma tick_starts_tracking_witness :
  let w := Sample.configured (Sample.phone Sample.at_2300) in
  let w' := fst (run App.checkNetworkAndSession w) in
  seen_session w = None /\ session_shaped (store w) = true /\ should_track w = true /\
  run getCurrentSession w' = (w', Returned (Some Sample.since_2300)) /\
  isConnectedToOffice (ui (mem w')) = true.
Proof.
  split; [reflexivity |]. split; [reflexivity |]. split; [vm_compute; reflexivity |].
  pose proof (TickFacts.tick_starts_tracking
                (Sample.configured (Sample.phone Sample.at_2300))
                (Witness.reliable_phone _) eq_refl eq_refl ltac:(vm_compute; reflexivity))
    as (H1 & _ & H3 & _).
  split; [exact H1 | exact H3].
Defined.

Lemma tick_stops_tracking_witness :
  let w := Sample.tracking Sample.since_2300 (Sample.offline Sample.five_seconds_later) in
  let w' := fst (run App.checkNetworkAndSession w) in
  seen_session w = Some Sample.since_2300 /\ should_track w = false /\
  run getCurrentSession w' = (w', Returned None) /\
  history_doc (store w') = Some (add_duration "2024-01-01" 5000 ∅).
Proof.
  split; [reflexivity |]. split; [vm_compute; reflexivity |].
  pose proof (TickFacts.tick_stops_tracking
                (Sample.tracking Sample.since_2300 (Sample.offline Sample.five_seconds_later))
                Sample.since_2300 ∅ ∅
                (proj1 (proj2 (reliable_sample _))) eq_refl eq_refl
                ltac:(vm_compute; reflexivity) eq_refl eq_refl)
    as (H1 & _ & _ & _ & _ & _ & H7).
  split; [exact H1 |].
  exact (proj1 (H7 ltac:(vm_compute; reflexivity))).
Defined.

Lemma tick_keeps_tracking_witness :
  let w := Sample.resumed Sample.since_2300 (Sample.phone Sample.six_seconds_later) in
  let w' := fst (run App.checkNetworkAndSession w) in
  seen_session w = Some Sample.since_2300 /\ should_track w = true /\
  run getCurrentSession w'
  = (w', Returned (Some {| start := Sample.at_2300;
                           lastActive := Sample.six_seconds_later |})) /\
  sessionDuration (ui (mem w')) = 6000.
Proof.
  split; [vm_compute; reflexivity |]. split; [vm_compute; reflexivity |].
  pose proof (TickFacts.tick_keeps_tracking
                (Sample.resumed Sample.since_2300 (Sample.phone Sample.six_seconds_later))
                Sample.since_2300
                (Witness.reliable_phone _) ltac:(vm_compute; reflexivity)
                ltac:(vm_compute; reflexivity) ltac:(vm_compute; discriminate)
                ltac:(vm_compute; reflexivity))
    as (H1 & _ & H3 & _).
  split; [exact H1 | exact H3].
Defined.

Lemma tick_stays_idle_witness :
  let w := Sample.fresh (Sample.phone 0) in
  let w' := fst (run App.checkNetworkAndSession w) in
  seen_session w = None /\ session_shaped (store w) = true /\ should_track w = false /\
  seen_session w' = None /\
  currentSSIDName (ui (mem w')) = Some "Wi-Fi Connected (Not Configured)"%string.
Proof.
  split; [reflexivity |]. split; [reflexivity |]. split; [vm_compute; reflexivity |].
  pose proof (TickFacts.tick_stays_idle (Sample.fresh (Sample.phone 0))
                (Witness.reliable_phone _) eq_refl eq_refl ltac:(vm_compute; reflexivity))
    as (H1 & _ & _ & _ & _ & _ & _ & _ & _ & H10).
  split; [exact H1 | exact H10].
Defined.

Lemma tick_restarts_at_midnight_witness :
  let w := Sample.resumed Sample.overnight (Sample.phone Sample.next_day_0100) in
  let w' := fst (run App.checkNetworkAndSession w) in
  seen_session w = Some Sample.overnight /\ should_track w = true /\
  dayKey (device w) Sample.at_2300 <> dayKey (device w) Sample.next_day_0100 /\
  run getCurrentSession w'
  = (w', Returned (Some {| start := Sample.next_day_0100;
                           lastActive := Sample.next_day_0100 |})) /\
  history_doc (store w')
  = Some (add_duration "2024-01-02" 3600000 (add_duration "2024-01-01" 3599999 ∅)).
Proof.
  split; [vm_compute; reflexivity |]. split; [vm_compute; reflexivity |].
  split; [vm_compute; discriminate |].
  pose proof (TickFacts.tick_restarts_at_midnight
                (Sample.resumed Sample.overnight (Sample.phone Sample.next_day_0100))
                Sample.overnight ∅ ∅
                (Witness.reliable_phone _) eq_refl ltac:(vm_compute; reflexivity)
                ltac:(vm_compute; reflexivity) ltac:(vm_compute; discriminate)
                ltac:(vm_compute; discriminate) eq_refl eq_refl)
    as (H1 & _ & _ & _ & _ & _ & H7).
  split; [exact H1 |].
  exact (proj1 (H7 ltac:(vm_compute; discriminate))).
Defined.

Lemma background_task_stands_by_witness :
  let w := Sample.fresh (Sample.phone 0) in
  Js.truthy (seen_target w) = false /\
  store (fst (run (App.backgroundTask true false) w)) = store w.
Proof.
  split; [reflexivity |].
  pose proof (BackgroundFacts.background_task_stands_by (Sample.fresh (Sample.phone 0))
                true false (Witness.reliable_phone _)
                (or_intror (or_intror (or_introl eq_refl)))) as (H & _).
  exact H.
Defined.

Lemma background_task_decides_witness :
  let w := Sample.configured (Sample.phone Sample.at_2300) in
  let w' := fst (run (App.backgroundTask true false) w) in
  in_sync w /\ session_shaped (store w) = true /\ seen_session w = None /\
  network_match (device w) (seen_raw w) = true /\
  run getCurrentSession w' = (w', Returned (Some Sample.since_2300)).
Proof.
  pose proof (in_sync_holding
                {[ KEYS.TARGET_SSID := "Work"%string; KEYS.RAW_SSID := "Work-WiFi"%string ]}
                (Sample.phone Sample.at_2300) (Witness.reliable_phone _)) as Hsync.
  split; [exact Hsync |]. split; [reflexivity |]. split; [reflexivity |].
  split; [vm_compute; reflexivity |].
  exact (proj1 (BackgroundFacts.background_task_decides
                  (Sample.configured (Sample.phone Sample.at_2300)) ∅ ∅
                  Hsync eq_refl eq_refl eq_refl eq_refl eq_refl)).
Defined.

Lemma pause_button_sets_flag_witness :
  let w := Sample.configured (Sample.phone 0) in
  let w' := fst (run (App.onPressPause false) w) in
  on_wifi (device w) = true /\
  run getManualPause w' = (w', Returned true) /\
  store w' !! KEYS.IS_MANUAL_PAUSED = Some "true"%string.
Proof.
  split; [reflexivity |].
  pose proof (HandlerFacts.pause_button_sets_flag (Sample.configured (Sample.phone 0))
                false (Witness.reliable_phone _)) as (_ & H2 & _ & H4).
  split; [exact H2 | exact H4].
Defined.

Lemma pausing_ends_the_session_witness :
  let w := Sample.tracking Sample.since_2300 (Sample.phone Sample.five_seconds_later) in
  let w' := fst (run (App.onPressPause false) w) in
  on_wifi (device w) = true /\ seen_session w = Some Sample.since_2300 /\
  run getCurrentSession w' = (w', Returned None) /\
  history_doc (store w') = Some (add_duration "2024-01-01" 5000 ∅).
Proof.
  split; [reflexivity |]. split; [reflexivity |].
  pose proof (HandlerFacts.pausing_ends_the_session
                (Sample.tracking Sample.since_2300 (Sample.phone Sample.five_seconds_later))
                Sample.since_2300 ∅ ∅
                (Witness.reliable_phone _) eq_refl eq_refl eq_refl eq_refl)
    as (H1 & _ & _ & _ & H5).
  split; [exact H1 |].
  exact (proj1 (H5 ltac:(vm_compute; reflexivity))).
Defined.

Lemma reset_forgets_everything_witness :
  let w := Sample.configured (Sample.phone 0) in
  let w' := fst (run App.onPressReset w) in
  in_sync w /\ session_shaped (store w) = true /\ seen_target w = Some "Work"%string /\
  seen_target w' = None /\ store w' !! KEYS.RAW_SSID = None /\
  currentSSIDName (ui (mem w')) = Some "Wi-Fi Connected (Not Configured)"%string.
Proof.
  pose proof (in_sync_holding
                {[ KEYS.TARGET_SSID := "Work"%string; KEYS.RAW_SSID := "Work-WiFi"%string ]}
                (Sample.phone 0) (Witness.reliable_phone _)) as Hsync.
  split; [exact Hsync |]. split; [reflexivity |]. split; [reflexivity |].
  pose proof (HandlerFacts.reset_forgets_everything (Sample.configured (Sample.phone 0))
                Hsync eq_refl)
    as (_ & _ & _ & H4 & _ & _ & _ & H8 & _ & _ & _ & _ & _ & _ & H15).
  split; [exact H8 |]. split; [exact H4 | exact H15].
Defined.

Lemma network_queries_fail_safe_witness :
  let w := Sample.fresh (Sample.netless 0) in
  netinfo (device w) = None /\
  run NetworkService.isConnectedToWifi w = (w, Returned false) /\
  run (NetworkService.isConnectedToTargetNetwork (Some "Work-WiFi"%string)) w
  = (w, Returned false).
Proof.
  split; [reflexivity |].
  pose proof (NetworkFacts.network_queries_fail_safe (Sample.fresh (Sample.netless 0))
                eq_refl) as (_ & H2 & H3).
  split; [exact H2 | exact (H3 _)].
Defined.

Lemma android_location_gate_witness :
  let w := Sample.fresh (Sample.unlocated 0) in
  ssid Sample.office = Some (Js.quoted "Work-WiFi") /\
  locationServicesEnabled (device w) = Some false /\
  run NetworkService.getCurrentSSID w = (w, Returned None) /\
  run (NetworkService.isConnectedToTargetNetwork (Some "Work-WiFi"%string)) w
  = (w, Returned false).
Proof.
  split; [reflexivity |]. split; [reflexivity |].
  pose proof (NetworkFacts.android_location_gate (Sample.fresh (Sample.unlocated 0))
                Sample.office eq_refl eq_refl eq_refl) as (H & _).
  destruct (H eq_refl) as (H1 & H2).
  split; [exact H1 | exact (H2 _)].
Defined.

Lemma captured_network_is_recognised_witness :
  let w := Sample.fresh (Sample.phone 0) in
  let w1 := fst (run (setTargetSSID (Some "Work"%string) (Some "Work-WiFi"%string)) w) in
  run NetworkService.getCurrentSSID w = (w, Returned (Some "Work-WiFi"%string)) /\
  Js.stripQuotes "Work-WiFi" = "Work-WiFi"%string /\
  exists label',
    run (App.matchNetwork true (Some "Work-WiFi"%string) "Wi-Fi Connected") w1
    = (w1, Returned (true, label')).
Proof.
  split; [reflexivity |]. split; [reflexivity |].
  pose proof (NetworkFacts.captured_network_is_recognised (Sample.fresh (Sample.phone 0))
                "Work" "Work-WiFi" "Wi-Fi Connected"
                (Witness.reliable_phone _) eq_refl ltac:(discriminate) ltac:(discriminate)
                eq_refl) as (_ & _ & H).
  exact H.
Defined.

End Scenario.
